(** * setup_vscode.py: editor configuration for a ROS 2 workspace

    A shallow embedding of [src/setup_vscode.py] and the properties of its
    three components: path and package discovery, the settings.json writer
    and the pyproject.toml writer.

    Python [str] values are [string]s (byte sequences; the lexicographic
    order on UTF-8 bytes is the code point order Python uses).  The
    interpreter state the script reads ([sys.argv], [sys.version_info],
    [sys.executable], [os.environ], the current directory) is a record;
    the file system and standard output are threaded through a small state
    and exception monad. *)

From Stdlib Require Import String Ascii List Bool Arith ZArith Lia.
From Stdlib Require Import Permutation Sorted DecimalString OrderedTypeEx.
Import ListNotations.
Set Warnings "-register-all".
Open Scope string_scope.
Open Scope list_scope.

(** String concatenation (Python's [+] on [str], and the pieces of an
    f-string); [++] is kept for lists. *)
Infix "+++" := String.append (at level 60, right associativity).

(** ** Python [str] helpers *)

Module Str.

Definition slash : ascii := "/"%char.
Definition colon : ascii := ":"%char.
Definition newline : string := String (ascii_of_nat 10) "".

(** [' ' * n] *)
Fixpoint spaces (n : nat) : string :=
  match n with
  | O => ""
  | S k => String " "%char (spaces k)
  end.

(** [str(n)] for a non-negative [int]. *)
Definition of_nat (n : nat) : string :=
  NilEmpty.string_of_uint (Nat.to_uint n).

(** [s.split(sep)] for a one-character separator: never empty, and
    ["".split(sep) == [""]]. *)
Fixpoint split (sep : ascii) (s : string) : list string :=
  match s with
  | EmptyString => [""]
  | String c r =>
      if Ascii.eqb c sep then "" :: split sep r
      else match split sep r with
           | h :: t => String c h :: t
           | [] => [String c ""]
           end
  end.

(** [sep in s] for a one-character separator. *)
Fixpoint contains (sep : ascii) (s : string) : bool :=
  match s with
  | EmptyString => false
  | String c r => Ascii.eqb c sep || contains sep r
  end.

(** [s.startswith(c)] and [s.endswith(c)]. *)
Definition startswith (c : ascii) (s : string) : bool :=
  match s with
  | String a _ => Ascii.eqb a c
  | EmptyString => false
  end.

Fixpoint endswith (c : ascii) (s : string) : bool :=
  match s with
  | EmptyString => false
  | String a EmptyString => Ascii.eqb a c
  | String _ r => endswith c r
  end.

(** Truthiness of a [str]: non-empty. *)
Definition truthy (s : string) : bool :=
  match s with
  | EmptyString => false
  | _ => true
  end.

End Str.

(** ** [pathlib.PurePosixPath]

    A path object is its parsed form: the root (["", "/"] or ["//"]) and
    the list of components.  Parsing drops empty and ["."] components;
    [".."] is kept. *)

Module pathlib.

Record PurePath : Type := mkPath { root : string; tail : list string }.

(** [posixpath.splitroot] (the drive is always empty on POSIX). *)
Definition splitroot (p : string) : string * string :=
  match p with
  | String c1 r1 =>
      if Ascii.eqb c1 Str.slash then
        match r1 with
        | String c2 r2 =>
            if Ascii.eqb c2 Str.slash then
              if Str.startswith Str.slash r2 then ("/", r1) else ("//", r2)
            else ("/", r1)
        | EmptyString => ("/", r1)
        end
      else ("", p)
  | EmptyString => ("", p)
  end.

Definition keep_part (x : string) : bool :=
  Str.truthy x && negb (x =? ".").

(** [Path(s)] *)
Definition Path (s : string) : PurePath :=
  let '(rt, rel) := splitroot s in
  mkPath rt (filter keep_part (Str.split Str.slash rel)).

(** [str(p)] *)
Definition str (p : PurePath) : string :=
  let s := root p +++ String.concat "/" (tail p) in
  if Str.truthy s then s else ".".

(** [posixpath.join(a, b)] *)
Definition join (a b : string) : string :=
  if Str.startswith Str.slash b then b
  else if negb (Str.truthy a) || Str.endswith Str.slash a then a +++ b
  else a +++ "/" +++ b.

(** [p / s] *)
Definition truediv (p : PurePath) (s : string) : PurePath :=
  Path (join (str p) s).

(** [p.name] *)
Definition name (p : PurePath) : string := last (tail p) "".

(** [p.parent] *)
Definition parent (p : PurePath) : PurePath :=
  mkPath (root p) (removelast (tail p)).

(** The child objects [iterdir] builds: the entry name is appended to the
    components as it is, without parsing. *)
Definition make_child_relpath (p : PurePath) (entry : string) : PurePath :=
  mkPath (root p) (tail p ++ [entry]).

End pathlib.

Import pathlib.
Notation "p // s" := (truediv p s) (at level 40, left associativity).

(** ** Documents

    [json.load] yields any JSON value; objects are Python [dict]s, which
    keep insertion order, so they are association lists.  Numbers are only
    stored and written back, never inspected: they are kept as their
    literal. *)

Inductive json : Type :=
  | JNull
  | JBool (b : bool)
  | JNumber (literal : string)
  | JStr (s : string)
  | JArr (items : list json)
  | JObj (members : list (string * json)).

(** TOML values as [toml.load] returns them.  Floats and date-times are
    outside the model. *)
Inductive toml : Type :=
  | TStr (s : string)
  | TInt (z : Z)
  | TBool (b : bool)
  | TArr (items : list toml)
  | TTable (members : list (string * toml)).

(** *** Python [dict] with [str] keys *)

Module dict.
Section Dict.
Context {V : Type}.

(** [d.get(k)] *)
Fixpoint get (d : list (string * V)) (k : string) : option V :=
  match d with
  | [] => None
  | (k', v) :: r => if k' =? k then Some v else get r k
  end.

(** [d[k] = v]: an existing key keeps its position, a new key goes to
    the end. *)
Fixpoint set (d : list (string * V)) (k : string) (v : V)
  : list (string * V) :=
  match d with
  | [] => [(k, v)]
  | (k', v') :: r =>
      if k' =? k then (k', v) :: r else (k', v') :: set r k v
  end.

End Dict.
End dict.

(** The text of a file and the two serialisation libraries ([json] and
    [toml]), which the script only calls.  [None] is the library's decode
    error. *)
Class Serialization : Type := {
  text : Type;
  json_loads : text -> option json;
  json_dumps : json -> text;
  toml_loads : text -> option (list (string * toml));
  toml_dumps : list (string * toml) -> text
}.

(** What [dump] wrote, [load] reads back. *)
Definition Roundtrip (S : Serialization) : Prop :=
  (forall d, json_loads (json_dumps d) = Some d) /\
  (forall t, toml_loads (toml_dumps t) = Some t).

(** ** Exceptions *)

Inductive exn_class : Type :=
  | FileNotFoundError
  | FileExistsError
  | IsADirectoryError
  | NotADirectoryError
  | PermissionError
  | OSError
  | JSONDecodeError
  | TomlDecodeError
  | TypeError
  | AttributeError.

Inductive exn : Type :=
  | SystemExit (code : nat)
  | Exception (cls : exn_class) (msg : string).

(** [OSError] and its subclasses. *)
Definition is_OSError (c : exn_class) : bool :=
  match c with
  | FileNotFoundError | FileExistsError | IsADirectoryError
  | NotADirectoryError | PermissionError | OSError => true
  | _ => false
  end.

Definition is_JSONDecodeError (c : exn_class) : bool :=
  match c with
  | JSONDecodeError => true
  | _ => false
  end.

(** [str(e)] *)
Definition exn_str (e : exn) : string :=
  match e with
  | SystemExit n => Str.of_nat n
  | Exception _ msg => msg
  end.

(** ** The world: file system and standard output *)

Section World.
Context {S : Serialization}.

Inductive node : Type :=
  | Dir (writable : bool)
  | File (readable writable : bool) (data : text).

(** What a path string resolves to, and [os.listdir] in on-disk order. *)
Record filesystem : Type := mkFs {
  lookup : string -> option node;
  listdir : string -> list string
}.

Record world : Type := mkWorld {
  fs : filesystem;
  stdout : list string
}.

Inductive outcome (A : Type) : Type :=
  | Returns (a : A) (w : world)
  | Raises (e : exn) (w : world).
Arguments Returns {A} a w.
Arguments Raises {A} e w.

Definition M (A : Type) : Type := world -> outcome A.

Definition ret {A} (a : A) : M A := fun w => Returns a w.

Definition bind {A B} (m : M A) (k : A -> M B) : M B :=
  fun w =>
    match m w with
    | Returns a w' => k a w'
    | Raises e w' => Raises e w'
    end.

Definition raise {A} (e : exn) : M A := fun w => Raises e w.

(** [try: body except <classes>: handler] *)
Definition try_except {A} (body : M A) (catches : exn_class -> bool)
    (handler : exn -> M A) : M A :=
  fun w =>
    match body w with
    | Returns a w' => Returns a w'
    | Raises (Exception c msg) w' =>
        if catches c then handler (Exception c msg) w'
        else Raises (Exception c msg) w'
    | Raises e w' => Raises e w'
    end.

(** [except Exception] *)
Definition any_Exception (c : exn_class) : bool := true.

(** [print(s)]: one entry per call. *)
Definition print (s : string) : M unit :=
  fun w => Returns tt (mkWorld (fs w) (stdout w ++ [s])).

(** [sys.exit(n)] *)
Definition sys_exit {A} (n : nat) : M A := raise (SystemExit n).

(** The final state of an outcome. *)
Definition final {A} (o : outcome A) : world :=
  match o with
  | Returns _ w => w
  | Raises _ w => w
  end.

(** The exit status of the process. *)
Definition exit_status {A} (o : outcome A) : nat :=
  match o with
  | Returns _ _ => 0
  | Raises (SystemExit n) _ => n
  | Raises (Exception _ _) _ => 1
  end.

End World.

Arguments Returns {S A} a w.
Arguments Raises {S A} e w.

Declare Scope py_scope.
Delimit Scope py_scope with py.
Notation "x <- m ;; k" := (bind m (fun x => k))
  (at level 61, m at next level, right associativity) : py_scope.
Notation "m ;; k" := (bind m (fun _ => k))
  (at level 61, right associativity) : py_scope.
Open Scope py_scope.

(** ** The interpreter state the script reads *)

Record interpreter : Type := mkInterp {
  argv : list string;              (* sys.argv *)
  version_major : nat;             (* sys.version_info.major *)
  version_minor : nat;             (* sys.version_info.minor *)
  executable : string;             (* sys.executable *)
  environ_PYTHONPATH : option string;  (* os.environ: PYTHONPATH *)
  getcwd : string                  (* os.getcwd() *)
}.

(** ** The platform

    [Path.is_dir] and [Path.exists] call [os.stat] and swallow only the
    errors that mean "not there" (ENOENT, ENOTDIR, EBADF, ELOOP); any
    other [OSError] of the call comes out of them (CPython up to 3.13).
    [Path.iterdir] calls [os.listdir], whose errors all come out.  Which
    paths fail, and with which error, is the platform's answer: the
    class and the message of the error, if there is one. *)
Class Platform {S : Serialization} : Type := {
  stat_error : filesystem -> string -> option (exn_class * string);
  listdir_error : filesystem -> string -> option (exn_class * string)
}.

(** The platform on which every probe is answered.  The script is
    written for any platform; the properties below are about its runs on
    this one, except those stated for a platform [P]. *)
#[export] Instance answering {S : Serialization} : Platform := {
  stat_error := fun _ _ => None;
  listdir_error := fun _ _ => None
}.

(** ** File system operations ([pathlib.Path] methods, [open]) *)

Section OS.
Context {S : Serialization} {P : Platform}.

Definition fs_is_dir (f : filesystem) (s : string) : bool :=
  match lookup f s with
  | Some (Dir _) => true
  | _ => false
  end.

Definition fs_exists (f : filesystem) (s : string) : bool :=
  match lookup f s with
  | Some _ => true
  | None => false
  end.

(** A call that raises the platform's error, if there is one. *)
Definition answer {A} (error : option (exn_class * string)) (a : A) : M A :=
  fun w =>
    match error with
    | Some (c, msg) => Raises (Exception c msg) w
    | None => Returns a w
    end.

(** [p.is_dir()], [p.exists()]: a missing entry is [False], not an error;
    an error of the platform is raised. *)
Definition is_dir (p : PurePath) : M bool :=
  fun w => answer (stat_error (fs w) (str p)) (fs_is_dir (fs w) (str p)) w.

Definition exists_ (p : PurePath) : M bool :=
  fun w => answer (stat_error (fs w) (str p)) (fs_exists (fs w) (str p)) w.

(** [p.iterdir()] *)
Definition iterdir (p : PurePath) : M (list PurePath) :=
  fun w =>
    answer (listdir_error (fs w) (str p))
      (map (make_child_relpath p) (listdir (fs w) (str p))) w.

(** An existing entry gets a new node; the listings stay. *)
Definition fs_replace (f : filesystem) (p : PurePath) (n : node)
  : filesystem :=
  mkFs (fun k => if k =? str p then Some n else lookup f k) (listdir f).

(** A new entry: it also shows up in the listing of its parent. *)
Definition fs_create (f : filesystem) (p : PurePath) (n : node)
  : filesystem :=
  mkFs (fun k => if k =? str p then Some n else lookup f k)
       (fun k => if k =? str (parent p) then listdir f k ++ [name p]
                 else listdir f k).

Definition os_error {A} (c : exn_class) (errno : string) (p : PurePath)
  : M A :=
  raise (Exception c (errno +++ ": '" +++ str p +++ "'")).

(** Creating the entry [p] needs a writable parent directory. *)
Definition create_entry (p : PurePath) (n : node) : M unit :=
  fun w =>
    match lookup (fs w) (str (parent p)) with
    | Some (Dir true) => Returns tt (mkWorld (fs_create (fs w) p n) (stdout w))
    | Some (Dir false) =>
        os_error PermissionError "[Errno 13] Permission denied" p w
    | Some (File _ _ _) =>
        os_error NotADirectoryError "[Errno 20] Not a directory" p w
    | None =>
        os_error FileNotFoundError "[Errno 2] No such file or directory" p w
    end.

(** [p.mkdir(exist_ok=True)]: an existing directory is accepted, any other
    existing entry is a [FileExistsError]. *)
Definition mkdir_exist_ok (p : PurePath) : M unit :=
  fun w =>
    match lookup (fs w) (str p) with
    | Some (Dir _) => Returns tt w
    | Some (File _ _ _) =>
        os_error FileExistsError "[Errno 17] File exists" p w
    | None => create_entry p (Dir true) w
    end.

(** [with p.open('r') as f: f.read()] *)
Definition open_read (p : PurePath) : M text :=
  fun w =>
    match lookup (fs w) (str p) with
    | Some (File true _ data) => Returns data w
    | Some (File false _ _) =>
        os_error PermissionError "[Errno 13] Permission denied" p w
    | Some (Dir _) =>
        os_error IsADirectoryError "[Errno 21] Is a directory" p w
    | None =>
        os_error FileNotFoundError "[Errno 2] No such file or directory" p w
    end.

(** [with p.open('w') as f: f.write(data)] *)
Definition open_write (p : PurePath) (data : text) : M unit :=
  fun w =>
    match lookup (fs w) (str p) with
    | Some (File r true _) =>
        Returns tt (mkWorld (fs_replace (fs w) p (File r true data))
                            (stdout w))
    | Some (File _ false _) =>
        os_error PermissionError "[Errno 13] Permission denied" p w
    | Some (Dir _) =>
        os_error IsADirectoryError "[Errno 21] Is a directory" p w
    | None => create_entry p (File true true data) w
    end.

(** [for x in xs: acc = body(x, acc)] *)
Fixpoint for_each {A B} (xs : list A) (body : A -> B -> M B) (acc : B)
  : M B :=
  match xs with
  | [] => ret acc
  | x :: r => acc' <- body x acc ;; for_each r body acc'
  end.

End OS.

(** Linux answers [stat] and [listdir] with ENAMETOOLONG for a path that
    has a component longer than [NAME_MAX] bytes, once the directories
    before that component are there (a missing one is ENOENT first, which
    is swallowed). *)
Section Linux.
Context {S : Serialization}.

Definition NAME_MAX : nat := 255.

Fixpoint name_too_long (f : filesystem) (rt : string)
    (before rest : list string) : bool :=
  match rest with
  | [] => false
  | x :: r =>
      if Nat.ltb NAME_MAX (String.length x) then true
      else
        match r with
        | [] => false
        | _ =>
            fs_is_dir f (str (mkPath rt (before ++ [x])))
            && name_too_long f rt (before ++ [x]) r
        end
  end.

Definition ENAMETOOLONG (f : filesystem) (s : string)
  : option (exn_class * string) :=
  let p := Path s in
  if name_too_long f (root p) [] (tail p)
  then Some (OSError, "[Errno 36] File name too long: '" +++ s +++ "'")
  else None.

Definition linux : Platform := {|
  stat_error := ENAMETOOLONG;
  listdir_error := ENAMETOOLONG
|}.

End Linux.

(** ** Python builtins: [set], [sorted] *)

Module builtins.
Section Builtins.
Context {A : Type}.

(** [list(set(xs))]: an element is added unless an equal one is already
    there.  A set has no iteration order of its own; the order chosen
    here is that of first insertion, and [sorted] below is shown not to
    depend on it. *)
Definition set_add (eqb : A -> A -> bool) (acc : list A) (x : A)
  : list A :=
  if existsb (eqb x) acc then acc else acc ++ [x].

Definition list_set (eqb : A -> A -> bool) (xs : list A) : list A :=
  fold_left (set_add eqb) xs [].

(** [sorted(xs)] with [<] given by [ltb]: a stable insertion sort. *)
Fixpoint insert (ltb : A -> A -> bool) (x : A) (l : list A) : list A :=
  match l with
  | [] => [x]
  | y :: r => if ltb y x then y :: insert ltb x r else x :: l
  end.

Definition sorted (ltb : A -> A -> bool) (xs : list A) : list A :=
  fold_right (insert ltb) [] xs.
End Builtins.
End builtins.

(** ** The script *)

Section Script.
Context {S : Serialization} {P : Platform}.
Variable sys : interpreter.

(** [f'{sys.version_info.major}.{sys.version_info.minor}'] with [gap]
    between the dot and the minor number. *)
Definition major_str : string := Str.of_nat (version_major sys).
Definition minor_str : string := Str.of_nat (version_minor sys).

Definition get_python_version_string : string :=
  "python" +++ major_str +++ "." +++ minor_str.

(** *** [find_paths_and_packages]

    A backslash at the end of a line inside a string literal joins the
    lines: the indentation of the next line is part of the string. *)

(** Lines 58-62. *)
Definition base_ros_path (ros_distro : string) : PurePath :=
  Path ("/opt/ros/" +++ ros_distro +++ "/lib/python" +++ Str.spaces 29
        +++ major_str +++ "." +++ minor_str +++ "]" +++ Str.spaces 29
        +++ "/site-packages").

(** Lines 68-72. *)
Definition dist_packages_path (ros_distro : string) : PurePath :=
  Path ("/opt/ros/" +++ ros_distro +++ "/lib/python" +++ Str.spaces 34
        +++ major_str +++ "." +++ Str.spaces 36
        +++ minor_str +++ "/dist-packages").

(** Lines 78-80: the backslash before the brace stays in the string. *)
Definition system_site_packages (python_version ros_distro : string)
  : PurePath :=
  Path ("/opt/ros/\" +++ ros_distro +++ "/lib/" +++ python_version
        +++ "/site-packages").

(** [if p.is_dir(): python_paths.append(str(p)); print(label + str(p))] *)
Definition append_if_dir (label : string) (p : PurePath)
    (python_paths : list string) : M (list string) :=
  d <- is_dir p ;;
  if d then
    print (label +++ str p) ;;
    ret (python_paths ++ [str p])
  else ret python_paths.

(** Lines 56-85: the system ROS 2 paths. *)
Definition system_ros_paths (python_version ros_distro : string)
    (python_paths : list string) : M (list string) :=
  if Str.truthy ros_distro then
    python_paths <- append_if_dir "Found base ROS path: "
                      (base_ros_path ros_distro) python_paths ;;
    python_paths <- append_if_dir "Found ROS dist-packages: "
                      (dist_packages_path ros_distro) python_paths ;;
    append_if_dir "Found system site-packages: "
      (system_site_packages python_version ros_distro) python_paths
  else
    print "Warning: ROS_DISTRO not set. System paths will be missing." ;;
    ret python_paths.

(** Lines 102-108. *)
Definition possible_paths (python_version : string) (package_dir : PurePath)
  : list PurePath :=
  [ package_dir // ("lib/" +++ python_version +++ "/site-packages");
    package_dir // ("lib/python" +++ Str.spaces 12 +++ major_str +++ "."
                    +++ minor_str +++ "/site-packages");
    package_dir // "lib" ].

(** Lines 94-113: the loop over [install_dir.iterdir()]; the state is
    [(python_paths, local_packages)]. *)
Definition local_package_step (python_version : string)
    (package_dir : PurePath) (acc : list string * list string)
  : M (list string * list string) :=
  let '(python_paths, local_packages) := acc in
  d <- is_dir package_dir ;;
  if negb d then ret (python_paths, local_packages)
  else
    let local_packages := local_packages ++ [name package_dir] in
    python_paths <- for_each (possible_paths python_version package_dir)
                      (append_if_dir "Found local path: ") python_paths ;;
    ret (python_paths, local_packages).

(** Lines 116-121: the entries of [PYTHONPATH]. *)
Definition pythonpath_step (path : string) (python_paths : list string)
  : M (list string) :=
  if Str.truthy path then
    d <- is_dir (Path path) ;;
    if d then
      print ("Found PYTHONPATH: " +++ path) ;;
      ret (python_paths ++ [path])
    else ret python_paths
  else ret python_paths.

Definition pythonpath_paths (python_paths : list string) : M (list string) :=
  let python_path_env :=
    match environ_PYTHONPATH sys with
    | Some v => v
    | None => ""
    end in
  if Str.truthy python_path_env then
    for_each (Str.split Str.colon python_path_env) pythonpath_step
      python_paths
  else ret python_paths.

(** Lines 124-129: [seen] is a set of strings, used for membership only;
    the state of the loop is [(seen, unique_paths)]. *)
Definition mem (x : string) (seen : list string) : bool :=
  existsb (String.eqb x) seen.

Fixpoint dedupe_loop (python_paths seen unique_paths : list string)
  : list string :=
  match python_paths with
  | [] => unique_paths
  | path :: r =>
      if negb (mem path seen)
      then dedupe_loop r (path :: seen) (unique_paths ++ [path])
      else dedupe_loop r seen unique_paths
  end.

Definition dedupe (python_paths : list string) : list string :=
  dedupe_loop python_paths [] [].

(** Lines 50-141. *)
Definition find_paths_and_packages (workspace_root : PurePath)
    (python_version ros_distro : string) : M (list string * list string) :=
  let python_paths := [] in
  let local_packages := [] in
  python_paths <- system_ros_paths python_version ros_distro python_paths ;;
  let install_dir := workspace_root // "install" in
  d <- is_dir install_dir ;;
  if negb d then
    print ("Error: 'install' directory not found at " +++ str install_dir) ;;
    print "Please build your workspace first (e.g., 'colcon build')" ;;
    ret ([], [])
  else
    entries <- iterdir install_dir ;;
    acc <- for_each entries (local_package_step python_version)
             (python_paths, local_packages) ;;
    let '(python_paths, local_packages) := acc in
    python_paths <- pythonpath_paths python_paths ;;
    let unique_paths := dedupe python_paths in
    let unique_packages :=
      builtins.sorted String.ltb
        (builtins.list_set String.eqb local_packages) in
    print (Str.newline +++ "Found " +++ Str.of_nat (length unique_packages)
           +++ " local packages for Ruff.") ;;
    print ("Found " +++ Str.of_nat (length unique_paths)
           +++ " Python paths for Pylance.") ;;
    print (Str.newline +++ "Python paths that will be added to Pylance:") ;;
    for_each unique_paths (fun path _ => print ("  - " +++ path)) tt ;;
    ret (unique_paths, unique_packages).

(** *** [update_vscode_settings] *)

(** [json.load(f)]; text that is not valid UTF-8 is outside the model. *)
Definition json_load (txt : text) : M json :=
  match json_loads txt with
  | Some v => ret v
  | None => raise (Exception JSONDecodeError "Expecting value")
  end.

(** [settings_data[k] = v]: only a [dict] supports it here (a list index
    must be an integer, the other values have no item assignment). *)
Definition json_setitem (d : json) (k : string) (v : json) : M json :=
  match d with
  | JObj m => ret (JObj (dict.set m k v))
  | _ => raise (Exception TypeError "object does not support item assignment")
  end.

(** Lines 159-169. *)
Definition assign_settings (settings_data : json)
    (python_paths : list string) (interpreter_path : string) : M json :=
  let paths := JArr (map JStr python_paths) in
  settings_data <- json_setitem settings_data
                     "python.defaultInterpreterPath" (JStr interpreter_path) ;;
  settings_data <- json_setitem settings_data
                     "python.analysis.extraPaths" paths ;;
  settings_data <- json_setitem settings_data
                     "python.autoComplete.extraPaths" paths ;;
  settings_data <- json_setitem settings_data
                     "python.analysis.typeCheckingMode" (JStr "basic") ;;
  settings_data <- json_setitem settings_data
                     "python.analysis.diagnosticMode" (JStr "openFilesOnly") ;;
  json_setitem settings_data "cmake.configureOnOpen" (JBool false).

(** Lines 149-157: the document to start from. *)
Definition load_settings (settings_file : PurePath) : M json :=
  let settings_data := JObj [] in
  e <- exists_ settings_file ;;
  if e then
    try_except (txt <- open_read settings_file ;; json_load txt)
      is_JSONDecodeError
      (fun _ =>
         print ("Warning: '" +++ str settings_file
                +++ "' is corrupted. Overwriting.") ;;
         ret (JObj []))
  else ret settings_data.

(** Lines 171-177: writing the document back. *)
Definition dump_settings (settings_file : PurePath) (settings_data : json)
  : M unit :=
  try_except
    (open_write settings_file (json_dumps settings_data) ;;
     print ("Successfully updated '" +++ str settings_file +++ "'"))
    any_Exception
    (fun e =>
       print ("Error writing to '" +++ str settings_file +++ "': "
              +++ exn_str e)).

(** Lines 144-177. *)
Definition update_vscode_settings (workspace_root : PurePath)
    (python_paths : list string) (interpreter_path : string) : M unit :=
  let settings_dir := workspace_root // ".vscode" in
  mkdir_exist_ok settings_dir ;;
  let settings_file := settings_dir // "settings.json" in
  settings_data <- load_settings settings_file ;;
  settings_data <- assign_settings settings_data python_paths
                     interpreter_path ;;
  dump_settings settings_file settings_data.

(** *** [update_pyproject_toml] *)

(** [toml.load(f)] *)
Definition toml_load (txt : text) : M toml :=
  match toml_loads txt with
  | Some t => ret (TTable t)
  | None => raise (Exception TomlDecodeError "Invalid TOML")
  end.

Definition no_attribute {A} (attr : string) : M A :=
  raise (Exception AttributeError
           ("object has no attribute '" +++ attr +++ "'")).

(** The document as a store.  [toml.load] builds a tree of [dict]s; the
    section variables of [update_pyproject_toml] are references to
    [dict]s nested in it, and an assignment through one of them changes
    the document itself.  A reference is the list of keys that leads from
    the top to the value (the tree shares no [dict] between two
    places). *)
Definition ref : Type := list string.

(** The value a reference points to: [v[k1][k2]...] *)
Fixpoint get_path (v : toml) (ks : ref) : option toml :=
  match ks with
  | [] => Some v
  | k :: r =>
      match v with
      | TTable m =>
          match dict.get m k with
          | Some v' => get_path v' r
          | None => None
          end
      | _ => None
      end
  end.

(** The document after [f] has changed the [dict] a reference points
    to. *)
Fixpoint update_at (ks : ref)
    (f : list (string * toml) -> list (string * toml)) (v : toml)
    {struct ks} : toml :=
  match v with
  | TTable m =>
      match ks with
      | [] => TTable (f m)
      | k :: r =>
          match dict.get m k with
          | Some v' => TTable (dict.set m k (update_at r f v'))
          | None => v
          end
      end
  | _ => v
  end.

(** [d.setdefault(k, {})] on the [dict] that [d] refers to: the value
    under [k], which is put there when missing.  Returns the document
    after the call and the reference to the value. *)
Definition setdefault (toml_data : toml) (d : ref) (k : string)
  : M (toml * ref) :=
  match get_path toml_data d with
  | Some (TTable m) =>
      match dict.get m k with
      | Some _ => ret (toml_data, d ++ [k])
      | None =>
          ret (update_at d (fun m => dict.set m k (TTable [])) toml_data,
               d ++ [k])
      end
  | _ => no_attribute "setdefault"
  end.

(** [d.get(k, [])] *)
Definition get_or_empty_list (toml_data : toml) (d : ref) (k : string)
  : M toml :=
  match get_path toml_data d with
  | Some (TTable m) =>
      match dict.get m k with
      | Some v => ret v
      | None => ret (TArr [])
      end
  | _ => no_attribute "get"
  end.

(** [d[k] = v] *)
Definition setitem (toml_data : toml) (d : ref) (k : string) (v : toml)
  : toml :=
  update_at d (fun m => dict.set m k v) toml_data.

(** [known_first_party + local_packages]: the left operand must be a
    list. *)
Definition list_concat (v : toml) (local_packages : list string)
  : M (list toml) :=
  match v with
  | TArr items => ret (items ++ map TStr local_packages)
  | _ => raise (Exception TypeError "can only concatenate list to list")
  end.

(** Hashing, [==] and [<] on TOML values.  Lists and tables are not
    hashable; a boolean is the integer 0 or 1; a string and a number do
    not compare. *)
Inductive pykey : Type :=
  | KStr (s : string)
  | KNum (z : Z).

Definition key_of (v : toml) : option pykey :=
  match v with
  | TStr s => Some (KStr s)
  | TInt z => Some (KNum z)
  | TBool b => Some (KNum (if b then 1%Z else 0%Z))
  | TArr _ | TTable _ => None
  end.

Definition hashable (v : toml) : bool :=
  match key_of v with
  | Some _ => true
  | None => false
  end.

Definition is_str (v : toml) : bool :=
  match key_of v with
  | Some (KStr _) => true
  | _ => false
  end.

Definition is_num (v : toml) : bool :=
  match key_of v with
  | Some (KNum _) => true
  | _ => false
  end.

Definition py_eqb (a b : toml) : bool :=
  match key_of a, key_of b with
  | Some (KStr x), Some (KStr y) => String.eqb x y
  | Some (KNum x), Some (KNum y) => Z.eqb x y
  | _, _ => false
  end.

Definition py_ltb (a b : toml) : bool :=
  match key_of a, key_of b with
  | Some (KStr x), Some (KStr y) => String.ltb x y
  | Some (KNum x), Some (KNum y) => Z.ltb x y
  | _, _ => false
  end.

(** [list(set(xs))] on TOML values. *)
Definition toml_set (xs : list toml) : M (list toml) :=
  if forallb hashable xs then ret (builtins.list_set py_eqb xs)
  else raise (Exception TypeError "unhashable type").

(** [sorted(xs)] on hashable TOML values: any sort of two or more values
    has to compare across the two kinds when both occur, and that
    comparison is the [TypeError]. *)
Definition toml_sorted (xs : list toml) : M (list toml) :=
  if forallb is_str xs || forallb is_num xs
  then ret (builtins.sorted py_ltb xs)
  else raise (Exception TypeError
                "'<' not supported between instances of 'str' and 'int'").

(** Lines 190-214, the body of the [try].  [toml_data] is the document;
    [tool_section], [ruff_section], [lint_section] and [isort_section]
    refer to the [dict]s inside it, so the last assignment is an
    assignment in [toml_data]. *)
Definition merge_known_first_party (toml_data : toml)
    (local_packages : list string) : M toml :=
  r <- setdefault toml_data [] "tool" ;;
  let '(toml_data, tool_section) := r in
  r <- setdefault toml_data tool_section "ruff" ;;
  let '(toml_data, ruff_section) := r in
  r <- setdefault toml_data ruff_section "lint" ;;
  let '(toml_data, lint_section) := r in
  r <- setdefault toml_data lint_section "isort" ;;
  let '(toml_data, isort_section) := r in
  known_first_party <-
    get_or_empty_list toml_data isort_section "known-first-party" ;;
  joined <- list_concat known_first_party local_packages ;;
  uniq <- toml_set joined ;;
  updated_list <- toml_sorted uniq ;;
  ret (setitem toml_data isort_section "known-first-party"
         (TArr updated_list)).

Definition toml_dump (toml_data : toml) : text :=
  match toml_data with
  | TTable m => toml_dumps m
  | _ => toml_dumps []
  end.

(** Lines 180-217. *)
Definition update_pyproject_toml (workspace_root : PurePath)
    (local_packages : list string) : M unit :=
  let toml_file := workspace_root // "pyproject.toml" in
  e <- exists_ toml_file ;;
  if negb e then
    print ("Error: 'pyproject.toml' not found at " +++ str workspace_root) ;;
    print "Ensure this script is in the same directory as pyproject.toml" ;;
    ret tt
  else
    try_except
      (txt <- open_read toml_file ;;
       toml_data <- toml_load txt ;;
       toml_data <- merge_known_first_party toml_data local_packages ;;
       open_write toml_file (toml_dump toml_data) ;;
       print ("Successfully updated '" +++ str toml_file +++ "'"))
      any_Exception
      (fun e =>
         print ("Error processing '" +++ str toml_file +++ "': "
                +++ exn_str e)).

(** *** [main] *)

Definition nonempty {A} (l : list A) : bool :=
  match l with
  | [] => false
  | _ => true
  end.

(** Lines 220-266. *)
Definition main : M unit :=
  print "--- Python VS Code Configurator ---" ;;
  match argv sys with
  | _ :: ros_distro :: _ =>
      print ("Using ROS_DISTRO: " +++ ros_distro) ;;
      let workspace_root := Path (getcwd sys) in
      let python_version := get_python_version_string in
      let interpreter_path := executable sys in
      print ("Using Python interpreter: " +++ interpreter_path) ;;
      print ("Workspace root: " +++ str workspace_root) ;;
      print ("Python version: " +++ python_version +++ Str.newline) ;;
      r <- find_paths_and_packages workspace_root python_version
             ros_distro ;;
      let '(python_paths, local_packages) := r in
      (if negb (nonempty python_paths) && negb (nonempty local_packages)
       then print "No packages found. Exiting." ;; sys_exit 1
       else ret tt) ;;
      print "Skipping CMake-specific settings." ;;
      (if nonempty python_paths
       then update_vscode_settings workspace_root python_paths
              interpreter_path
       else ret tt) ;;
      (if nonempty local_packages
       then update_pyproject_toml workspace_root local_packages
       else ret tt) ;;
      print (Str.newline +++ "Python script finished.")
  | _ =>
      print "Error: Missing ROS_DISTRO argument." ;;
      print "This script should be called by 'configure.sh'." ;;
      sys_exit 1
  end.

End Script.

(** * Vocabulary of the properties

    The shapes, closed forms and file-system effects the properties below
    are stated with. *)

Section Vocabulary.
Context {S : Serialization}.
Variable sys : interpreter.

Definition valid_part (x : string) : bool :=
  keep_part x && negb (Str.contains Str.slash x).

(** The shape [Path] produces. *)
Definition canonical (p : PurePath) : Prop :=
  (root p = "" \/ root p = "/" \/ root p = "//") /\
  forallb valid_part (tail p) = true.

(** Strictly ascending lists of strings. *)
Definition ascending (l : list string) : Prop :=
  StronglySorted (fun a b => String.ltb a b = true) l.

(** [sorted(list(set(xs)))] on strings. *)
Definition sorted_set (xs : list string) : list string :=
  builtins.sorted String.ltb (builtins.list_set String.eqb xs).

(** [m] only reads the file system and prints: it returns [f] of the file
    system and leaves the file system as it was. *)
Definition reads {A} (m : M A) (f : filesystem -> A) : Prop :=
  forall w, exists w', m w = Returns (f (fs w)) w' /\ fs w' = fs w.

(** The candidates that are directories, as strings, in order. *)
Definition kept (f : filesystem) (ps : list PurePath) : list string :=
  map str (filter (fun p => fs_is_dir f (str p)) ps).

Definition ros_candidates (python_version ros_distro : string)
  : list PurePath :=
  [ base_ros_path sys ros_distro;
    dist_packages_path sys ros_distro;
    system_site_packages python_version ros_distro ].

Definition found_system (f : filesystem) (python_version ros_distro : string)
  : list string :=
  if Str.truthy ros_distro
  then kept f (ros_candidates python_version ros_distro) else [].

(** The entries of [install] that are directories, in listing order. *)
Definition package_dirs (f : filesystem) (workspace_root : PurePath)
  : list PurePath :=
  let install_dir := workspace_root // "install" in
  filter (fun p => fs_is_dir f (str p))
    (map (make_child_relpath install_dir) (listdir f (str install_dir))).

Definition found_local (f : filesystem) (workspace_root : PurePath)
    (python_version : string) : list string :=
  flat_map (fun d => kept f (possible_paths sys python_version d))
    (package_dirs f workspace_root).

Definition found_env (f : filesystem) : list string :=
  match environ_PYTHONPATH sys with
  | Some v =>
      filter (fun path => Str.truthy path && fs_is_dir f (str (Path path)))
        (Str.split Str.colon v)
  | None => []
  end.

(** [python_paths] and [local_packages] when the de-duplication starts. *)
Definition accumulated_paths (f : filesystem) (workspace_root : PurePath)
    (python_version ros_distro : string) : list string :=
  found_system f python_version ros_distro
  ++ found_local f workspace_root python_version ++ found_env f.

Definition accumulated_packages (f : filesystem) (workspace_root : PurePath)
  : list string :=
  map name (package_dirs f workspace_root).

Definition discovered (f : filesystem) (workspace_root : PurePath)
    (python_version ros_distro : string) : list string * list string :=
  if fs_is_dir f (str (workspace_root // "install"))
  then (dedupe (accumulated_paths f workspace_root python_version ros_distro),
        sorted_set (accumulated_packages f workspace_root))
  else ([], []).

Definition owned_keys : list string :=
  [ "python.defaultInterpreterPath";
    "python.analysis.extraPaths";
    "python.autoComplete.extraPaths";
    "python.analysis.typeCheckingMode";
    "python.analysis.diagnosticMode";
    "cmake.configureOnOpen" ].

(** The six assignments on a [dict]. *)
Definition apply_settings (m : list (string * json))
    (python_paths : list string) (interpreter_path : string)
  : list (string * json) :=
  let paths := JArr (map JStr python_paths) in
  let m := dict.set m "python.defaultInterpreterPath"
             (JStr interpreter_path) in
  let m := dict.set m "python.analysis.extraPaths" paths in
  let m := dict.set m "python.autoComplete.extraPaths" paths in
  let m := dict.set m "python.analysis.typeCheckingMode" (JStr "basic") in
  let m := dict.set m "python.analysis.diagnosticMode"
             (JStr "openFilesOnly") in
  dict.set m "cmake.configureOnOpen" (JBool false).

Definition settings_dir_of (workspace_root : PurePath) : PurePath :=
  workspace_root // ".vscode".

Definition settings_file_of (workspace_root : PurePath) : PurePath :=
  workspace_root // ".vscode" // "settings.json".

Definition toml_file_of (workspace_root : PurePath) : PurePath :=
  workspace_root // "pyproject.toml".

(** The file system after [mkdir(exist_ok=True)], unless it raises. *)
Definition mkdir_fs (f : filesystem) (dir : PurePath) : option filesystem :=
  match lookup f (str dir) with
  | Some (Dir _) => Some f
  | Some (File _ _ _) => None
  | None =>
      match lookup f (str (parent dir)) with
      | Some (Dir true) => Some (fs_create f dir (Dir true))
      | _ => None
      end
  end.

(** The document [load_settings] yields, unless reading raises. *)
Definition loaded (f : filesystem) (file : PurePath) : option json :=
  match lookup f (str file) with
  | None => Some (JObj [])
  | Some (File true _ txt) =>
      Some (match json_loads txt with Some v => v | None => JObj [] end)
  | Some (File false _ _) | Some (Dir _) => None
  end.

(** The file system after an attempt to write [data] to [file]. *)
Definition written (f : filesystem) (file : PurePath) (data : text)
  : filesystem :=
  match lookup f (str file) with
  | Some (File r true _) => fs_replace f file (File r true data)
  | Some (File _ false _) | Some (Dir _) => f
  | None =>
      match lookup f (str (parent file)) with
      | Some (Dir true) => fs_create f file (File true true data)
      | _ => f
      end
  end.

Definition assigned (v : json) (python_paths : list string)
    (interpreter_path : string) : option json :=
  match v with
  | JObj m => Some (JObj (apply_settings m python_paths interpreter_path))
  | _ => None
  end.

(** The file system after the settings writer, unless it raises. *)
Definition settings_fs (f : filesystem) (workspace_root : PurePath)
    (python_paths : list string) (interpreter_path : string)
  : option filesystem :=
  match mkdir_fs f (settings_dir_of workspace_root) with
  | Some f1 =>
      match loaded f1 (settings_file_of workspace_root) with
      | Some v =>
          match assigned v python_paths interpreter_path with
          | Some d =>
              Some (written f1 (settings_file_of workspace_root)
                      (json_dumps d))
          | None => None
          end
      | None => None
      end
  | None => None
  end.

(** The six bindings, as a predicate on a [dict]. *)
Definition owned_bindings (d : list (string * json))
    (python_paths : list string) (interpreter_path : string) : Prop :=
  dict.get d "python.defaultInterpreterPath" = Some (JStr interpreter_path) /\
  dict.get d "python.analysis.extraPaths"
  = Some (JArr (map JStr python_paths)) /\
  dict.get d "python.autoComplete.extraPaths"
  = Some (JArr (map JStr python_paths)) /\
  dict.get d "python.analysis.typeCheckingMode" = Some (JStr "basic") /\
  dict.get d "python.analysis.diagnosticMode"
  = Some (JStr "openFilesOnly") /\
  dict.get d "cmake.configureOnOpen" = Some (JBool false).

Definition empty_world : world :=
  mkWorld (mkFs (fun _ => None) (fun _ => [])) [].

(** The same outcome, in another world. *)
Definition rebase {A} (o : outcome A) (w : world) : outcome A :=
  match o with
  | Returns a _ => Returns a w
  | Raises e _ => Raises e w
  end.

Definition no_exit {A} (o : outcome A) : Prop :=
  match o with
  | Raises (SystemExit _) _ => False
  | _ => True
  end.

(** [m] neither reads nor changes the world, and does not exit. *)
Definition pure_m {A} (m : M A) : Prop :=
  forall w, no_exit (m w) /\ forall w', m w = rebase (m w') w.

(** The document the merge yields, unless it raises. *)
Definition merged (t : list (string * toml)) (pkgs : list string)
  : option toml :=
  match merge_known_first_party (TTable t) pkgs empty_world with
  | Returns t' _ => Some t'
  | Raises _ _ => None
  end.

(** The file system after the lint-config writer: only a readable,
    writable file that parses and merges is rewritten. *)
Definition toml_fs (f : filesystem) (workspace_root : PurePath)
    (pkgs : list string) : filesystem :=
  let file := toml_file_of workspace_root in
  match lookup f (str file) with
  | Some (File true true txt) =>
      match toml_loads txt with
      | Some t =>
          match merged t pkgs with
          | Some t' => fs_replace f file (File true true (toml_dump t'))
          | None => f
          end
      | None => f
      end
  | _ => f
  end.

(** The table under [k]: empty when missing, none when the value is not a
    table. *)
Definition section (d : list (string * toml)) (k : string)
  : option (list (string * toml)) :=
  match dict.get d k with
  | None => Some []
  | Some (TTable m) => Some m
  | Some _ => None
  end.

(** The list under [k]: empty when missing, none when the value is not a
    list. *)
Definition list_under (d : list (string * toml)) (k : string)
  : option (list toml) :=
  match dict.get d k with
  | None => Some []
  | Some (TArr items) => Some items
  | Some _ => None
  end.

Definition uniform (xs : list toml) : bool :=
  forallb is_str xs || forallb is_num xs.

(** [sorted(list(set(items + local_packages)))], unless it raises. *)
Definition updated_list (items : list toml) (pkgs : list string)
  : option (list toml) :=
  let joined := items ++ map TStr pkgs in
  if forallb hashable joined then
    let uniq := builtins.list_set py_eqb joined in
    if uniform uniq then Some (builtins.sorted py_ltb uniq) else None
  else None.

(** The document with [updated] stored under
    [tool.ruff.lint.isort.known-first-party]. *)
Definition store (t tool ruff lint isort : list (string * toml))
    (updated : list toml) : list (string * toml) :=
  dict.set t "tool"
    (TTable (dict.set tool "ruff"
       (TTable (dict.set ruff "lint"
          (TTable (dict.set lint "isort"
             (TTable (dict.set isort "known-first-party"
                        (TArr updated))))))))).

Definition merge_fn (t : list (string * toml)) (pkgs : list string)
  : option (list (string * toml)) :=
  match section t "tool" with
  | Some tool =>
    match section tool "ruff" with
    | Some ruff =>
      match section ruff "lint" with
      | Some lint =>
        match section lint "isort" with
        | Some isort =>
          match list_under isort "known-first-party" with
          | Some items =>
            match updated_list items pkgs with
            | Some updated => Some (store t tool ruff lint isort updated)
            | None => None
            end
          | None => None
          end
        | None => None
        end
      | None => None
      end
    | None => None
    end
  | None => None
  end.

Fixpoint strings_of (items : list toml) : option (list string) :=
  match items with
  | [] => Some []
  | TStr s :: r => option_map (cons s) (strings_of r)
  | _ => None
  end.

(** The list of package names stored in the document; empty when the key
    or a table on the way is missing; none when a value on the way has
    another type. *)
Definition stored_list (t : list (string * toml)) : option (list string) :=
  match section t "tool" with
  | Some tool =>
    match section tool "ruff" with
    | Some ruff =>
      match section ruff "lint" with
      | Some lint =>
        match section lint "isort" with
        | Some isort =>
          match list_under isort "known-first-party" with
          | Some items => strings_of items
          | None => None
          end
        | None => None
        end
      | None => None
      end
    | None => None
    end
  | None => None
  end.

Definition known_first_party_path : list string :=
  ["tool"; "ruff"; "lint"; "isort"; "known-first-party"].

Definition loaded_node (n : option node) : option json :=
  match n with
  | None => Some (JObj [])
  | Some (File true _ txt) =>
      Some (match json_loads txt with Some v => v | None => JObj [] end)
  | Some (File false _ _) | Some (Dir _) => None
  end.

(** The entry after an attempt to write, [parent_writable] telling
    whether a missing file can be created. *)
Definition written_node (parent_writable : bool) (n : option node)
    (data : text) : option node :=
  match n with
  | Some (File r true _) => Some (File r true data)
  | Some (File _ false _) | Some (Dir _) => n
  | None => if parent_writable then Some (File true true data) else None
  end.

(** The settings file after the writer, given the entry before; none when
    the writer raises. *)
Definition settings_node (parent_writable : bool) (n : option node)
    (python_paths : list string) (interpreter_path : string)
  : option (option node) :=
  match loaded_node n with
  | Some v =>
      match assigned v python_paths interpreter_path with
      | Some d => Some (written_node parent_writable n (json_dumps d))
      | None => None
      end
  | None => None
  end.

(** The lint-config file after the writer, given the entry before. *)
Definition toml_node (n : option node) (pkgs : list string) : option node :=
  match n with
  | Some (File true true txt) =>
      match toml_loads txt with
      | Some t =>
          match merged t pkgs with
          | Some t' => Some (File true true (toml_dump t'))
          | None => n
          end
      | None => n
      end
  | _ => n
  end.

Definition is_writable_dir (n : option node) : bool :=
  match n with
  | Some (Dir true) => true
  | _ => false
  end.

Definition workspace_root : PurePath := Path (getcwd sys).

(** What discovery returns in a run started with [ros_distro]. *)
Definition discovery (f : filesystem) (ros_distro : string)
  : list string * list string :=
  discovered f workspace_root (get_python_version_string sys) ros_distro.

(** The file system after the two writers, unless the settings writer
    raises. *)
Definition writers_fs (f : filesystem) (python_paths pkgs : list string)
  : option filesystem :=
  match (if nonempty python_paths
         then settings_fs f workspace_root python_paths (executable sys)
         else Some f) with
  | Some f1 =>
      Some (if nonempty pkgs then toml_fs f1 workspace_root pkgs else f1)
  | None => None
  end.

(** The settings file can be opened for writing once its directory is
    there. *)
Definition settings_writable (f : filesystem) (r : PurePath) : bool :=
  match lookup f (str (settings_file_of r)) with
  | Some (File _ true _) => true
  | Some _ => false
  | None =>
      match lookup f (str (settings_dir_of r)) with
      | Some (Dir b) => b
      | Some (File _ _ _) => false
      | None => true
      end
  end.

(** The document the settings writer builds from an empty [dict]. *)
Definition fresh_settings (python_paths : list string)
    (interpreter_path : string) : list (string * json) :=
  [ ("python.defaultInterpreterPath", JStr interpreter_path);
    ("python.analysis.extraPaths", JArr (map JStr python_paths));
    ("python.autoComplete.extraPaths", JArr (map JStr python_paths));
    ("python.analysis.typeCheckingMode", JStr "basic");
    ("python.analysis.diagnosticMode", JStr "openFilesOnly");
    ("cmake.configureOnOpen", JBool false) ].

Definition keys {V} (d : list (string * V)) : list string := map fst d.


(** [ks] leaves [path] at some key: neither is a prefix of the other. *)
Fixpoint diverges (ks path : list string) : bool :=
  match ks, path with
  | k :: r, k' :: r' => if k =? k' then diverges r r' else true
  | _, _ => false
  end.

(** How often the character [c] occurs in [s]. *)
Fixpoint count_char (c : ascii) (s : string) : nat :=
  match s with
  | EmptyString => 0
  | String a r => (if Ascii.eqb a c then 1 else 0) + count_char c r
  end.

End Vocabulary.

(** ** Fixtures: a symbolic serialisation and small file systems *)

Module Fixture.

(** File contents seen through the two libraries: what [json.dump] wrote
    for a value, what [toml.dump] wrote for a table, or anything else. *)
Inductive sym_text : Type :=
  | Junk (s : string)
  | JsonText (d : json)
  | TomlText (t : list (string * toml)).

#[export] Instance symbolic : Serialization := {
  text := sym_text;
  json_loads := fun t => match t with JsonText d => Some d | _ => None end;
  json_dumps := JsonText;
  toml_loads := fun t => match t with TomlText d => Some d | _ => None end;
  toml_dumps := TomlText
}.

Definition fs_of (nodes : list (string * node))
    (listings : list (string * list string)) : filesystem :=
  mkFs (dict.get nodes)
       (fun k => match dict.get listings k with Some l => l | None => [] end).

Definition world_of (nodes : list (string * node))
    (listings : list (string * list string)) : world :=
  mkWorld (fs_of nodes listings) [].

(** What is stored at a path after a run. *)
Definition stored {A} (o : outcome A) (p : string) : option node :=
  lookup (fs (final o)) p.

(** [python3 setup_vscode.py kilted] in [/ws], Python 3.12. *)
Definition sys_kilted (pythonpath : option string) : interpreter :=
  mkInterp ["setup_vscode.py"; "kilted"] 3 12 "/ws/.venv/bin/python"
    pythonpath "/ws".

(** A built workspace: two packages and a stray file under [install]. *)
Definition built_nodes : list (string * node) :=
  [ ("/ws", Dir true);
    ("/ws/install", Dir true);
    ("/ws/install/turtle_brick", Dir true);
    ("/ws/install/turtle_brick/lib", Dir true);
    ("/ws/install/brick_interfaces", Dir true);
    ("/ws/install/setup.bash", File true true (Junk "# setup"));
    ("/a", Dir true); ("/b", Dir true); ("/c", Dir true) ].

Definition built_listings : list (string * list string) :=
  [ ("/ws/install", ["turtle_brick"; "setup.bash"; "brick_interfaces"]) ].

(** The workspace with the system site-packages directory installed. *)
Definition w_system : world :=
  world_of (built_nodes
            ++ [("/opt/ros/\kilted/lib/python3.12/site-packages", Dir true)])
    built_listings.

(** The workspace before the first run; [PYTHONPATH] repeats an entry. *)
Definition sys_env : interpreter := sys_kilted (Some "/a:/b:/a:/c").

Definition pyproject : list (string * toml) :=
  [ ("project", TTable [("name", TStr "turtle_brick")]);
    ("tool",
     TTable [("ruff",
       TTable [("lint",
         TTable [("isort",
           TTable [("known-first-party",
                    TArr [TStr "zeta"; TStr "foo"])])])])]) ].

Definition w_fresh : world :=
  world_of (built_nodes
            ++ [("/ws/pyproject.toml", File true true (TomlText pyproject))])
    built_listings.

(** A settings file someone edited by hand. *)
Definition user_settings : list (string * json) :=
  [ ("editor.tabSize", JNumber "2");
    ("python.analysis.typeCheckingMode", JStr "strict") ].

Definition w_settings : world :=
  world_of (built_nodes
            ++ [("/ws/.vscode", Dir true);
                ("/ws/.vscode/settings.json",
                 File true true (JsonText (JObj user_settings)))])
    built_listings.

(** No [install] directory, but a system site-packages directory. *)
Definition w_unbuilt : world :=
  world_of [("/ws", Dir true);
            ("/opt/ros/\kilted/lib/python3.12/site-packages", Dir true)] [].

(** No [pyproject.toml], and a settings file that cannot be written. *)
Definition w_readonly : world :=
  world_of (built_nodes
            ++ [("/ws/.vscode", Dir true);
                ("/ws/.vscode/settings.json",
                 File true false (JsonText (JObj user_settings)))])
    built_listings.

(** No [pyproject.toml], and a settings file that cannot be read. *)
Definition w_unreadable : world :=
  world_of (built_nodes
            ++ [("/ws/.vscode", Dir true);
                ("/ws/.vscode/settings.json",
                 File false true (Junk "{}"))])
    built_listings.

(** No [pyproject.toml], an [install] directory without packages, and a
    search path from [PYTHONPATH]. *)
Definition w_no_packages : world :=
  world_of [("/ws", Dir true); ("/ws/install", Dir true); ("/a", Dir true);
            ("/b", Dir true); ("/c", Dir true)]
    [("/ws/install", [])].

(** The built workspace after some output, without [pyproject.toml]. *)
Definition w_built : world :=
  mkWorld (fs_of built_nodes built_listings) ["earlier output"].

(** The script started without its argument. *)
Definition sys_no_arg : interpreter :=
  mkInterp ["setup_vscode.py"] 3 12 "/ws/.venv/bin/python" None "/ws".

(** A settings file that does not parse. *)
Definition w_corrupt : world :=
  world_of (built_nodes
            ++ [("/ws/.vscode", Dir true);
                ("/ws/.vscode/settings.json",
                 File true true (Junk "{ // comment"))])
    built_listings.

(** A settings file that holds a list. *)
Definition w_list_settings : world :=
  world_of (built_nodes
            ++ [("/ws/.vscode", Dir true);
                ("/ws/.vscode/settings.json",
                 File true true (JsonText (JArr [])))])
    built_listings.

(** [.vscode] is a regular file. *)
Definition w_dir_is_file : world :=
  world_of (built_nodes ++ [("/ws/.vscode", File true true (Junk ""))])
    built_listings.

(** One package without a [lib] directory, and a [pyproject.toml]. *)
Definition w_bare : world :=
  world_of [("/ws", Dir true); ("/ws/install", Dir true);
            ("/ws/install/pkg", Dir true);
            ("/ws/pyproject.toml", File true true (TomlText pyproject))]
    [("/ws/install", ["pkg"])].

(** [pyproject] after [turtle_brick] was merged in. *)
Definition pyproject_merged : list (string * toml) :=
  [ ("project", TTable [("name", TStr "turtle_brick")]);
    ("tool",
     TTable [("ruff",
       TTable [("lint",
         TTable [("isort",
           TTable [("known-first-party",
                    TArr [TStr "foo"; TStr "turtle_brick";
                          TStr "zeta"])])])])]) ].

(** The built workspace beside a system installation in the usual
    layout. *)
Definition w_usual : world :=
  world_of (built_nodes
            ++ [("/opt/ros/kilted/lib/python3.12/site-packages", Dir true);
                ("/opt/ros/kilted/lib/python3.12/dist-packages", Dir true)])
    built_listings.


(** A distribution name of 300 characters, in a workspace that was not
    built, beside [/opt/ros]. *)
Definition long_distro : string := String.concat "" (repeat "a" 300).

Definition sys_long : interpreter :=
  mkInterp ["setup_vscode.py"; long_distro] 3 12 "/ws/.venv/bin/python"
    None "/ws".

Definition w_opt_ros : world :=
  world_of [("/opt", Dir true); ("/opt/ros", Dir true); ("/ws", Dir true)]
    [].

End Fixture.

(** * Properties *)

(** ** Paths: parsing and printing *)

Section PathFacts.

Lemma split_no_slash (s : string) :
  forallb (fun x => negb (Str.contains Str.slash x))
    (Str.split Str.slash s) = true.
Proof.
  induction s as [|c r IH]; simpl; [reflexivity|].
  destruct (Ascii.eqb c Str.slash) eqn:E; simpl; [exact IH|].
  destruct (Str.split Str.slash r) as [|h t]; simpl in *.
  - now rewrite E.
  - rewrite E. exact IH.
Qed.

Lemma splitroot_root (s : string) :
  fst (splitroot s) = "" \/ fst (splitroot s) = "/" \/
  fst (splitroot s) = "//".
Proof.
  unfold splitroot.
  destruct s as [|c1 r1]; simpl; auto.
  destruct (Ascii.eqb c1 Str.slash); simpl; auto.
  destruct r1 as [|c2 r2]; simpl; auto.
  destruct (Ascii.eqb c2 Str.slash); simpl; auto.
  destruct (Str.startswith Str.slash r2); simpl; auto.
Qed.

Lemma Path_canonical (s : string) : canonical (Path s).
Proof.
  unfold canonical, Path.
  pose proof (splitroot_root s) as Hr.
  destruct (splitroot s) as [rt rel]; simpl in *.
  split; [exact Hr|].
  pose proof (split_no_slash rel) as Hs.
  induction (Str.split Str.slash rel) as [|x l IH]; simpl in *;
    [reflexivity|].
  apply andb_true_iff in Hs as [Hx Hl].
  destruct (keep_part x) eqn:K; simpl; auto.
  unfold valid_part. rewrite K, Hx. simpl. auto.
Qed.

Lemma split_atom (a : string) :
  Str.contains Str.slash a = false -> Str.split Str.slash a = [a].
Proof.
  induction a as [|c r IH]; simpl; intros H; [reflexivity|].
  apply orb_false_iff in H as [Hc Hr].
  rewrite Hc, (IH Hr). reflexivity.
Qed.

Lemma split_app (a r : string) :
  Str.contains Str.slash a = false ->
  Str.split Str.slash (a +++ String Str.slash r)
  = a :: Str.split Str.slash r.
Proof.
  induction a as [|c a' IH]; simpl; intros H.
  - reflexivity.
  - apply orb_false_iff in H as [Hc Hr].
    rewrite Hc, (IH Hr). reflexivity.
Qed.

Lemma valid_part_inv (x : string) :
  valid_part x = true ->
  keep_part x = true /\ Str.contains Str.slash x = false.
Proof.
  unfold valid_part. intros H.
  apply andb_true_iff in H as [H1 H2].
  apply negb_true_iff in H2. auto.
Qed.

Lemma split_concat (x : string) (tl : list string) :
  forallb valid_part (x :: tl) = true ->
  Str.split Str.slash (String.concat "/" (x :: tl)) = x :: tl.
Proof.
  revert x.
  induction tl as [|y tl IH]; intros x H; simpl in H.
  - apply andb_true_iff in H as [Hx _].
    apply valid_part_inv in Hx as [_ Hx]. simpl. now apply split_atom.
  - apply andb_true_iff in H as [Hx Hr].
    apply valid_part_inv in Hx as [_ Hx].
    change (String.concat "/" (x :: y :: tl))
      with (x +++ String Str.slash (String.concat "/" (y :: tl))).
    rewrite (split_app _ _ Hx). f_equal. apply IH. exact Hr.
Qed.

Lemma filter_valid (tl : list string) :
  forallb valid_part tl = true -> filter keep_part tl = tl.
Proof.
  induction tl as [|x tl IH]; simpl; intros H; [reflexivity|].
  apply andb_true_iff in H as [Hx Hr].
  apply valid_part_inv in Hx as [Hx _]. rewrite Hx, (IH Hr). reflexivity.
Qed.

(** The text of a non-empty list of valid parts starts with a character
    that is not a slash. *)
Lemma concat_head (x : string) (tl : list string) :
  forallb valid_part (x :: tl) = true ->
  exists c r, String.concat "/" (x :: tl) = String c r /\
              Ascii.eqb c Str.slash = false.
Proof.
  simpl. intros H. apply andb_true_iff in H as [Hx _].
  apply valid_part_inv in Hx as [Hk Hs].
  destruct x as [|c x']; [discriminate|].
  simpl in Hs. apply orb_false_iff in Hs as [Hc _].
  exists c. destruct tl; simpl; eauto.
Qed.

(** Parsing what was printed gives the path back. *)
Lemma Path_str (p : PurePath) : canonical p -> Path (str p) = p.
Proof.
  destruct p as [rt tl]. unfold canonical, str. simpl.
  intros [Hr Hv].
  destruct tl as [|x tl].
  - destruct Hr as [->|[->| ->]]; reflexivity.
  - destruct (concat_head x tl Hv) as (c & r & Hc & Hne).
    pose proof (split_concat x tl Hv) as Hsp.
    pose proof (filter_valid _ Hv) as Hf.
    destruct Hr as [->|[->| ->]].
    + change ("" +++ String.concat "/" (x :: tl))
        with (String.concat "/" (x :: tl)).
      rewrite Hc. simpl Str.truthy. cbv iota.
      unfold Path, splitroot. rewrite Hne.
      rewrite <- Hc, Hsp, Hf. reflexivity.
    + change ("/" +++ String.concat "/" (x :: tl))
        with (String Str.slash (String.concat "/" (x :: tl))).
      simpl Str.truthy. cbv iota.
      unfold Path, splitroot. rewrite Ascii.eqb_refl, Hc, Hne.
      rewrite <- Hc, Hsp, Hf. reflexivity.
    + change ("//" +++ String.concat "/" (x :: tl))
        with (String Str.slash
                (String Str.slash (String.concat "/" (x :: tl)))).
      simpl Str.truthy. cbv iota.
      unfold Path, splitroot. rewrite Ascii.eqb_refl, Hc.
      unfold Str.startswith. rewrite Hne.
      rewrite <- Hc, Hsp, Hf. reflexivity.
Qed.

(** Printing is idempotent through parsing. *)
Lemma str_Path_str (s : string) : str (Path (str (Path s))) = str (Path s).
Proof. now rewrite Path_str by apply Path_canonical. Qed.

Lemma str_injective (p q : PurePath) :
  canonical p -> canonical q -> str p = str q -> p = q.
Proof.
  intros Hp Hq H. rewrite <- (Path_str p Hp), <- (Path_str q Hq).
  now rewrite H.
Qed.

Lemma append_assoc (a b c : string) : (a +++ b) +++ c = a +++ b +++ c.
Proof. induction a as [|x a IH]; simpl; [reflexivity|]. now rewrite IH. Qed.

Lemma endswith_app (c : ascii) (a b : string) :
  Str.truthy b = true -> Str.endswith c (a +++ b) = Str.endswith c b.
Proof.
  intros Hb. induction a as [|x a IH]; [reflexivity|].
  simpl. rewrite IH.
  destruct (a +++ b) eqn:E; [|reflexivity].
  destruct a; simpl in E; [subst b|]; discriminate.
Qed.

Lemma endswith_atom (a : string) :
  Str.contains Str.slash a = false -> Str.endswith Str.slash a = false.
Proof.
  induction a as [|x a IH]; simpl; intros H; [reflexivity|].
  apply orb_false_iff in H as [Hx Ha].
  destruct a; [exact Hx|]. now apply IH.
Qed.

Lemma concat_snoc (x : string) (tl : list string) (n : string) :
  String.concat "/" ((x :: tl) ++ [n])
  = String.concat "/" (x :: tl) +++ "/" +++ n.
Proof.
  revert x. induction tl as [|y tl IH]; intros x; [reflexivity|].
  change (String.concat "/" ((x :: y :: tl) ++ [n]))
    with (x +++ "/" +++ String.concat "/" ((y :: tl) ++ [n])).
  change (String.concat "/" (x :: y :: tl))
    with (x +++ "/" +++ String.concat "/" (y :: tl)).
  rewrite IH. rewrite <- !append_assoc. reflexivity.
Qed.

Lemma concat_endswith (x : string) (tl : list string) :
  forallb valid_part (x :: tl) = true ->
  Str.endswith Str.slash (String.concat "/" (x :: tl)) = false.
Proof.
  revert x. induction tl as [|y tl IH]; intros x H.
  - simpl in *. apply andb_true_iff in H as [Hx _].
    apply valid_part_inv in Hx as [_ Hx]. now apply endswith_atom.
  - change (String.concat "/" (x :: y :: tl))
      with (x +++ String Str.slash (String.concat "/" (y :: tl))).
    rewrite endswith_app by reflexivity.
    simpl in H. apply andb_true_iff in H as [_ Hr].
    specialize (IH y Hr).
    destruct (concat_head y tl Hr) as (c & r & Hc & _).
    rewrite Hc in *. exact IH.
Qed.

Lemma forallb_snoc {A} (f : A -> bool) (l : list A) (x : A) :
  forallb f (l ++ [x]) = forallb f l && f x.
Proof. rewrite forallb_app. simpl. now rewrite andb_true_r. Qed.

Lemma str_parts (rt x : string) (tl : list string) :
  forallb valid_part (x :: tl) = true ->
  str (mkPath rt (x :: tl)) = rt +++ String.concat "/" (x :: tl).
Proof.
  intros Hv. unfold str. simpl root. simpl tail.
  destruct (concat_head x tl Hv) as (c & r & Hc & _). rewrite Hc.
  destruct rt; reflexivity.
Qed.

(** Appending one valid component. *)
Lemma truediv_part (p : PurePath) (n : string) :
  canonical p -> valid_part n = true ->
  p // n = mkPath (root p) (tail p ++ [n]).
Proof.
  intros Hp Hn.
  assert (Hq : canonical (mkPath (root p) (tail p ++ [n]))).
  { destruct Hp as [Hr Hv]. split; [exact Hr|]. simpl.
    rewrite forallb_snoc, Hv, Hn. reflexivity. }
  pose proof (valid_part_inv n Hn) as [Hk Hs].
  assert (Hst : Str.startswith Str.slash n = false).
  { destruct n as [|c n']; [reflexivity|]. simpl in *.
    now apply orb_false_iff in Hs as [Hc _]. }
  assert (Hnt : Str.truthy n = true).
  { unfold keep_part in Hk. now apply andb_true_iff in Hk as [Hk _]. }
  unfold truediv, join. rewrite Hst.
  destruct p as [rt tl]. destruct Hp as [Hr Hv]. simpl in Hr, Hv.
  simpl root. simpl tail.
  destruct tl as [|x tl].
  - destruct Hr as [->|[->| ->]].
    + change (str (mkPath "" [])) with ".". simpl negb. simpl orb.
      cbv iota.
      change ("." +++ "/" +++ n) with ("." +++ String Str.slash n).
      unfold Path.
      change (splitroot ("." +++ String Str.slash n))
        with ("", "." +++ String Str.slash n).
      cbv iota beta.
      rewrite split_app by reflexivity.
      rewrite (split_atom n Hs). simpl. rewrite Hk. reflexivity.
    + change (str (mkPath "/" [])) with "/". simpl negb. simpl orb.
      cbv iota. etransitivity; [|exact (Path_str _ Hq)]. reflexivity.
    + change (str (mkPath "//" [])) with "//". simpl negb. simpl orb.
      cbv iota. etransitivity; [|exact (Path_str _ Hq)]. reflexivity.
  - rewrite (str_parts rt x tl Hv).
    assert (He : Str.endswith Str.slash
                   (rt +++ String.concat "/" (x :: tl)) = false).
    { rewrite endswith_app; [now apply concat_endswith|].
      destruct (concat_head x tl Hv) as (c & r' & Hc & _). now rewrite Hc. }
    rewrite He.
    assert (Ht : Str.truthy (rt +++ String.concat "/" (x :: tl)) = true).
    { destruct (concat_head x tl Hv) as (c & r' & Hc & _). rewrite Hc.
      destruct rt; reflexivity. }
    rewrite Ht. simpl negb. simpl orb. cbv iota.
    etransitivity; [|exact (Path_str _ Hq)]. f_equal.
    assert (Hq' : forallb valid_part (x :: tl ++ [n]) = true).
    { change (x :: tl ++ [n]) with ((x :: tl) ++ [n]).
      rewrite forallb_snoc, Hv, Hn. reflexivity. }
    simpl root. simpl tail. simpl app.
    rewrite (str_parts rt x (tl ++ [n]) Hq').
    change (x :: tl ++ [n]) with ((x :: tl) ++ [n]).
    rewrite concat_snoc. now rewrite append_assoc.
Qed.

End PathFacts.

(** ** [sorted] and [set] *)

Section SortFacts.
Context {A : Type}.
Variable ltb : A -> A -> bool.
Hypothesis ltb_irrefl : forall a, ltb a a = false.
Hypothesis ltb_trans :
  forall a b c, ltb a b = true -> ltb b c = true -> ltb a c = true.
Hypothesis ltb_total :
  forall a b, ltb a b = false -> ltb b a = false -> a = b.

Let lt (a b : A) : Prop := ltb a b = true.

Lemma insert_perm (x : A) (l : list A) :
  Permutation (builtins.insert ltb x l) (x :: l).
Proof.
  induction l as [|y r IH]; simpl; [reflexivity|].
  destruct (ltb y x); [|reflexivity].
  rewrite IH. apply perm_swap.
Qed.

Lemma sorted_perm (l : list A) : Permutation (builtins.sorted ltb l) l.
Proof.
  induction l as [|x l IH]; simpl; [reflexivity|].
  rewrite insert_perm. now constructor.
Qed.

Lemma sorted_In (l : list A) (x : A) :
  In x (builtins.sorted ltb l) <-> In x l.
Proof.
  split; apply Permutation_in;
    [apply sorted_perm | apply Permutation_sym, sorted_perm].
Qed.

Lemma insert_sorted (x : A) (l : list A) :
  ~ In x l -> StronglySorted lt l ->
  StronglySorted lt (builtins.insert ltb x l).
Proof.
  intros Hx Hs. induction Hs as [|y r Hr IH Hy]; simpl.
  - repeat constructor.
  - destruct (ltb y x) eqn:E.
    + constructor.
      * apply IH. intros H. apply Hx. now right.
      * apply Forall_forall. intros z Hz.
        apply (Permutation_in _ (insert_perm x r)) in Hz.
        destruct Hz as [<-|Hz]; [exact E|].
        rewrite Forall_forall in Hy. now apply Hy.
    + assert (Hxy : lt x y).
      { unfold lt. destruct (ltb x y) eqn:E'; [reflexivity|].
        exfalso. apply Hx. left. now apply ltb_total. }
      constructor; [now constructor|].
      constructor; [exact Hxy|].
      rewrite Forall_forall in *. intros z Hz.
      apply ltb_trans with y; auto. now apply Hy.
Qed.

(** Sorting distinct values gives a strictly ascending list. *)
Lemma sorted_strict (l : list A) :
  NoDup l -> StronglySorted lt (builtins.sorted ltb l).
Proof.
  induction 1 as [|x l Hx Hn IH]; simpl; [constructor|].
  apply insert_sorted; [|exact IH].
  now rewrite sorted_In.
Qed.

(** A strictly ascending list is determined by its elements. *)
Lemma strict_unique (l1 l2 : list A) :
  StronglySorted lt l1 -> StronglySorted lt l2 ->
  (forall x, In x l1 <-> In x l2) -> l1 = l2.
Proof.
  intros H1. revert l2.
  induction H1 as [|x r Hr IH Hx]; intros l2 H2 Hin.
  - destruct l2 as [|y l2]; [reflexivity|].
    exfalso. apply (Hin y). now left.
  - destruct H2 as [|y r2 Hr2 Hy].
    + exfalso. apply (Hin x). now left.
    + rewrite Forall_forall in Hx, Hy. unfold lt in Hx, Hy.
      assert (Hxy : x = y).
      { assert (In x (y :: r2)) as [->|Hxin]
          by (apply Hin; now left); [reflexivity|].
        assert (In y (x :: r)) as [->|Hyin]
          by (apply Hin; now left); [reflexivity|].
        pose proof (ltb_trans _ _ _ (Hx _ Hyin) (Hy _ Hxin)) as Hc.
        now rewrite ltb_irrefl in Hc. }
      subst y. f_equal. apply IH; [exact Hr2|].
      intros z. split; intros Hz.
      * assert (In z (x :: r2)) as [<-|H]
          by (apply Hin; now right); [|exact H].
        specialize (Hx _ Hz). now rewrite ltb_irrefl in Hx.
      * assert (In z (x :: r)) as [<-|H]
          by (apply Hin; now right); [|exact H].
        specialize (Hy _ Hz). now rewrite ltb_irrefl in Hy.
Qed.

Lemma strict_NoDup (l : list A) : StronglySorted lt l -> NoDup l.
Proof.
  induction 1 as [|x r Hr IH Hx]; constructor; [|exact IH].
  intros Hin. rewrite Forall_forall in Hx.
  specialize (Hx _ Hin). unfold lt in Hx. now rewrite ltb_irrefl in Hx.
Qed.

End SortFacts.

Section SetFacts.
Context {A : Type}.
Variable eqb : A -> A -> bool.
Hypothesis eqb_spec : forall a b, eqb a b = true <-> a = b.

Lemma existsb_eqb (x : A) (l : list A) :
  existsb (eqb x) l = true <-> In x l.
Proof.
  rewrite existsb_exists. split.
  - intros (y & Hy & E). apply eqb_spec in E. now subst.
  - intros H. exists x. split; [exact H|]. now apply eqb_spec.
Qed.

Lemma set_fold_spec (l acc : list A) :
  NoDup acc ->
  let r := fold_left (builtins.set_add eqb) l acc in
  NoDup r /\ (forall x, In x r <-> In x acc \/ In x l) /\
  exists ext, r = acc ++ ext.
Proof.
  revert acc. induction l as [|y l IH]; intros acc Hn; simpl.
  - split; [exact Hn|]. split; [tauto|]. exists []. now rewrite app_nil_r.
  - unfold builtins.set_add at 2 4 6.
    destruct (existsb (eqb y) acc) eqn:E.
    + apply existsb_eqb in E.
      destruct (IH acc Hn) as (H1 & H2 & H3).
      split; [exact H1|]. split; [|exact H3].
      intros x. rewrite H2. intuition (subst; auto).
    + assert (Hy : ~ In y acc).
      { intros H. apply existsb_eqb in H. congruence. }
      assert (Hn' : NoDup (acc ++ [y])).
      { apply NoDup_app; [exact Hn|repeat constructor; auto|].
        intros x Hx [<-|[]]. auto. }
      destruct (IH (acc ++ [y]) Hn') as (H1 & H2 & ext & H3).
      split; [exact H1|]. split.
      * intros x. rewrite H2, in_app_iff. simpl. tauto.
      * exists (y :: ext). rewrite H3, <- app_assoc. reflexivity.
Qed.

Lemma list_set_NoDup (l : list A) : NoDup (builtins.list_set eqb l).
Proof. apply (set_fold_spec l []). constructor. Qed.

Lemma list_set_In (l : list A) (x : A) :
  In x (builtins.list_set eqb l) <-> In x l.
Proof.
  destruct (set_fold_spec l [] (NoDup_nil _)) as (_ & H & _).
  unfold builtins.list_set. rewrite H. simpl. tauto.
Qed.

(** First-seen order: at the first occurrence of [x], what the result
    holds so far is what was seen so far, and [x] comes next. *)
Lemma list_set_first_seen (l1 l2 : list A) (x : A) :
  ~ In x l1 ->
  exists rest,
    builtins.list_set eqb (l1 ++ x :: l2)
    = builtins.list_set eqb l1 ++ x :: rest.
Proof.
  intros Hx. unfold builtins.list_set.
  rewrite fold_left_app. simpl.
  set (u := fold_left (builtins.set_add eqb) l1 []).
  assert (Hu : ~ In x u).
  { unfold u. intros H. apply Hx.
    destruct (set_fold_spec l1 [] (NoDup_nil _)) as (_ & H' & _).
    apply H' in H. simpl in H. tauto. }
  unfold builtins.set_add at 2.
  destruct (existsb (eqb x) u) eqn:E.
  - apply existsb_eqb in E. contradiction.
  - assert (Hn : NoDup (u ++ [x])).
    { apply NoDup_app; [apply (set_fold_spec l1 []); constructor
                       |repeat constructor; auto|].
      intros y Hy [<-|[]]. auto. }
    destruct (set_fold_spec l2 (u ++ [x]) Hn) as (_ & _ & ext & ->).
    exists ext. now rewrite <- app_assoc.
Qed.
End SetFacts.

(** ** The order on [str] *)

Lemma string_ltb_irrefl (a : string) : String.ltb a a = false.
Proof.
  unfold String.ltb.
  assert (H : String.compare a a = Eq) by now apply String_as_OT.cmp_eq.
  now rewrite H.
Qed.

Lemma string_ltb_lt (a b : string) :
  String.ltb a b = true <-> String_as_OT.lt a b.
Proof.
  rewrite <- String_as_OT.cmp_lt. unfold String.ltb, String_as_OT.cmp.
  destruct (String.compare a b); split; congruence.
Qed.

Lemma string_ltb_trans (a b c : string) :
  String.ltb a b = true -> String.ltb b c = true -> String.ltb a c = true.
Proof.
  rewrite !string_ltb_lt. apply String_as_OT.lt_trans.
Qed.

Lemma string_ltb_total (a b : string) :
  String.ltb a b = false -> String.ltb b a = false -> a = b.
Proof.
  unfold String.ltb. rewrite (String.compare_antisym b a).
  destruct (String.compare a b) eqn:E; simpl; try discriminate.
  intros _ _. now apply String.compare_eq_iff.
Qed.

Lemma sorted_set_ascending (xs : list string) : ascending (sorted_set xs).
Proof.
  apply sorted_strict.
  - apply string_ltb_trans.
  - apply string_ltb_total.
  - apply list_set_NoDup, String.eqb_eq.
Qed.

Lemma sorted_set_In (xs : list string) (x : string) :
  In x (sorted_set xs) <-> In x xs.
Proof.
  unfold sorted_set. rewrite sorted_In.
  apply list_set_In, String.eqb_eq.
Qed.

Lemma ascending_unique (l1 l2 : list string) :
  ascending l1 -> ascending l2 -> (forall x, In x l1 <-> In x l2) ->
  l1 = l2.
Proof.
  apply strict_unique; [apply string_ltb_irrefl | apply string_ltb_trans].
Qed.

Lemma ascending_NoDup (l : list string) : ascending l -> NoDup l.
Proof. apply strict_NoDup, string_ltb_irrefl. Qed.

(** Any enumeration of the set gives the same sorted list. *)
Lemma sorted_any_order (xs enum : list string) :
  NoDup enum -> (forall x, In x enum <-> In x xs) ->
  builtins.sorted String.ltb enum = sorted_set xs.
Proof.
  intros Hn Hin. apply ascending_unique.
  - apply sorted_strict;
      [apply string_ltb_trans | apply string_ltb_total | exact Hn].
  - apply sorted_set_ascending.
  - intros x. now rewrite sorted_In, sorted_set_In.
Qed.

(** The explicit loop with [seen] computes the insertion-ordered set. *)
Lemma dedupe_loop_set (l seen acc : list string) :
  (forall x, In x seen <-> In x acc) ->
  dedupe_loop l seen acc = fold_left (builtins.set_add String.eqb) l acc.
Proof.
  revert seen acc. induction l as [|y l IH]; intros seen acc Hinv; simpl.
  - reflexivity.
  - unfold mem, builtins.set_add at 2.
    assert (E : existsb (String.eqb y) seen = existsb (String.eqb y) acc).
    { apply eq_true_iff_eq.
      rewrite !(existsb_eqb String.eqb String.eqb_eq). apply Hinv. }
    rewrite E. destruct (existsb (String.eqb y) acc); simpl.
    + now apply IH.
    + apply IH. intros x. simpl. rewrite in_app_iff, Hinv. simpl. tauto.
Qed.

Lemma dedupe_list_set (l : list string) :
  dedupe l = builtins.list_set String.eqb l.
Proof. apply dedupe_loop_set. tauto. Qed.

Lemma dedupe_NoDup (l : list string) : NoDup (dedupe l).
Proof. rewrite dedupe_list_set. apply list_set_NoDup, String.eqb_eq. Qed.

Lemma dedupe_In (l : list string) (x : string) : In x (dedupe l) <-> In x l.
Proof. rewrite dedupe_list_set. apply list_set_In, String.eqb_eq. Qed.

Lemma dedupe_first_seen (l1 l2 : list string) (x : string) :
  ~ In x l1 ->
  exists rest, dedupe (l1 ++ x :: l2) = dedupe l1 ++ x :: rest.
Proof.
  intros H. rewrite !dedupe_list_set.
  now apply list_set_first_seen; [apply String.eqb_eq|].
Qed.

(** ** Running the monad *)

Section Reads.
Context {S : Serialization}.

Lemma reads_ret {A} (a : A) : reads (ret a) (fun _ => a).
Proof. intros w. now exists w. Qed.

Lemma reads_print (s : string) : reads (print s) (fun _ => tt).
Proof. intros w. now eexists. Qed.

Lemma reads_is_dir (p : PurePath) :
  reads (is_dir p) (fun f => fs_is_dir f (str p)).
Proof. intros w. now exists w. Qed.

Lemma reads_iterdir (p : PurePath) :
  reads (iterdir p)
    (fun f => map (make_child_relpath p) (listdir f (str p))).
Proof. intros w. now exists w. Qed.

Lemma reads_bind {A B} (m : M A) (k : A -> M B) f g :
  reads m f -> (forall a, reads (k a) (g a)) ->
  reads (bind m k) (fun x => g (f x) x).
Proof.
  intros Hm Hk w. destruct (Hm w) as (w1 & E1 & F1).
  unfold bind. rewrite E1.
  destruct (Hk (f (fs w)) w1) as (w2 & E2 & F2).
  exists w2. rewrite E2, F2, F1. auto.
Qed.

Lemma reads_ext {A} (m : M A) f g :
  reads m f -> (forall x, f x = g x) -> reads m g.
Proof.
  intros Hm E w. destruct (Hm w) as (w' & H & F). exists w'.
  now rewrite <- E.
Qed.

Lemma reads_for_each {A B} (xs : list A) (body : A -> B -> M B) step :
  (forall x acc, reads (body x acc) (step x acc)) ->
  forall acc,
    reads (for_each xs body acc)
      (fun f => fold_left (fun a x => step x a f) xs acc).
Proof.
  intros Hb. induction xs as [|x xs IH]; intros acc; simpl.
  - apply reads_ret.
  - exact (reads_bind _ _ _ _ (Hb x acc) (fun a => IH a)).
Qed.

End Reads.

Ltac fs_norm :=
  repeat match goal with
         | H : fs ?a = fs ?b |- context [fs ?a] => rewrite H
         end.

(** One step of a run: the first action of the goal is [H]. *)
Ltac run_reads H :=
  let w' := fresh "w" in
  let E := fresh "E" in
  let F := fresh "F" in
  match goal with
  | |- context [bind _ _ ?w] =>
      destruct (H w) as (w' & E & F);
      unfold bind at 1; rewrite E; clear E; cbv beta iota; fs_norm
  end.

(** One step of a run whose outcome [E] gives. *)
Ltac step_with E := unfold bind at 1; rewrite E; cbv beta iota.

(** ** Discovery as a function of the file system *)

Section Discovery.
Context {S : Serialization}.
Variable sys : interpreter.

Lemma kept_app (f : filesystem) (ps qs : list PurePath) :
  kept f (ps ++ qs) = kept f ps ++ kept f qs.
Proof. unfold kept. now rewrite filter_app, map_app. Qed.

Lemma kept_cons (f : filesystem) (p : PurePath) (ps : list PurePath) :
  kept f (p :: ps) = kept f [p] ++ kept f ps.
Proof. exact (kept_app f [p] ps). Qed.

Lemma reads_append_if_dir (label : string) (p : PurePath)
    (paths : list string) :
  reads (append_if_dir label p paths) (fun f => paths ++ kept f [p]).
Proof.
  intros w. unfold append_if_dir, bind, is_dir, kept, print, ret. simpl.
  destruct (fs_is_dir (fs w) (str p)); simpl.
  - now eexists.
  - rewrite app_nil_r. now exists w.
Qed.

Lemma reads_append_each (label : string) (ps : list PurePath)
    (paths : list string) :
  reads (for_each ps (append_if_dir label) paths)
    (fun f => paths ++ kept f ps).
Proof.
  eapply reads_ext.
  - exact (reads_for_each ps _ _ (reads_append_if_dir label) paths).
  - intros f. revert paths.
    induction ps as [|p ps IH]; intros paths; simpl.
    + unfold kept. simpl. now rewrite app_nil_r.
    + rewrite IH, (kept_cons f p ps). now rewrite app_assoc.
Qed.

Lemma reads_system_ros_paths (python_version ros_distro : string)
    (paths : list string) :
  reads (system_ros_paths sys python_version ros_distro paths)
    (fun f => paths ++ found_system sys f python_version ros_distro).
Proof.
  intros w. unfold system_ros_paths, found_system.
  destruct (Str.truthy ros_distro).
  - run_reads (reads_append_if_dir "Found base ROS path: "
                 (base_ros_path sys ros_distro) paths).
    match goal with |- context [append_if_dir ?l ?p ?a] =>
      run_reads (reads_append_if_dir l p a) end.
    match goal with |- context [append_if_dir ?l ?p ?a ?w] =>
      destruct (reads_append_if_dir l p a w) as (w2 & E & F2) end.
    rewrite E. exists w2. split; [|congruence].
    rewrite F0, F. unfold ros_candidates.
    rewrite (kept_cons (fs w) (base_ros_path sys ros_distro) [_; _]),
      (kept_cons (fs w) (dist_packages_path sys ros_distro) [_]).
    now rewrite <- !app_assoc.
  - unfold bind, print, ret. simpl. rewrite app_nil_r. now eexists.
Qed.

Lemma reads_local_package_step (python_version : string)
    (package_dir : PurePath) (acc : list string * list string) :
  reads (local_package_step sys python_version package_dir acc)
    (fun f =>
       if fs_is_dir f (str package_dir)
       then (fst acc ++ kept f (possible_paths sys python_version package_dir),
             snd acc ++ [name package_dir])
       else acc).
Proof.
  destruct acc as [paths pkgs]. intros w. unfold local_package_step.
  run_reads (reads_is_dir package_dir).
  destruct (fs_is_dir (fs w) (str package_dir)); cbn [negb]; cbv iota.
  - run_reads (reads_append_each "Found local path: "
                 (possible_paths sys python_version package_dir) paths).
    unfold ret. simpl. eexists. split; [reflexivity|]. congruence.
  - now exists w0.
Qed.

Lemma local_fold (f : filesystem) (python_version : string)
    (entries : list PurePath) (acc : list string * list string) :
  fold_left
    (fun a d =>
       if fs_is_dir f (str d)
       then (fst a ++ kept f (possible_paths sys python_version d),
             snd a ++ [name d])
       else a) entries acc
  = (fst acc
     ++ flat_map (fun d => kept f (possible_paths sys python_version d))
          (filter (fun p => fs_is_dir f (str p)) entries),
     snd acc
     ++ map name (filter (fun p => fs_is_dir f (str p)) entries)).
Proof.
  revert acc. induction entries as [|d r IH]; intros [paths pkgs]; simpl.
  - now rewrite !app_nil_r.
  - rewrite IH. destruct (fs_is_dir f (str d)); simpl; [|reflexivity].
    now rewrite <- !app_assoc.
Qed.

Lemma reads_pythonpath_step (path : string) (paths : list string) :
  reads (pythonpath_step path paths)
    (fun f =>
       if Str.truthy path && fs_is_dir f (str (Path path))
       then paths ++ [path] else paths).
Proof.
  intros w. unfold pythonpath_step, bind, is_dir, print, ret.
  destruct (Str.truthy path); simpl; [|now exists w].
  destruct (fs_is_dir (fs w) (str (Path path))); [now eexists|now exists w].
Qed.

Lemma reads_pythonpath_paths (paths : list string) :
  reads (pythonpath_paths sys paths) (fun f => paths ++ found_env sys f).
Proof.
  assert (Hloop : forall xs acc,
    reads (for_each xs pythonpath_step acc)
      (fun f => acc ++ filter
         (fun path => Str.truthy path && fs_is_dir f (str (Path path)))
         xs)).
  { intros xs acc. eapply reads_ext.
    - exact (reads_for_each xs _ _ reads_pythonpath_step acc).
    - intros f. revert acc.
      induction xs as [|x xs IH]; intros acc; simpl.
      + now rewrite app_nil_r.
      + rewrite IH.
        destruct (Str.truthy x && fs_is_dir f (str (Path x)));
          [now rewrite <- app_assoc|reflexivity]. }
  unfold pythonpath_paths, found_env.
  destruct (environ_PYTHONPATH sys) as [v|]; simpl.
  - destruct (Str.truthy v) eqn:E.
    + apply Hloop.
    + destruct v; [|discriminate]. simpl. intros w. exists w.
      now rewrite app_nil_r.
  - intros w. exists w. now rewrite app_nil_r.
Qed.

(** Discovery never raises, writes nothing, and returns [discovered]. *)
Theorem reads_find_paths_and_packages (workspace_root : PurePath)
    (python_version ros_distro : string) :
  reads (find_paths_and_packages sys workspace_root python_version ros_distro)
    (fun f => discovered sys f workspace_root python_version ros_distro).
Proof.
  intros w. unfold find_paths_and_packages, discovered.
  run_reads (reads_system_ros_paths python_version ros_distro []).
  run_reads (reads_is_dir (workspace_root // "install")).
  destruct (fs_is_dir (fs w) (str (workspace_root // "install")));
    cbn [negb]; cbv iota.
  - run_reads (reads_iterdir (workspace_root // "install")).
    match goal with |- context [for_each ?xs ?b ?a] =>
      run_reads (reads_for_each xs b _
                   (reads_local_package_step python_version) a) end.
    rewrite local_fold. simpl fst. simpl snd. cbv iota beta.
    match goal with |- context [pythonpath_paths sys ?a] =>
      run_reads (reads_pythonpath_paths a) end.
    match goal with |- context [bind (print ?s)] =>
      run_reads (reads_print s) end.
    match goal with |- context [bind (print ?s)] =>
      run_reads (reads_print s) end.
    match goal with |- context [bind (print ?s)] =>
      run_reads (reads_print s) end.
    match goal with |- context [for_each ?xs ?b tt] =>
      run_reads (reads_for_each xs b (fun _ _ _ => tt)
                   (fun x _ => reads_print ("  - " +++ x)) tt) end.
    unfold ret. eexists. split.
    + f_equal. f_equal.
      unfold accumulated_paths, found_local, package_dirs.
      now rewrite <- app_assoc.
    + congruence.
  - unfold bind, print, ret. simpl. eexists. split; [reflexivity|].
    simpl. congruence.
Qed.

End Discovery.

(** ** Discovery: what it returns *)

Section DiscoveryResult.
Context {S : Serialization}.
Variable sys : interpreter.

Lemma truthy_nonempty (s : string) : s <> "" -> Str.truthy s = true.
Proof. destruct s; [congruence|reflexivity]. Qed.

Lemma kept_is_dir (f : filesystem) (ps : list PurePath) (s : string) :
  In s (kept f ps) <-> exists p, In p ps /\ str p = s /\
                                 fs_is_dir f s = true.
Proof.
  unfold kept. rewrite in_map_iff. split.
  - intros (p & E & H). apply filter_In in H as [H1 H2].
    exists p. subst s. auto.
  - intros (p & H1 & E & H2). exists p. split; [exact E|].
    apply filter_In. subst s. auto.
Qed.

(** A path made by [Path] or by [/] prints to a string that parses back
    to the same path. *)
Lemma truediv_canonical (p : PurePath) (s : string) : canonical (p // s).
Proof. apply Path_canonical. Qed.

Lemma possible_paths_canonical (python_version : string) (d p : PurePath) :
  In p (possible_paths sys python_version d) -> canonical p.
Proof.
  intros [<-|[<-|[<-|[]]]]; apply truediv_canonical.
Qed.

Lemma ros_candidates_canonical (python_version ros_distro : string)
    (p : PurePath) :
  In p (ros_candidates sys python_version ros_distro) -> canonical p.
Proof.
  intros [<-|[<-|[<-|[]]]]; apply Path_canonical.
Qed.

(** Every accumulated string passed its is-directory check: parsed as a
    path, it named a directory. *)
Lemma accumulated_checked (f : filesystem) (workspace_root : PurePath)
    (python_version ros_distro s : string) :
  In s (accumulated_paths sys f workspace_root python_version ros_distro) ->
  fs_is_dir f (str (Path s)) = true.
Proof.
  unfold accumulated_paths. rewrite !in_app_iff.
  intros [H|[H|H]].
  - unfold found_system in H. destruct (Str.truthy ros_distro); [|easy].
    apply kept_is_dir in H as (p & Hp & <- & Hd).
    now rewrite Path_str by (eapply ros_candidates_canonical; eauto).
  - unfold found_local in H. apply in_flat_map in H as (d & _ & H).
    apply kept_is_dir in H as (p & Hp & <- & Hd).
    now rewrite Path_str by (eapply possible_paths_canonical; eauto).
  - unfold found_env in H. destruct (environ_PYTHONPATH sys); [|easy].
    apply filter_In in H as [_ H]. now apply andb_true_iff in H as [_ H].
Qed.

Lemma Path_opt_ros (r : string) :
  Path ("/opt/ros/" +++ r)
  = mkPath "/" ("opt" :: "ros" :: filter keep_part (Str.split Str.slash r)).
Proof. reflexivity. Qed.

Lemma name_child (p : PurePath) (n : string) :
  name (make_child_relpath p n) = n.
Proof. unfold name, make_child_relpath. simpl. apply last_last. Qed.

Lemma package_names (f : filesystem) (workspace_root : PurePath) :
  accumulated_packages f workspace_root
  = filter (fun n => fs_is_dir f
              (str (make_child_relpath (workspace_root // "install") n)))
      (listdir f (str (workspace_root // "install"))).
Proof.
  unfold accumulated_packages, package_dirs.
  induction (listdir f (str (workspace_root // "install"))) as [|n l IH];
    simpl; [reflexivity|].
  destruct (fs_is_dir f _); simpl; [|exact IH].
  now rewrite name_child, IH.
Qed.

(** C2.  When [install] is a directory, the local packages returned are
    the sorted, duplicate-free set of the names of its entries that are
    directories: whatever the order of the listing, whatever the order in
    which the set is enumerated, and whether or not a search path was
    found for a package. *)
Theorem C2_local_packages (w : world) (workspace_root : PurePath)
    (python_version ros_distro : string) :
  let install_dir := workspace_root // "install" in
  let is_package (f : filesystem) (n : string) :=
    fs_is_dir f (str (make_child_relpath install_dir n)) in
  let names := filter (is_package (fs w)) (listdir (fs w) (str install_dir)) in
  fs_is_dir (fs w) (str install_dir) = true ->
  exists python_paths local_packages w',
    find_paths_and_packages sys workspace_root python_version ros_distro w
    = Returns (python_paths, local_packages) w' /\
    local_packages = sorted_set names /\
    ascending local_packages /\
    NoDup local_packages /\
    (forall n, In n local_packages <->
               In n (listdir (fs w) (str install_dir)) /\
               is_package (fs w) n = true) /\
    (forall enum, NoDup enum -> (forall n, In n enum <-> In n names) ->
       builtins.sorted String.ltb enum = local_packages) /\
    (forall w2,
       (forall s, lookup (fs w2) s = lookup (fs w) s) ->
       Permutation (listdir (fs w2) (str install_dir))
                   (listdir (fs w) (str install_dir)) ->
       exists python_paths2 w2',
         find_paths_and_packages sys workspace_root python_version
           ros_distro w2
         = Returns (python_paths2, local_packages) w2').
Proof.
  intros install_dir is_package names Hinst.
  destruct (reads_find_paths_and_packages sys workspace_root
              python_version ros_distro w) as (w' & E & F).
  unfold discovered in E. fold install_dir in E. rewrite Hinst in E.
  rewrite package_names in E. fold install_dir in E.
  do 2 eexists. exists w'. split; [exact E|].
  split; [reflexivity|].
  split; [apply sorted_set_ascending|].
  split; [apply ascending_NoDup, sorted_set_ascending|].
  split; [|split].
  - intros n. rewrite sorted_set_In. apply filter_In.
  - intros enum Hn Hin. now apply sorted_any_order.
  - intros w2 Hlook Hperm.
    assert (Hdir : forall s, fs_is_dir (fs w2) s = fs_is_dir (fs w) s).
    { intros s. unfold fs_is_dir. now rewrite Hlook. }
    destruct (reads_find_paths_and_packages sys workspace_root
                python_version ros_distro w2) as (w2' & E2 & F2).
    unfold discovered in E2. fold install_dir in E2.
    rewrite Hdir, Hinst, package_names in E2. fold install_dir in E2.
    eexists. exists w2'. rewrite E2. do 2 f_equal.
    apply ascending_unique; try apply sorted_set_ascending.
    intros n. rewrite !sorted_set_In, !filter_In, Hdir.
    split; intros [H1 H2]; split; auto.
    + eapply Permutation_in; eauto.
    + eapply Permutation_in; [apply Permutation_sym|]; eauto.
Qed.

(** C3.  The returned search paths hold no duplicates and only strings
    that passed an is-directory check; when [install] exists they are the
    accumulated candidates in first-seen order: at the first occurrence
    of a candidate, the result so far is the de-duplicated prefix and the
    candidate comes next.  Candidates accumulated as [A, B, A, C] are
    returned as [A, B, C]. *)
Theorem C3_search_paths (w : world) (workspace_root : PurePath)
    (python_version ros_distro : string) :
  exists python_paths local_packages w',
    find_paths_and_packages sys workspace_root python_version ros_distro w
    = Returns (python_paths, local_packages) w' /\
    NoDup python_paths /\
    (forall s, In s python_paths ->
               fs_is_dir (fs w) (str (Path s)) = true) /\
    (fs_is_dir (fs w) (str (workspace_root // "install")) = true ->
     let accumulated :=
       accumulated_paths sys (fs w) workspace_root python_version
         ros_distro in
     (forall s, In s python_paths <-> In s accumulated) /\
     (forall before x after,
        accumulated = before ++ x :: after -> ~ In x before ->
        exists rest, python_paths = dedupe before ++ x :: rest) /\
     (forall A B C,
        A <> B -> A <> C -> B <> C ->
        accumulated = [A; B; A; C] -> python_paths = [A; B; C])).
Proof.
  destruct (reads_find_paths_and_packages sys workspace_root
              python_version ros_distro w) as (w' & E & F).
  unfold discovered in E.
  destruct (fs_is_dir (fs w) (str (workspace_root // "install"))) eqn:Hinst.
  - do 2 eexists. exists w'. split; [exact E|].
    split; [apply dedupe_NoDup|]. split.
    + intros s H. apply (proj1 (dedupe_In _ _)) in H.
      now apply accumulated_checked in H.
    + intros _ accumulated. subst accumulated.
      split; [intros s; apply dedupe_In|]. split.
      * intros before x after Heq Hx. rewrite Heq.
        now apply dedupe_first_seen.
      * intros A B C HAB HAC HBC Heq. rewrite Heq.
        unfold dedupe, dedupe_loop, mem. simpl.
        apply String.eqb_neq in HAB, HAC, HBC.
        rewrite (String.eqb_sym B A), (String.eqb_sym C A),
          (String.eqb_sym C B).
        now rewrite HAB, HAC, HBC, String.eqb_refl.
  - do 2 eexists. exists w'. split; [exact E|].
    split; [constructor|]. split; [intros s []|discriminate].
Qed.

Lemma main_runs_discovery (w : world) (script ros_distro : string)
    (rest : list string) :
  argv sys = script :: ros_distro :: rest ->
  exists w1,
    fs w1 = fs w /\
    main sys w
    = (let '(python_paths, local_packages) :=
         discovered sys (fs w) (Path (getcwd sys))
           (get_python_version_string sys) ros_distro in
       (if negb (nonempty python_paths) && negb (nonempty local_packages)
        then print "No packages found. Exiting." ;; sys_exit 1
        else ret tt) ;;
       print "Skipping CMake-specific settings." ;;
       (if nonempty python_paths
        then update_vscode_settings (Path (getcwd sys)) python_paths
               (executable sys)
        else ret tt) ;;
       (if nonempty local_packages
        then update_pyproject_toml (Path (getcwd sys)) local_packages
        else ret tt) ;;
       print (Str.newline +++ "Python script finished.")) w1.
Proof.
  intros Hargv. unfold main. rewrite Hargv.
  do 5 match goal with |- context [bind (print ?s)] =>
         run_reads (reads_print s) end.
  match goal with |- context [find_paths_and_packages _ ?r ?v ?d] =>
    run_reads (reads_find_paths_and_packages sys r v d) end.
  exists w5. split; [congruence|].
  destruct (discovered _ _ _ _ _) as [paths pkgs]. reflexivity.
Qed.

End DiscoveryResult.

(** ** The settings writer as a function of the file system *)

Section SettingsFacts.
Context {S : Serialization}.

Lemma mkdir_spec (dir : PurePath) (w : world) :
  match mkdir_fs (fs w) dir with
  | Some f' => mkdir_exist_ok dir w = Returns tt (mkWorld f' (stdout w))
  | None => exists c msg,
      mkdir_exist_ok dir w = Raises (Exception c msg) w /\
      is_OSError c = true
  end.
Proof.
  unfold mkdir_fs, mkdir_exist_ok, create_entry, os_error, raise.
  destruct w as [f o]. simpl.
  destruct (lookup f (str dir)) as [[b|r wr d]|]; simpl; eauto.
  destruct (lookup f (str (parent dir))) as [[[|]|r wr d]|]; simpl; eauto.
Qed.

Lemma load_spec (file : PurePath) (w : world) :
  match loaded (fs w) file with
  | Some v => exists w',
      load_settings file w = Returns v w' /\ fs w' = fs w
  | None => exists c msg,
      load_settings file w = Raises (Exception c msg) w /\
      is_OSError c = true
  end.
Proof.
  unfold loaded, load_settings, bind, exists_, answer, fs_exists, try_except,
    open_read, json_load, os_error, raise, ret, print.
    cbn [stat_error answering].
  cbv beta.
  destruct (lookup (fs w) (str file)) as [[b|[|] wr txt]|] eqn:E;
    cbn -[String.append str]; rewrite ?E; cbn -[String.append str]; eauto.
  destruct (json_loads txt); cbn -[String.append str]; eauto.
Qed.

Lemma assign_spec (v : json) (python_paths : list string)
    (interpreter_path : string) (w : world) :
  match assigned v python_paths interpreter_path with
  | Some d =>
      assign_settings v python_paths interpreter_path w = Returns d w
  | None => exists msg,
      assign_settings v python_paths interpreter_path w
      = Raises (Exception TypeError msg) w
  end.
Proof.
  unfold assigned, assign_settings, apply_settings, bind, json_setitem,
    ret, raise.
  destruct v; simpl; eauto.
Qed.

Lemma dump_spec (file : PurePath) (data : json) (w : world) :
  exists w',
    dump_settings file data w = Returns tt w' /\
    fs w' = written (fs w) file (json_dumps data).
Proof.
  unfold dump_settings, written, try_except, bind, open_write,
    create_entry, os_error, raise, print, any_Exception.
  cbv beta.
  destruct (lookup (fs w) (str file)) as [[b|r [|] txt]|];
    cbn -[String.append str]; eauto.
  destruct (lookup (fs w) (str (parent file))) as [[[|]|r wr d]|];
    cbn -[String.append str]; eauto.
Qed.

(** The settings writer, run: it returns with the file system
    [settings_fs] gives, or it raises having at most created the
    directory. *)
Lemma update_vscode_settings_spec (workspace_root : PurePath)
    (python_paths : list string) (interpreter_path : string) (w : world) :
  match settings_fs (fs w) workspace_root python_paths interpreter_path with
  | Some f' => exists w',
      update_vscode_settings workspace_root python_paths interpreter_path w
      = Returns tt w' /\ fs w' = f'
  | None => exists c msg w',
      update_vscode_settings workspace_root python_paths interpreter_path w
      = Raises (Exception c msg) w' /\
      (fs w' = fs w \/
       mkdir_fs (fs w) (settings_dir_of workspace_root) = Some (fs w'))
  end.
Proof.
  unfold settings_fs, update_vscode_settings.
  fold (settings_dir_of workspace_root).
  change (settings_dir_of workspace_root // "settings.json")
    with (settings_file_of workspace_root).
  pose proof (mkdir_spec (settings_dir_of workspace_root) w) as Hm.
  destruct (mkdir_fs (fs w) (settings_dir_of workspace_root)) as [f1|].
  - pose proof (load_spec (settings_file_of workspace_root)
                  (mkWorld f1 (stdout w))) as Hl.
    simpl fs in Hl.
    destruct (loaded f1 (settings_file_of workspace_root)) as [v|].
    + destruct Hl as (w1 & Hl & F1).
      pose proof (assign_spec v python_paths interpreter_path w1) as Ha.
      destruct (assigned v python_paths interpreter_path) as [d|].
      * destruct (dump_spec (settings_file_of workspace_root) d w1)
          as (w2 & Hd & F2).
        exists w2. split; [|now rewrite F2, F1].
        step_with Hm. step_with Hl. step_with Ha. exact Hd.
      * destruct Ha as (msg & Ha). do 3 eexists.
        split;
          [step_with Hm; step_with Hl; step_with Ha; reflexivity|].
        right. now rewrite F1.
    + destruct Hl as (c & msg & Hl & _). do 3 eexists.
      split; [step_with Hm; step_with Hl; reflexivity|].
      now right.
  - destruct Hm as (c & msg & Hm & _). do 3 eexists.
    split; [step_with Hm; reflexivity|].
    now left.
Qed.

(** *** [dict] facts *)

Lemma get_set_same {V} (d : list (string * V)) (k : string) (v : V) :
  dict.get (dict.set d k v) k = Some v.
Proof.
  induction d as [|[k' v'] d IH]; simpl.
  - now rewrite String.eqb_refl.
  - destruct (k' =? k) eqn:E; simpl; rewrite E; [reflexivity|exact IH].
Qed.

Lemma get_set_other {V} (d : list (string * V)) (k k' : string) (v : V) :
  k <> k' -> dict.get (dict.set d k v) k' = dict.get d k'.
Proof.
  intros Hne. induction d as [|[k0 v0] d IH]; simpl.
  - apply String.eqb_neq in Hne. now rewrite Hne.
  - destruct (k0 =? k) eqn:E; simpl.
    + apply String.eqb_eq in E. subst k0.
      apply String.eqb_neq in Hne. now rewrite Hne.
    + now rewrite IH.
Qed.

Lemma set_same_value {V} (d : list (string * V)) (k : string) (v : V) :
  dict.get d k = Some v -> dict.set d k v = d.
Proof.
  induction d as [|[k' v'] d IH]; simpl; [discriminate|].
  destruct (k' =? k) eqn:E.
  - now intros [= ->].
  - intros H. now rewrite IH.
Qed.

Lemma apply_settings_owned (m : list (string * json))
    (python_paths : list string) (interpreter_path : string) :
  owned_bindings (apply_settings m python_paths interpreter_path)
    python_paths interpreter_path.
Proof.
  unfold owned_bindings, apply_settings. cbv zeta.
  repeat split;
    repeat first
      [ apply get_set_same
      | rewrite get_set_other by (intros H; discriminate H) ].
Qed.

Lemma apply_settings_other (m : list (string * json))
    (python_paths : list string) (interpreter_path k : string) :
  ~ In k owned_keys ->
  dict.get (apply_settings m python_paths interpreter_path) k
  = dict.get m k.
Proof.
  intros Hk. unfold apply_settings. cbv zeta.
  rewrite !get_set_other; [reflexivity|..];
    intros <-; apply Hk; unfold owned_keys; simpl; tauto.
Qed.

Lemma owned_bindings_fixpoint (d : list (string * json))
    (python_paths : list string) (interpreter_path : string) :
  owned_bindings d python_paths interpreter_path ->
  apply_settings d python_paths interpreter_path = d.
Proof.
  intros (H1 & H2 & H3 & H4 & H5 & H6). unfold apply_settings. cbv zeta.
  rewrite (set_same_value d _ _ H1), (set_same_value d _ _ H2),
    (set_same_value d _ _ H3), (set_same_value d _ _ H4),
    (set_same_value d _ _ H5).
  now apply set_same_value.
Qed.

(** Assigning twice is assigning once. *)
Lemma apply_settings_idempotent (m : list (string * json))
    (python_paths : list string) (interpreter_path : string) :
  apply_settings (apply_settings m python_paths interpreter_path)
    python_paths interpreter_path
  = apply_settings m python_paths interpreter_path.
Proof. apply owned_bindings_fixpoint, apply_settings_owned. Qed.

(** *** The paths the writers use are distinct *)

Lemma canonical_snoc (p : PurePath) (n : string) :
  canonical p -> valid_part n = true ->
  canonical (mkPath (root p) (tail p ++ [n])).
Proof.
  intros [Hr Hv] Hn. split; [exact Hr|]. simpl.
  now rewrite forallb_snoc, Hv, Hn.
Qed.

Lemma settings_dir_parts (r : PurePath) :
  canonical r ->
  settings_dir_of r = mkPath (root r) (tail r ++ [".vscode"]).
Proof. intros Hr. now apply truediv_part. Qed.

Lemma settings_file_parts (r : PurePath) :
  canonical r ->
  settings_file_of r
  = mkPath (root r) ((tail r ++ [".vscode"]) ++ ["settings.json"]).
Proof.
  intros Hr. unfold settings_file_of.
  fold (settings_dir_of r). rewrite (settings_dir_parts r Hr).
  apply (truediv_part (mkPath (root r) (tail r ++ [".vscode"])));
    [now apply canonical_snoc|reflexivity].
Qed.

Lemma toml_file_parts (r : PurePath) :
  canonical r ->
  toml_file_of r = mkPath (root r) (tail r ++ ["pyproject.toml"]).
Proof. intros Hr. now apply truediv_part. Qed.

Lemma settings_file_parent (r : PurePath) :
  canonical r -> parent (settings_file_of r) = settings_dir_of r.
Proof.
  intros Hr. rewrite settings_file_parts, settings_dir_parts by exact Hr.
  unfold parent. simpl. now rewrite removelast_last.
Qed.

Lemma str_neq (p q : PurePath) :
  canonical p -> canonical q -> tail p <> tail q -> str p <> str q.
Proof.
  intros Hp Hq Hne E. apply Hne.
  now rewrite (str_injective p q Hp Hq E).
Qed.

Lemma file_neq_dir (r : PurePath) :
  canonical r -> str (settings_file_of r) <> str (settings_dir_of r).
Proof.
  intros Hr. apply str_neq; try apply truediv_canonical.
  rewrite settings_file_parts, settings_dir_parts by exact Hr. simpl.
  intros E. apply (f_equal (@length string)) in E.
  rewrite !length_app in E. simpl in E. lia.
Qed.

Lemma toml_neq_dir (r : PurePath) :
  canonical r -> str (toml_file_of r) <> str (settings_dir_of r).
Proof.
  intros Hr. apply str_neq; try apply truediv_canonical.
  rewrite toml_file_parts, settings_dir_parts by exact Hr. simpl.
  intros E. apply app_inv_head in E. discriminate E.
Qed.

Lemma toml_neq_file (r : PurePath) :
  canonical r -> str (toml_file_of r) <> str (settings_file_of r).
Proof.
  intros Hr. apply str_neq; try apply truediv_canonical.
  rewrite toml_file_parts, settings_file_parts by exact Hr. simpl.
  intros E. apply (f_equal (@length string)) in E.
  rewrite !length_app in E. simpl in E. lia.
Qed.

End SettingsFacts.

(** ** The settings writer: what it leaves in the file *)

Section SettingsFile.
Context {S : Serialization}.

Lemma lookup_create_other (f : filesystem) (p : PurePath) (n : node)
    (k : string) :
  k <> str p -> lookup (fs_create f p n) k = lookup f k.
Proof. intros H. simpl. apply String.eqb_neq in H. now rewrite H. Qed.

Lemma lookup_replace_other (f : filesystem) (p : PurePath) (n : node)
    (k : string) :
  k <> str p -> lookup (fs_replace f p n) k = lookup f k.
Proof. intros H. simpl. apply String.eqb_neq in H. now rewrite H. Qed.

Lemma lookup_create_same (f : filesystem) (p : PurePath) (n : node) :
  lookup (fs_create f p n) (str p) = Some n.
Proof. simpl. now rewrite String.eqb_refl. Qed.

Lemma lookup_replace_same (f : filesystem) (p : PurePath) (n : node) :
  lookup (fs_replace f p n) (str p) = Some n.
Proof. simpl. now rewrite String.eqb_refl. Qed.

(** [mkdir] touches the directory entry only. *)
Lemma mkdir_fs_other (f f1 : filesystem) (dir : PurePath) (k : string) :
  mkdir_fs f dir = Some f1 -> k <> str dir -> lookup f1 k = lookup f k.
Proof.
  unfold mkdir_fs. intros H Hk.
  destruct (lookup f (str dir)) as [[b|r wr d]|]; try discriminate.
  - now injection H as <-.
  - destruct (lookup f (str (parent dir))) as [[[|]|r wr d]|];
      try discriminate.
    injection H as <-. now apply lookup_create_other.
Qed.

Lemma mkdir_fs_dir (f f1 : filesystem) (dir : PurePath) :
  mkdir_fs f dir = Some f1 -> exists b, lookup f1 (str dir) = Some (Dir b).
Proof.
  unfold mkdir_fs. intros H.
  destruct (lookup f (str dir)) as [[b|r wr d]|] eqn:E; try discriminate.
  - injection H as <-. eauto.
  - destruct (lookup f (str (parent dir))) as [[[|]|r wr d]|];
      try discriminate.
    injection H as <-. rewrite lookup_create_same. eauto.
Qed.

(** A write attempt touches the file entry only, and leaves it as it was
    or holding the data. *)
Lemma written_other (f : filesystem) (file : PurePath) (data : text)
    (k : string) :
  k <> str file -> lookup (written f file data) k = lookup f k.
Proof.
  intros Hk. unfold written.
  destruct (lookup f (str file)) as [[b|r [|] d]|]; try reflexivity.
  - now apply lookup_replace_other.
  - destruct (lookup f (str (parent file))) as [[[|]|r wr d]|];
      try reflexivity.
    now apply lookup_create_other.
Qed.

Lemma written_same (f : filesystem) (file : PurePath) (data : text) :
  lookup (written f file data) (str file) = lookup f (str file) \/
  exists r, lookup (written f file data) (str file)
            = Some (File r true data).
Proof.
  unfold written.
  destruct (lookup f (str file)) as [[b|r [|] d]|] eqn:E; auto.
  - right. exists r. apply lookup_replace_same.
  - destruct (lookup f (str (parent file))) as [[[|]|r wr d]|]; auto.
    right. exists true. apply lookup_create_same.
Qed.

Lemma loaded_ext (f f1 : filesystem) (file : PurePath) :
  lookup f1 (str file) = lookup f (str file) ->
  loaded f1 file = loaded f file.
Proof. unfold loaded. now intros ->. Qed.

(** What a run of the settings writer leaves at the settings file: what
    was there, or the document it loaded with the six keys assigned. *)
Lemma settings_outcome (cwd : string) (python_paths : list string)
    (interpreter_path : string) (w : world) :
  let file := settings_file_of (Path cwd) in
  let o := update_vscode_settings (Path cwd) python_paths interpreter_path
             w in
  lookup (fs (final o)) (str file) = lookup (fs w) (str file) \/
  exists r m0,
    loaded (fs w) file = Some (JObj m0) /\
    lookup (fs (final o)) (str file)
    = Some (File r true
              (json_dumps
                 (JObj (apply_settings m0 python_paths interpreter_path)))).
Proof.
  intros file o.
  pose proof (Path_canonical cwd) as Hc.
  pose proof (file_neq_dir _ Hc) as Hfd.
  pose proof (update_vscode_settings_spec (Path cwd) python_paths
                interpreter_path w) as Hs.
  fold o in Hs. unfold settings_fs in Hs.
  destruct (mkdir_fs (fs w) (settings_dir_of (Path cwd))) as [f1|] eqn:Em.
  - pose proof (mkdir_fs_other _ _ _ _ Em Hfd) as Hk.
    rewrite (loaded_ext _ _ _ Hk) in Hs. fold file in Hs.
    destruct (loaded (fs w) file) as [v|] eqn:El.
    + destruct v as [| | | | |m0]; simpl in Hs;
        try (destruct Hs as (c & msg & w' & -> & [F|F]); simpl;
             [left; now rewrite F
             |left; injection F as <-; exact Hk]).
      destruct Hs as (w' & -> & F). simpl. rewrite F.
      destruct (written_same f1 file
                 (json_dumps
                    (JObj (apply_settings m0 python_paths
                             interpreter_path)))) as [H|(r & H)].
      * left. now rewrite H.
      * right. exists r, m0. auto.
    + destruct Hs as (c & msg & w' & -> & [F|F]); simpl.
      * left. now rewrite F.
      * left. injection F as <-. exact Hk.
  - destruct Hs as (c & msg & w' & -> & [F|F]); simpl.
    + left. now rewrite F.
    + discriminate F.
Qed.

(** C4.  If the settings file holds a document that parses to an object,
    then whatever a run of the settings writer does, the file afterwards
    holds the same text or a document in which every key other than the
    six owned ones has the value it had. *)
Theorem C4_other_keys_preserved (cwd : string) (python_paths : list string)
    (interpreter_path : string) (w : world) (r wr : bool) (txt : text)
    (m : list (string * json)) :
  let file := settings_file_of (Path cwd) in
  let o := update_vscode_settings (Path cwd) python_paths interpreter_path
             w in
  lookup (fs w) (str file) = Some (File r wr txt) ->
  json_loads txt = Some (JObj m) ->
  exists r' wr' txt',
    lookup (fs (final o)) (str file) = Some (File r' wr' txt') /\
    (txt' = txt \/
     exists m',
       txt' = json_dumps (JObj m') /\
       forall k v, ~ In k owned_keys ->
                   dict.get m k = Some v -> dict.get m' k = Some v).
Proof.
  intros file o Hfile Hparse.
  destruct (settings_outcome cwd python_paths interpreter_path w)
    as [H|(r' & m0 & Hl & H)]; fold file o in H.
  - exists r, wr, txt. rewrite H. auto.
  - exists r', true. eexists. split; [exact H|]. right.
    exists (apply_settings m0 python_paths interpreter_path).
    split; [reflexivity|].
    intros k v Hk Hv. rewrite apply_settings_other by exact Hk.
    fold file in Hl. unfold loaded in Hl. rewrite Hfile in Hl.
    destruct r; [|discriminate].
    rewrite Hparse in Hl. now injection Hl as <-.
Qed.

End SettingsFile.

(** ** The lint-config writer as a function of the file system *)

Section TomlFacts.
Context {S : Serialization}.

Lemma pure_ret {A} (a : A) : pure_m (ret a).
Proof. intros w. split; [exact I|reflexivity]. Qed.

Lemma pure_raise {A} (c : exn_class) (msg : string) :
  pure_m (@raise S A (Exception c msg)).
Proof. intros w. split; [exact I|reflexivity]. Qed.

Lemma pure_bind {A B} (m : M A) (k : A -> M B) :
  pure_m m -> (forall a, pure_m (k a)) -> pure_m (bind m k).
Proof.
  intros Hm Hk w. destruct (Hm w) as [Hn Hw]. unfold bind. split.
  - destruct (m w) as [a w1|e w1]; [apply Hk|exact Hn].
  - intros w'. rewrite (Hw w').
    destruct (Hm w') as [Hn' _].
    destruct (m w') as [a w1|e w1]; simpl; [|reflexivity].
    apply Hk.
Qed.

Lemma pure_setdefault (t : toml) (d : ref) (k : string) :
  pure_m (setdefault t d k).
Proof.
  unfold setdefault, no_attribute.
  destruct (get_path t d) as [[]|]; try apply pure_raise.
  destruct (dict.get members k); apply pure_ret.
Qed.

Lemma pure_get_or_empty_list (t : toml) (d : ref) (k : string) :
  pure_m (get_or_empty_list t d k).
Proof.
  unfold get_or_empty_list, no_attribute.
  destruct (get_path t d) as [[]|]; try apply pure_raise.
  destruct (dict.get members k); apply pure_ret.
Qed.

Lemma pure_list_concat (v : toml) (pkgs : list string) :
  pure_m (list_concat v pkgs).
Proof. destruct v; simpl; try apply pure_raise. apply pure_ret. Qed.

Lemma pure_toml_set (xs : list toml) : pure_m (toml_set xs).
Proof.
  unfold toml_set. destruct (forallb hashable xs);
    [apply pure_ret|apply pure_raise].
Qed.

Lemma pure_toml_sorted (xs : list toml) : pure_m (toml_sorted xs).
Proof.
  unfold toml_sorted. destruct (forallb is_str xs || forallb is_num xs);
    [apply pure_ret|apply pure_raise].
Qed.

Lemma pure_merge (t : toml) (pkgs : list string) :
  pure_m (merge_known_first_party t pkgs).
Proof.
  unfold merge_known_first_party.
  apply pure_bind; [apply pure_setdefault|]. intros [d1 s1].
  apply pure_bind; [apply pure_setdefault|]. intros [d2 s2].
  apply pure_bind; [apply pure_setdefault|]. intros [d3 s3].
  apply pure_bind; [apply pure_setdefault|]. intros [d4 s4].
  apply pure_bind; [apply pure_get_or_empty_list|]. intros kfp.
  apply pure_bind; [apply pure_list_concat|]. intros joined.
  apply pure_bind; [apply pure_toml_set|]. intros uniq.
  apply pure_bind; [apply pure_toml_sorted|]. intros updated.
  apply pure_ret.
Qed.

Lemma merge_spec (t : list (string * toml)) (pkgs : list string)
    (w : world) :
  match merged t pkgs with
  | Some t' => merge_known_first_party (TTable t) pkgs w = Returns t' w
  | None => exists c msg,
      merge_known_first_party (TTable t) pkgs w
      = Raises (Exception c msg) w
  end.
Proof.
  unfold merged.
  destruct (pure_merge (TTable t) pkgs w) as [_ Hw].
  destruct (pure_merge (TTable t) pkgs empty_world) as [Hn _].
  rewrite (Hw empty_world).
  destruct (merge_known_first_party (TTable t) pkgs empty_world)
    as [t' w1|[n|c msg] w1]; simpl; [reflexivity|contradiction|eauto].
Qed.

(** The lint-config writer always returns. *)
Lemma update_pyproject_toml_spec (workspace_root : PurePath)
    (pkgs : list string) (w : world) :
  exists w',
    update_pyproject_toml workspace_root pkgs w = Returns tt w' /\
    fs w' = toml_fs (fs w) workspace_root pkgs.
Proof.
  unfold update_pyproject_toml, toml_fs.
  fold (toml_file_of workspace_root).
  set (file := toml_file_of workspace_root).
  unfold bind at 1, exists_ at 1, answer at 1, fs_exists.
  cbn [stat_error answering].
  destruct (lookup (fs w) (str file)) as [[b|[|] wr txt]|] eqn:E;
    cbn [negb]; cbv iota.
  - unfold try_except, bind at 1, open_read, os_error, raise.
    rewrite E. unfold print. cbn -[String.append str]. eauto.
  - unfold try_except. unfold bind at 1, open_read at 1.
    rewrite E. unfold bind at 1, toml_load at 1.
    destruct (toml_loads txt) as [t|].
    + pose proof (merge_spec t pkgs w) as Hm. unfold ret at 1.
      unfold bind at 1.
      destruct (merged t pkgs) as [t'|].
      * rewrite Hm. unfold bind at 1, open_write at 1, os_error, raise.
        rewrite E. unfold print.
        destruct wr; cbn -[String.append str]; eauto.
      * destruct Hm as (c & msg & ->). unfold print.
        destruct wr; cbn -[String.append str]; eauto.
    + unfold raise, print. destruct wr; cbn -[String.append str]; eauto.
  - unfold try_except. unfold bind at 1, open_read at 1, os_error, raise.
    rewrite E. unfold print. cbn -[String.append str]. eauto.
  - unfold bind, print, ret. cbn -[String.append str]. eauto.
Qed.

End TomlFacts.

(** ** The merge of the known-first-party list, in closed form *)

Section MergeFacts.
Context {S : Serialization}.

Lemma set_set {V} (d : list (string * V)) (k : string) (a b : V) :
  dict.set (dict.set d k a) k b = dict.set d k b.
Proof.
  induction d as [|[k' v'] d IH]; simpl.
  - now rewrite String.eqb_refl.
  - destruct (k' =? k) eqn:E; simpl; rewrite E; [reflexivity|].
    now rewrite IH.
Qed.

(** The evaluation of the merge: known look-ups are replaced, then the
    next look-up in a table of the document is split into its cases. *)
Ltac merge_norm :=
  repeat progress
    (cbn -[builtins.list_set builtins.sorted forallb];
     repeat match goal with
            | H : dict.get ?m ?k = _ |- context [dict.get ?m ?k] => rewrite H
            | H : forallb ?f ?l = _ |- context [forallb ?f ?l] => rewrite H
            | H : ?a || ?b = _ |- context [?a || ?b] => rewrite H
            end;
     rewrite ?get_set_same, ?set_set).

Ltac merge_step :=
  merge_norm;
  match goal with
  | |- context [dict.get ?m ?k] =>
      is_var m; destruct (dict.get m k) as [[]|] eqn:?
  | |- context [forallb hashable ?l] =>
      destruct (forallb hashable l) eqn:?
  | |- context [forallb is_str ?l || forallb is_num ?l] =>
      destruct (forallb is_str l || forallb is_num l) eqn:?
  end.

Lemma merged_closed_form (t : list (string * toml)) (pkgs : list string) :
  merged t pkgs = option_map TTable (merge_fn t pkgs).
Proof.
  unfold merged, merge_fn, merge_known_first_party, section, list_under,
    updated_list, uniform, store, setdefault, get_or_empty_list,
    list_concat, toml_set, toml_sorted, setitem, no_attribute, bind, ret,
    raise.
  repeat merge_step; merge_norm; reflexivity.
Qed.

(** *** Lists of strings as TOML lists *)

Lemma strings_of_map (items : list toml) (l : list string) :
  strings_of items = Some l <-> items = map TStr l.
Proof.
  revert l. induction items as [|v items IH]; intros l; simpl.
  - split; [intros [= <-]; reflexivity|].
    destruct l; [reflexivity|discriminate].
  - destruct v; try (split; [discriminate|destruct l; discriminate]).
    destruct (strings_of items) as [l'|]; simpl.
    + split.
      * intros [= <-]. simpl. f_equal. now apply IH.
      * destruct l as [|x l]; [discriminate|]. simpl.
        intros [= -> H]. apply IH in H. now injection H as ->.
    + split; [discriminate|].
      destruct l as [|x l]; [discriminate|]. simpl.
      intros [= -> H]. apply IH in H. discriminate.
Qed.

Lemma forallb_hashable_strings (l : list string) :
  forallb hashable (map TStr l) = true.
Proof. induction l; simpl; auto. Qed.

Lemma forallb_is_str_strings (l : list string) :
  forallb is_str (map TStr l) = true.
Proof. induction l; simpl; auto. Qed.

Lemma existsb_py_eqb_strings (x : string) (l : list string) :
  existsb (py_eqb (TStr x)) (map TStr l) = existsb (String.eqb x) l.
Proof. induction l as [|y l IH]; simpl; [reflexivity|]. now rewrite IH. Qed.

Lemma list_set_strings (l : list string) :
  builtins.list_set py_eqb (map TStr l)
  = map TStr (builtins.list_set String.eqb l).
Proof.
  unfold builtins.list_set. change (@nil toml) with (map TStr []).
  generalize (@nil string) as acc.
  induction l as [|x l IH]; intros acc; simpl; [reflexivity|].
  unfold builtins.set_add at 2 4.
  rewrite existsb_py_eqb_strings.
  destruct (existsb (String.eqb x) acc); [apply IH|].
  rewrite <- IH. now rewrite map_app.
Qed.

Lemma insert_strings (x : string) (l : list string) :
  builtins.insert py_ltb (TStr x) (map TStr l)
  = map TStr (builtins.insert String.ltb x l).
Proof.
  induction l as [|y l IH]; simpl; [reflexivity|].
  unfold py_ltb at 1. simpl.
  destruct (String.ltb y x); simpl; [now rewrite IH|reflexivity].
Qed.

Lemma sorted_strings (l : list string) :
  builtins.sorted py_ltb (map TStr l)
  = map TStr (builtins.sorted String.ltb l).
Proof.
  unfold builtins.sorted.
  induction l as [|x l IH]; simpl; [reflexivity|].
  rewrite IH. apply insert_strings.
Qed.

Lemma updated_list_strings (L pkgs : list string) :
  updated_list (map TStr L) pkgs = Some (map TStr (sorted_set (L ++ pkgs))).
Proof.
  unfold updated_list, uniform. cbv zeta. rewrite <- map_app.
  rewrite forallb_hashable_strings, list_set_strings,
    forallb_is_str_strings. simpl.
  now rewrite sorted_strings.
Qed.

Lemma sorted_set_union (L pkgs : list string) (x : string) :
  In x (sorted_set (L ++ pkgs)) <-> In x L \/ In x pkgs.
Proof. rewrite sorted_set_In. apply in_app_iff. Qed.

(** Merging the same packages again changes nothing. *)
Lemma sorted_set_again (L pkgs : list string) :
  sorted_set (sorted_set (L ++ pkgs) ++ pkgs) = sorted_set (L ++ pkgs).
Proof.
  apply ascending_unique; try apply sorted_set_ascending.
  intros x. rewrite !sorted_set_union. tauto.
Qed.

Lemma get_path_store (t tool ruff lint isort : list (string * toml))
    (updated : list toml) :
  get_path (TTable (store t tool ruff lint isort updated))
    known_first_party_path
  = Some (TArr updated).
Proof.
  unfold store, known_first_party_path. simpl.
  now rewrite !get_set_same.
Qed.

Lemma merge_fn_strings (t : list (string * toml)) (L pkgs : list string) :
  stored_list t = Some L ->
  exists t',
    merge_fn t pkgs = Some t' /\
    get_path (TTable t') known_first_party_path
    = Some (TArr (map TStr (sorted_set (L ++ pkgs)))).
Proof.
  unfold stored_list, merge_fn.
  destruct (section t "tool") as [tool|]; [|discriminate].
  destruct (section tool "ruff") as [ruff|]; [|discriminate].
  destruct (section ruff "lint") as [lint|]; [|discriminate].
  destruct (section lint "isort") as [isort|]; [|discriminate].
  destruct (list_under isort "known-first-party") as [items|];
    [|discriminate].
  intros H. apply strings_of_map in H. subst items.
  rewrite updated_list_strings. eexists. split; [reflexivity|].
  apply get_path_store.
Qed.

(** *** What a successful merge says about the stored list *)

Lemma set_fold_prefix {A} (eqb : A -> A -> bool) (l acc : list A) :
  exists ext, fold_left (builtins.set_add eqb) l acc = acc ++ ext.
Proof.
  revert acc. induction l as [|a l IH]; intros acc; simpl.
  - exists []. now rewrite app_nil_r.
  - unfold builtins.set_add at 2.
    destruct (existsb (eqb a) acc); [apply IH|].
    destruct (IH (acc ++ [a])) as [ext ->].
    exists (a :: ext). now rewrite <- app_assoc.
Qed.

(** Every value has an equal representative in the set. *)
Lemma set_fold_repr {A} (eqb : A -> A -> bool) (l acc : list A) (x : A) :
  In x acc \/ In x l -> eqb x x = true ->
  exists y, In y (fold_left (builtins.set_add eqb) l acc) /\
            eqb x y = true.
Proof.
  revert acc. induction l as [|a l IH]; intros acc Hin Hx; simpl.
  - destruct Hin as [H|[]]. eauto.
  - assert (Hkeep : forall y, In y (builtins.set_add eqb acc a) ->
              In y (fold_left (builtins.set_add eqb) l
                      (builtins.set_add eqb acc a))).
    { intros y Hy.
      destruct (set_fold_prefix eqb l (builtins.set_add eqb acc a))
        as [ext ->].
      apply in_or_app. now left. }
    destruct Hin as [H|[<-|H]].
    + exists x. split; [|exact Hx]. apply Hkeep.
      unfold builtins.set_add. destruct (existsb (eqb a) acc); [exact H|].
      apply in_or_app. now left.
    + destruct (existsb (eqb a) acc) eqn:E.
      * pose proof E as E'.
        apply existsb_exists in E' as (y & Hy & Hay).
        exists y. split; [|exact Hay]. apply Hkeep.
        unfold builtins.set_add. now rewrite E.
      * exists a. split; [|exact Hx]. apply Hkeep.
        unfold builtins.set_add. rewrite E.
        apply in_or_app. right. now left.
    + apply IH; auto.
Qed.

Lemma py_eqb_refl (x : toml) : hashable x = true -> py_eqb x x = true.
Proof.
  destruct x as [s|z|[|]|l|m]; simpl; try discriminate; intros _.
  - apply String.eqb_refl.
  - apply Z.eqb_refl.
  - reflexivity.
  - reflexivity.
Qed.

Lemma py_eqb_str (x y : toml) :
  py_eqb x y = true -> is_str y = true -> is_str x = true.
Proof.
  destruct x as [s|z|b|l|m], y as [s'|z'|b'|l'|m']; simpl;
    try discriminate; auto.
Qed.

Lemma is_str_not_num (x : toml) : is_str x = true -> is_num x = false.
Proof. destruct x; simpl; try discriminate; auto. Qed.

Lemma all_strings (items : list toml) :
  forallb is_str items = true -> exists L, items = map TStr L.
Proof.
  induction items as [|v items IH]; simpl; intros H.
  - now exists [].
  - apply andb_true_iff in H as [Hv Hr].
    destruct (IH Hr) as [L ->].
    destruct v; try discriminate. now exists (s :: L).
Qed.

(** With a package name to add, the merge succeeds only on a list of
    strings. *)
Lemma updated_list_inv (items : list toml) (pkgs : list string)
    (updated : list toml) :
  pkgs <> [] -> updated_list items pkgs = Some updated ->
  exists L, items = map TStr L.
Proof.
  intros Hne. unfold updated_list, uniform. cbv zeta.
  set (joined := items ++ map TStr pkgs).
  destruct (forallb hashable joined) eqn:Hh; [|discriminate].
  destruct (forallb is_str (builtins.list_set py_eqb joined)
            || forallb is_num (builtins.list_set py_eqb joined)) eqn:Hu;
    [|discriminate].
  intros _. apply all_strings.
  rewrite forallb_forall in Hh.
  assert (Hrep : forall x, In x joined ->
            exists y, In y (builtins.list_set py_eqb joined) /\
                      py_eqb x y = true).
  { intros x Hx. apply set_fold_repr; [now right|].
    apply py_eqb_refl. now apply Hh. }
  assert (Hstr : forallb is_str (builtins.list_set py_eqb joined) = true).
  { destruct (forallb is_str (builtins.list_set py_eqb joined)) eqn:E;
      [reflexivity|].
    simpl in Hu. rewrite forallb_forall in Hu.
    destruct pkgs as [|p pkgs]; [congruence|].
    destruct (Hrep (TStr p)) as (y & Hy & Hpy).
    { unfold joined. apply in_or_app. right. now left. }
    specialize (Hu y Hy).
    assert (is_str y = true)
      by (destruct y; simpl in Hpy; try discriminate Hpy; reflexivity).
    rewrite is_str_not_num in Hu by assumption. discriminate. }
  rewrite forallb_forall in Hstr. apply forallb_forall.
  intros x Hx.
  destruct (Hrep x) as (y & Hy & Hxy).
  { unfold joined. apply in_or_app. now left. }
  eapply py_eqb_str; eauto.
Qed.

Lemma section_set (d : list (string * toml)) (k : string)
    (m : list (string * toml)) :
  section (dict.set d k (TTable m)) k = Some m.
Proof. unfold section. now rewrite get_set_same. Qed.

Lemma list_under_set (d : list (string * toml)) (k : string)
    (items : list toml) :
  list_under (dict.set d k (TArr items)) k = Some items.
Proof. unfold list_under. now rewrite get_set_same. Qed.

(** Merging the same packages into the merged document gives that
    document again. *)
Lemma merge_fn_idempotent (t t' : list (string * toml))
    (pkgs : list string) :
  pkgs <> [] -> merge_fn t pkgs = Some t' -> merge_fn t' pkgs = Some t'.
Proof.
  intros Hne. unfold merge_fn at 1.
  destruct (section t "tool") as [tool|]; [|discriminate].
  destruct (section tool "ruff") as [ruff|]; [|discriminate].
  destruct (section ruff "lint") as [lint|]; [|discriminate].
  destruct (section lint "isort") as [isort|]; [|discriminate].
  destruct (list_under isort "known-first-party") as [items|];
    [|discriminate].
  destruct (updated_list items pkgs) as [updated|] eqn:Eu; [|discriminate].
  intros [= <-].
  destruct (updated_list_inv items pkgs updated Hne Eu) as [L ->].
  rewrite updated_list_strings in Eu. injection Eu as <-.
  unfold merge_fn, store.
  rewrite !section_set, list_under_set, updated_list_strings,
    sorted_set_again.
  unfold store. now rewrite !set_set.
Qed.

(** C5.  When the document stores a list of package names (or none yet),
    the merge stores under [tool.ruff.lint.isort.known-first-party] the
    ascending, duplicate-free union of that list and the discovered
    packages, a name in both occurring once; this is the document the
    lint-config writer writes to a readable and writable file. *)
Theorem C5_known_first_party (t : list (string * toml))
    (pkgs L : list string) (w : world) :
  stored_list t = Some L ->
  let R := sorted_set (L ++ pkgs) in
  exists t',
    merge_known_first_party (TTable t) pkgs w = Returns (TTable t') w /\
    get_path (TTable t') known_first_party_path = Some (TArr (map TStr R)) /\
    ascending R /\
    NoDup R /\
    (forall x, In x R <-> In x L \/ In x pkgs) /\
    (In "foo" L -> In "foo" pkgs -> count_occ string_dec R "foo" = 1) /\
    (forall cwd txt,
       lookup (fs w) (str (toml_file_of (Path cwd)))
       = Some (File true true txt) ->
       toml_loads txt = Some t ->
       exists w',
         update_pyproject_toml (Path cwd) pkgs w = Returns tt w' /\
         lookup (fs w') (str (toml_file_of (Path cwd)))
         = Some (File true true (toml_dumps t'))).
Proof.
  intros HL R.
  destruct (merge_fn_strings t L pkgs HL) as (t' & Hm & Hp).
  assert (Hmerged : merged t pkgs = Some (TTable t')).
  { now rewrite merged_closed_form, Hm. }
  exists t'. split.
  { pose proof (merge_spec t pkgs w) as H. now rewrite Hmerged in H. }
  split; [exact Hp|].
  split; [apply sorted_set_ascending|].
  assert (Hnd : NoDup R) by apply ascending_NoDup, sorted_set_ascending.
  split; [exact Hnd|].
  split; [apply sorted_set_union|].
  split.
  - intros H1 _.
    assert (Hin : In "foo" R) by (apply sorted_set_union; now left).
    apply (count_occ_In string_dec) in Hin.
    pose proof (proj1 (NoDup_count_occ string_dec R) Hnd "foo"). lia.
  - intros cwd txt Hfile Hparse.
    destruct (update_pyproject_toml_spec (Path cwd) pkgs w)
      as (w' & E & F).
    exists w'. split; [exact E|].
    rewrite F. unfold toml_fs. rewrite Hfile, Hparse, Hmerged.
    simpl. now rewrite String.eqb_refl.
Qed.

End MergeFacts.

(** ** The writers, entry by entry *)

Section NodeFacts.
Context {S : Serialization}.

Lemma loaded_as_node (f : filesystem) (file : PurePath) :
  loaded f file = loaded_node (lookup f (str file)).
Proof. reflexivity. Qed.

Lemma written_as_node (f : filesystem) (file : PurePath) (data : text) :
  lookup (written f file data) (str file)
  = written_node (is_writable_dir (lookup f (str (parent file))))
      (lookup f (str file)) data.
Proof.
  unfold written, written_node.
  destruct (lookup f (str file)) as [[b|r [|] d]|] eqn:E; try exact E.
  - apply lookup_replace_same.
  - destruct (lookup f (str (parent file))) as [[[|]|r wr d]|]; simpl;
      try exact E.
    apply lookup_create_same.
Qed.

Lemma toml_fs_lookup (f : filesystem) (r : PurePath) (pkgs : list string) :
  lookup (toml_fs f r pkgs) (str (toml_file_of r))
  = toml_node (lookup f (str (toml_file_of r))) pkgs.
Proof.
  unfold toml_fs, toml_node.
  destruct (lookup f (str (toml_file_of r))) as [[b|[|] [|] txt]|] eqn:E;
    try exact E.
  destruct (toml_loads txt) as [t|]; [|exact E].
  destruct (merged t pkgs) as [t'|]; [|exact E].
  apply lookup_replace_same.
Qed.

Lemma toml_fs_other (f : filesystem) (r : PurePath) (pkgs : list string)
    (k : string) :
  k <> str (toml_file_of r) -> lookup (toml_fs f r pkgs) k = lookup f k.
Proof.
  intros Hk. unfold toml_fs.
  destruct (lookup f (str (toml_file_of r))) as [[b|[|] [|] txt]|];
    try reflexivity.
  destruct (toml_loads txt) as [t|]; [|reflexivity].
  destruct (merged t pkgs) as [t'|]; [|reflexivity].
  now apply lookup_replace_other.
Qed.

(** A second merge of the same packages rewrites the same text. *)
Lemma toml_node_stable (n : option node) (pkgs : list string) :
  Roundtrip S -> pkgs <> [] ->
  toml_node (toml_node n pkgs) pkgs = toml_node n pkgs.
Proof.
  intros [_ Hrt] Hne. unfold toml_node at 2 3.
  destruct n as [[b|[|] [|] txt]|]; try reflexivity.
  destruct (toml_loads txt) as [t|] eqn:El; [|simpl; now rewrite El].
  destruct (merged t pkgs) as [t'|] eqn:Em;
    [|simpl; now rewrite El, Em].
  rewrite merged_closed_form in Em.
  destruct (merge_fn t pkgs) as [t1|] eqn:Ef; [|discriminate].
  injection Em as <-. simpl.
  rewrite Hrt, merged_closed_form,
    (merge_fn_idempotent t t1 pkgs Hne Ef).
  reflexivity.
Qed.

(** A second run of the settings writer rewrites the same text. *)
Lemma settings_node_stable (pw : bool) (n n' : option node)
    (python_paths : list string) (interpreter_path : string) :
  Roundtrip S ->
  settings_node pw n python_paths interpreter_path = Some n' ->
  settings_node pw n' python_paths interpreter_path = Some n'.
Proof.
  intros [Hrt _]. unfold settings_node at 1.
  destruct (loaded_node n) as [v|] eqn:El; [|discriminate].
  destruct v as [| | | | |m]; try discriminate. simpl.
  set (d := JObj (apply_settings m python_paths interpreter_path)).
  assert (Hd : forall r,
    settings_node pw (Some (File r true (json_dumps d))) python_paths
      interpreter_path
    = (if r then Some (Some (File r true (json_dumps d))) else None)).
  { intros [|]; unfold settings_node; simpl; [|reflexivity].
    rewrite Hrt. unfold d. simpl. now rewrite apply_settings_idempotent. }
  intros [= <-].
  destruct n as [[b|[|] [|] txt]|]; simpl in El |- *; try discriminate.
  - apply (Hd true).
  - unfold settings_node. simpl. injection El as ->. reflexivity.
  - destruct pw; simpl; [apply (Hd true)|].
    unfold settings_node. simpl. now injection El as <-.
Qed.

(** The settings writer in terms of the entries it touches. *)
Lemma settings_fs_nodes (f f' : filesystem) (r : PurePath)
    (python_paths : list string) (interpreter_path : string) :
  canonical r ->
  settings_fs f r python_paths interpreter_path = Some f' ->
  exists b,
    lookup f' (str (settings_dir_of r)) = Some (Dir b) /\
    settings_node b (lookup f (str (settings_file_of r))) python_paths
      interpreter_path
    = Some (lookup f' (str (settings_file_of r))) /\
    forall k, k <> str (settings_file_of r) ->
              k <> str (settings_dir_of r) -> lookup f' k = lookup f k.
Proof.
  intros Hr. unfold settings_fs.
  destruct (mkdir_fs f (settings_dir_of r)) as [f1|] eqn:Em;
    [|discriminate].
  destruct (mkdir_fs_dir _ _ _ Em) as [b Hb].
  pose proof (mkdir_fs_other _ _ _ _ Em (file_neq_dir r Hr)) as Hfile.
  rewrite loaded_as_node, Hfile.
  destruct (loaded_node (lookup f (str (settings_file_of r)))) as [v|]
    eqn:El; [|discriminate].
  destruct (assigned v python_paths interpreter_path) as [d|] eqn:Ea;
    [|discriminate].
  intros [= <-]. exists b. split; [|split].
  - rewrite written_other; [exact Hb|].
    intros E. symmetry in E. now apply (file_neq_dir r Hr).
  - unfold settings_node. rewrite El, Ea. f_equal.
    rewrite written_as_node, (settings_file_parent r Hr), Hb, Hfile.
    now destruct b.
  - intros k Hk1 Hk2. rewrite written_other by exact Hk1.
    now apply (mkdir_fs_other _ _ _ _ Em).
Qed.

Lemma settings_fs_from_nodes (g : filesystem) (r : PurePath) (b : bool)
    (n' : option node) (python_paths : list string)
    (interpreter_path : string) :
  canonical r ->
  lookup g (str (settings_dir_of r)) = Some (Dir b) ->
  settings_node b (lookup g (str (settings_file_of r))) python_paths
    interpreter_path = Some n' ->
  exists g',
    settings_fs g r python_paths interpreter_path = Some g' /\
    lookup g' (str (settings_file_of r)) = n' /\
    forall k, k <> str (settings_file_of r) -> lookup g' k = lookup g k.
Proof.
  intros Hr Hb. unfold settings_node, settings_fs, mkdir_fs.
  rewrite Hb, loaded_as_node.
  destruct (loaded_node (lookup g (str (settings_file_of r)))) as [v|];
    [|discriminate].
  destruct (assigned v python_paths interpreter_path) as [d|];
    [|discriminate].
  intros [= <-]. eexists. split; [reflexivity|]. split.
  - rewrite written_as_node, (settings_file_parent r Hr), Hb.
    now destruct b.
  - intros k Hk. now apply written_other.
Qed.

End NodeFacts.

(** ** The whole run *)

Section MainFacts.
Context {S : Serialization}.
Variable sys : interpreter.

Lemma main_spec (w : world) (script ros_distro : string)
    (rest : list string) (python_paths pkgs : list string) :
  argv sys = script :: ros_distro :: rest ->
  discovery sys (fs w) ros_distro = (python_paths, pkgs) ->
  if negb (nonempty python_paths) && negb (nonempty pkgs) then
    exists w', main sys w = Raises (SystemExit 1) w' /\ fs w' = fs w
  else
    match writers_fs sys (fs w) python_paths pkgs with
    | Some f' => exists w', main sys w = Returns tt w' /\ fs w' = f'
    | None => exists c msg w',
        main sys w = Raises (Exception c msg) w' /\
        (fs w' = fs w \/
         mkdir_fs (fs w) (settings_dir_of (workspace_root sys)) = Some (fs w'))
    end.
Proof.
  intros Hargv Hd.
  destruct (main_runs_discovery sys w script ros_distro rest Hargv)
    as (w1 & F & E).
  fold (workspace_root sys) in E. fold (discovery sys (fs w) ros_distro) in E.
  rewrite Hd in E. rewrite E. clear E.
  destruct (negb (nonempty python_paths) && negb (nonempty pkgs)) eqn:Hb.
  - unfold bind, print, sys_exit, raise. simpl. eauto.
  - set (w2 := mkWorld (fs w1)
                 (stdout w1 ++ ["Skipping CMake-specific settings."])).
    assert (F2 : fs w2 = fs w) by exact F.
    assert (Hstep : forall k : M unit,
      ((if false
        then print "No packages found. Exiting." ;; sys_exit 1
        else ret tt) ;;
       print "Skipping CMake-specific settings." ;; k) w1 = k w2)
      by reflexivity.
    rewrite Hstep. clear Hstep.
    unfold writers_fs.
    assert (Hlint : forall w3,
      exists w4,
        ((if nonempty pkgs
          then update_pyproject_toml (workspace_root sys) pkgs
          else ret tt) ;;
         print (Str.newline +++ "Python script finished.")) w3
        = Returns tt w4 /\
        fs w4 = (if nonempty pkgs
                 then toml_fs (fs w3) (workspace_root sys) pkgs else fs w3)).
    { intros w3. destruct (nonempty pkgs).
      - destruct (update_pyproject_toml_spec (workspace_root sys) pkgs w3)
          as (w4 & E4 & F4).
        unfold bind. rewrite E4. unfold print. eexists.
        split; [reflexivity|exact F4].
      - unfold bind, ret, print. eexists. split; reflexivity. }
    destruct (nonempty python_paths).
    + pose proof (update_vscode_settings_spec (workspace_root sys) python_paths
                    (executable sys) w2) as Hs.
      rewrite F2 in Hs.
      destruct (settings_fs (fs w) (workspace_root sys) python_paths
                  (executable sys)) as [f1|].
      * destruct Hs as (w3 & E3 & F3). unfold bind at 1. rewrite E3.
        destruct (Hlint w3) as (w4 & E4 & F4). exists w4.
        split; [exact E4|]. now rewrite F4, F3.
      * destruct Hs as (c & msg & w3 & E3 & F3). unfold bind at 1.
        rewrite E3. exists c, msg, w3. split; [reflexivity|].
        exact F3.
    + change ((ret tt ;;
               (if nonempty pkgs
                then update_pyproject_toml (workspace_root sys) pkgs
                else ret tt) ;;
               print (Str.newline +++ "Python script finished.")) w2)
        with (((if nonempty pkgs
                then update_pyproject_toml (workspace_root sys) pkgs
                else ret tt) ;;
               print (Str.newline +++ "Python script finished.")) w2).
      destruct (Hlint w2) as (w4 & E4 & F4). exists w4.
      split; [exact E4|]. now rewrite F4, F2.
Qed.

(** When something was discovered, the run goes on to the writers. *)
Lemma main_writers (w : world) (script ros_distro : string)
    (rest : list string) (python_paths pkgs : list string) :
  argv sys = script :: ros_distro :: rest ->
  discovery sys (fs w) ros_distro = (python_paths, pkgs) ->
  negb (nonempty python_paths) && negb (nonempty pkgs) = false ->
  exists w2,
    fs w2 = fs w /\
    main sys w
    = ((if nonempty python_paths
        then update_vscode_settings (workspace_root sys) python_paths
               (executable sys)
        else ret tt) ;;
       (if nonempty pkgs
        then update_pyproject_toml (workspace_root sys) pkgs
        else ret tt) ;;
       print (Str.newline +++ "Python script finished.")) w2.
Proof.
  intros Hargv Hd Hb.
  destruct (main_runs_discovery sys w script ros_distro rest Hargv)
    as (w1 & F & E).
  fold (workspace_root sys) in E. fold (discovery sys (fs w) ros_distro) in E.
  rewrite Hd in E. rewrite E, Hb.
  exists (mkWorld (fs w1)
            (stdout w1 ++ ["Skipping CMake-specific settings."])).
  split; [exact F|reflexivity].
Qed.

Lemma nonempty_true {A} (l : list A) : l <> [] -> nonempty l = true.
Proof. destruct l; [congruence|reflexivity]. Qed.

Lemma nonempty_neq {A} (l : list A) : nonempty l = true -> l <> [].
Proof. destruct l; [discriminate|discriminate]. Qed.

Lemma settings_fs_written (f f1 : filesystem) (r : PurePath)
    (python_paths : list string) (interpreter_path : string) :
  canonical r ->
  settings_fs f r python_paths interpreter_path = Some f1 ->
  settings_writable f r = true ->
  exists rd d,
    lookup f1 (str (settings_file_of r))
    = Some (File rd true (json_dumps (JObj d))) /\
    owned_bindings d python_paths interpreter_path.
Proof.
  intros Hr Hs Hw. unfold settings_fs in Hs.
  destruct (mkdir_fs f (settings_dir_of r)) as [f0|] eqn:Em;
    [|discriminate].
  pose proof (mkdir_fs_other _ _ _ _ Em (file_neq_dir r Hr)) as Hfile.
  destruct (loaded f0 (settings_file_of r)) as [v|]; [|discriminate].
  destruct v as [| | | | |m]; try discriminate. simpl in Hs.
  injection Hs as <-.
  rewrite written_as_node, (settings_file_parent r Hr), Hfile.
  assert (Hdir : lookup f (str (settings_file_of r)) = None ->
                 is_writable_dir (lookup f0 (str (settings_dir_of r)))
                 = true).
  { intros Hn. unfold settings_writable in Hw. rewrite Hn in Hw.
    unfold mkdir_fs in Em.
    destruct (lookup f (str (settings_dir_of r))) as [[b|? ? ?]|] eqn:Ed;
      try discriminate.
    - injection Em as <-. rewrite Ed. now subst b.
    - destruct (lookup f (str (parent (settings_dir_of r))))
        as [[[|]|? ? ?]|]; try discriminate.
      injection Em as <-. now rewrite lookup_create_same. }
  unfold settings_writable in Hw.
  destruct (lookup f (str (settings_file_of r))) as [[b|rd [|] txt]|];
    try discriminate; simpl.
  - exists rd. eexists. split; [reflexivity|apply apply_settings_owned].
  - rewrite Hdir by reflexivity.
    exists true. eexists. split; [reflexivity|apply apply_settings_owned].
Qed.

Lemma settings_fs_other (f f1 : filesystem) (r : PurePath)
    (python_paths : list string) (interpreter_path k : string) :
  canonical r ->
  settings_fs f r python_paths interpreter_path = Some f1 ->
  k <> str (settings_file_of r) -> k <> str (settings_dir_of r) ->
  lookup f1 k = lookup f k.
Proof.
  intros Hr Hs H1 H2.
  destruct (settings_fs_nodes f f1 r python_paths interpreter_path Hr Hs)
    as (b & _ & _ & H). now apply H.
Qed.

(** Without the file, the lint-config writer prints two lines and leaves
    the file system alone. *)
Lemma update_pyproject_toml_absent (r : PurePath) (pkgs : list string)
    (w : world) :
  lookup (fs w) (str (toml_file_of r)) = None ->
  update_pyproject_toml r pkgs w
  = Returns tt
      (mkWorld (fs w)
         ((stdout w
           ++ ["Error: 'pyproject.toml' not found at " +++ str r])
          ++ ["Ensure this script is in the same directory as pyproject.toml"
             ])).
Proof.
  intros H. unfold update_pyproject_toml.
  fold (toml_file_of r).
  unfold bind at 1, exists_ at 1, answer at 1, fs_exists.
  cbn [stat_error answering]. rewrite H. reflexivity.
Qed.

End MainFacts.

(** ** The settings writer: what it stores *)

Section SettingsStored.
Context {S : Serialization}.

(** C9.  The assignments bind the six owned keys to the interpreter path,
    the search paths (twice), ["basic"], ["openFilesOnly"] and [False],
    whatever the document held.  Whenever a run of the settings writer
    changes the settings file, the document it stores has these bindings;
    and it does store it when it returns and the file could be opened for
    writing. *)
Theorem C9_owned_keys (cwd : string) (python_paths : list string)
    (interpreter_path : string) (w : world) :
  let file := settings_file_of (Path cwd) in
  let o := update_vscode_settings (Path cwd) python_paths interpreter_path
             w in
  (forall m, exists d,
     assign_settings (JObj m) python_paths interpreter_path w
     = Returns (JObj d) w /\
     owned_bindings d python_paths interpreter_path) /\
  (lookup (fs (final o)) (str file) = lookup (fs w) (str file) \/
   exists r d,
     lookup (fs (final o)) (str file)
     = Some (File r true (json_dumps (JObj d))) /\
     owned_bindings d python_paths interpreter_path) /\
  (forall w',
     o = Returns tt w' -> settings_writable (fs w) (Path cwd) = true ->
     exists r d,
       lookup (fs w') (str file)
       = Some (File r true (json_dumps (JObj d))) /\
       owned_bindings d python_paths interpreter_path).
Proof.
  intros file o. split; [|split].
  - intros m. eexists. split.
    + exact (assign_spec (JObj m) python_paths interpreter_path w).
    + apply apply_settings_owned.
  - destruct (settings_outcome cwd python_paths interpreter_path w)
      as [H|(r & m0 & _ & H)]; [now left|right].
    exists r. eexists. split; [exact H|]. apply apply_settings_owned.
  - intros w' Hret Hw.
    pose proof (update_vscode_settings_spec (Path cwd) python_paths
                  interpreter_path w) as Hs.
    fold o in Hs. rewrite Hret in Hs.
    destruct (settings_fs (fs w) (Path cwd) python_paths interpreter_path)
      as [f1|] eqn:Ef.
    + destruct Hs as (w1 & [= <-] & F). rewrite F.
      exact (settings_fs_written _ _ _ _ _ (Path_canonical cwd) Ef Hw).
    + destruct Hs as (c & msg & w1 & E & _). discriminate E.
Qed.

End SettingsStored.

(** ** The whole run: exit status and files *)

Section MainRun.
Context {S : Serialization}.
Variable sys : interpreter.

Let root : PurePath := workspace_root sys.
Let settings_file : string := str (settings_file_of root).
Let settings_dir : string := str (settings_dir_of root).
Let toml_file : string := str (toml_file_of root).

Lemma root_canonical : canonical root.
Proof. apply Path_canonical. Qed.

(** One more pass of the writers over the file system they left. *)
Lemma writers_fs_stable (f g : filesystem) (python_paths pkgs : list string) :
  Roundtrip S ->
  writers_fs sys f python_paths pkgs = Some g ->
  exists g2,
    writers_fs sys g python_paths pkgs = Some g2 /\
    lookup g2 settings_file = lookup g settings_file /\
    lookup g2 toml_file = lookup g toml_file.
Proof.
  intros Hrt. pose proof root_canonical as Hr.
  pose proof (toml_neq_file root Hr) as Htf.
  pose proof (toml_neq_dir root Hr) as Htd.
  assert (Hft : settings_file <> toml_file)
    by (intros E; apply Htf; now symmetry).
  assert (Hdt : settings_dir <> toml_file)
    by (intros E; apply Htd; now symmetry).
  assert (Htoml : forall h,
    lookup (if nonempty pkgs then toml_fs h root pkgs else h) settings_file
    = lookup h settings_file /\
    lookup (if nonempty pkgs then toml_fs h root pkgs else h) settings_dir
    = lookup h settings_dir).
  { intros h. destruct (nonempty pkgs); [|auto].
    split; now apply toml_fs_other. }
  assert (Hstable : forall h h',
    lookup h' toml_file
    = lookup (if nonempty pkgs then toml_fs h root pkgs else h) toml_file ->
    lookup (if nonempty pkgs then toml_fs h' root pkgs else h') toml_file
    = lookup h' toml_file).
  { intros h h' E. destruct (nonempty pkgs) eqn:Hp; [|reflexivity].
    unfold toml_file in *. rewrite toml_fs_lookup in *. rewrite E.
    apply toml_node_stable; [exact Hrt|now apply nonempty_neq]. }
  unfold writers_fs. fold root.
  destruct (nonempty python_paths).
  - destruct (settings_fs f root python_paths (executable sys)) as [f1|]
      eqn:Es; [|discriminate].
    intros [= <-].
    destruct (settings_fs_nodes f f1 root python_paths (executable sys)
                Hr Es) as (b & Hb & Hn & _).
    apply (settings_node_stable _ _ _ _ _ Hrt) in Hn.
    destruct (Htoml f1) as [Hg1 Hg2].
    set (g := if nonempty pkgs then toml_fs f1 root pkgs else f1) in *.
    fold settings_file in Hn, Hg1. fold settings_dir in Hb, Hg2.
    rewrite <- Hg1 in Hn. rewrite <- Hg2 in Hb.
    destruct (settings_fs_from_nodes g root b _ python_paths
                (executable sys) Hr Hb Hn) as (g' & Eg & Hfile & Hother).
    rewrite Eg. eexists. split; [reflexivity|].
    destruct (Htoml g') as [Hg1' _]. split.
    + now rewrite Hg1'.
    + rewrite (Hstable f1 g').
      * apply Hother. intros E. now apply Hft.
      * apply Hother. intros E. now apply Hft.
  - intros [= <-]. eexists. split; [reflexivity|].
    destruct (Htoml (if nonempty pkgs then toml_fs f root pkgs else f))
      as [H1 _].
    split; [exact H1|]. now apply (Hstable f).
Qed.

(** C8 (amended).  When the lint-config file does not exist, a search
    path was discovered and the settings writer raises nothing, the run
    returns with exit status 0 having touched only the settings file and
    its directory; the settings document is written, with the owned
    bindings, if its file can be opened for writing; and if a local
    package was discovered the lint-config writer runs, prints its error
    and creates or changes nothing. *)
Theorem C8_missing_lint_config (w : world) (script ros_distro : string)
    (rest python_paths pkgs : list string) (f1 : filesystem) :
  argv sys = script :: ros_distro :: rest ->
  discovery sys (fs w) ros_distro = (python_paths, pkgs) ->
  python_paths <> [] ->
  lookup (fs w) toml_file = None ->
  settings_fs (fs w) root python_paths (executable sys) = Some f1 ->
  exists w',
    main sys w = Returns tt w' /\
    exit_status (main sys w) = 0 /\
    fs w' = f1 /\
    lookup (fs w') toml_file = None /\
    (forall k, k <> settings_file -> k <> settings_dir ->
               lookup (fs w') k = lookup (fs w) k) /\
    (settings_writable (fs w) root = true ->
     exists r d,
       lookup (fs w') settings_file
       = Some (File r true (json_dumps (JObj d))) /\
       owned_bindings d python_paths (executable sys)) /\
    (pkgs <> [] ->
     In ("Error: 'pyproject.toml' not found at " +++ str root)
        (stdout w') /\
     forall w0, lookup (fs w0) toml_file = None ->
       exists w0', update_pyproject_toml root pkgs w0 = Returns tt w0' /\
                   fs w0' = fs w0).
Proof.
  intros Hargv Hd Hne Htoml Hs.
  pose proof root_canonical as Hr.
  assert (Hb : negb (nonempty python_paths) && negb (nonempty pkgs) = false)
    by now rewrite (nonempty_true _ Hne).
  destruct (main_writers sys w script ros_distro rest python_paths pkgs
              Hargv Hd Hb) as (w2 & F2 & Hmain).
  rewrite (nonempty_true _ Hne) in Hmain. fold root in Hmain.
  pose proof (update_vscode_settings_spec root python_paths
                (executable sys) w2) as Hset.
  rewrite F2, Hs in Hset. destruct Hset as (w3 & E3 & F3).
  assert (Hother : forall k, k <> settings_file -> k <> settings_dir ->
                             lookup f1 k = lookup (fs w) k).
  { intros k H1 H2. now apply (settings_fs_other _ _ _ _ _ _ Hr Hs). }
  assert (Htoml3 : lookup (fs w3) toml_file = None).
  { rewrite F3, Hother; [exact Htoml| |].
    - apply (toml_neq_file root Hr).
    - apply (toml_neq_dir root Hr). }
  assert (Hrun : exists w',
    main sys w = Returns tt w' /\ fs w' = f1 /\
    (pkgs <> [] ->
     In ("Error: 'pyproject.toml' not found at " +++ str root)
        (stdout w'))).
  { rewrite Hmain. unfold bind at 1. rewrite E3.
    destruct (nonempty pkgs) eqn:Hp.
    - unfold bind at 1.
      rewrite (update_pyproject_toml_absent root pkgs w3 Htoml3).
      unfold print. eexists. split; [reflexivity|]. split; [exact F3|].
      intros _. simpl. rewrite !in_app_iff. simpl. tauto.
    - unfold bind, ret, print. eexists. split; [reflexivity|].
      split; [exact F3|]. intros H. destruct pkgs; [congruence|discriminate].
  }
  destruct Hrun as (w' & Hw' & Ff & Hlog).
  exists w'. split; [exact Hw'|]. split; [now rewrite Hw'|].
  split; [exact Ff|]. rewrite Ff.
  split; [now rewrite <- F3|]. split; [exact Hother|]. split.
  - intros Hwr.
    exact (settings_fs_written _ _ _ _ _ Hr Hs Hwr).
  - intros Hp. split; [now apply Hlog|].
    intros w0 H0.
    rewrite (update_pyproject_toml_absent root pkgs w0 H0).
    eexists. split; reflexivity.
Qed.

(** C10.  Reading the settings file contains a parse failure only: the
    unparseable text of a readable file gives the empty document and a
    warning, but when the file exists and cannot be read (it is not
    readable, or is a directory) the [OSError] leaves the settings writer
    uncaught and ends the run before the lint-config writer. *)
Theorem C10_read_error_propagates (w : world) (script ros_distro : string)
    (rest python_paths pkgs : list string) (b : bool) :
  argv sys = script :: ros_distro :: rest ->
  discovery sys (fs w) ros_distro = (python_paths, pkgs) ->
  python_paths <> [] ->
  lookup (fs w) settings_dir = Some (Dir b) ->
  fs_exists (fs w) settings_file = true ->
  loaded (fs w) (settings_file_of root) = None ->
  (exists c msg w1 w',
     is_OSError c = true /\
     fs w1 = fs w /\
     update_vscode_settings root python_paths (executable sys) w1
     = Raises (Exception c msg) w1 /\
     main sys w = Raises (Exception c msg) w' /\
     fs w' = fs w /\
     exit_status (main sys w) = 1) /\
  (forall w0 wr txt,
     lookup (fs w0) settings_file = Some (File true wr txt) ->
     json_loads txt = None ->
     load_settings (settings_file_of root) w0
     = Returns (JObj [])
         (mkWorld (fs w0)
            (stdout w0 ++ ["Warning: '" +++ settings_file
                           +++ "' is corrupted. Overwriting."]))).
Proof.
  intros Hargv Hd Hne Hdir Hex Hload. split.
  - assert (Hb : negb (nonempty python_paths) && negb (nonempty pkgs)
                 = false) by now rewrite (nonempty_true _ Hne).
    destruct (main_writers sys w script ros_distro rest python_paths pkgs
                Hargv Hd Hb) as ([f2 o2] & F2 & Hmain).
    simpl in F2. subst f2.
    rewrite (nonempty_true _ Hne) in Hmain. fold root in Hmain.
    set (w2 := mkWorld (fs w) o2) in *.
    pose proof (mkdir_spec (settings_dir_of root) w2) as Hm.
    unfold mkdir_fs in Hm. simpl fs in Hm. fold settings_dir in Hm.
    rewrite Hdir in Hm.
    change (mkdir_exist_ok (settings_dir_of root) w2 = Returns tt w2) in Hm.
    pose proof (load_spec (settings_file_of root) w2) as Hl.
    simpl fs in Hl. rewrite Hload in Hl.
    destruct Hl as (c & msg & Hl & Hos).
    assert (Hw : update_vscode_settings root python_paths (executable sys)
                   w2 = Raises (Exception c msg) w2).
    { unfold update_vscode_settings.
      fold (settings_dir_of root).
      change (settings_dir_of root // "settings.json")
        with (settings_file_of root).
      step_with Hm. step_with Hl. reflexivity. }
    exists c, msg, w2, w2. split; [exact Hos|]. split; [reflexivity|].
    split; [exact Hw|].
    assert (Hrun : main sys w = Raises (Exception c msg) w2).
    { rewrite Hmain. unfold bind at 1. now rewrite Hw. }
    split; [exact Hrun|]. split; [reflexivity|]. now rewrite Hrun.
  - intros w0 wr txt Hfile Hparse.
    unfold load_settings, bind, exists_, answer, fs_exists, try_except,
      open_read, json_load. cbn [stat_error answering]. fold settings_file.
    rewrite Hfile. cbv beta iota. rewrite Hfile, Hparse. reflexivity.
Qed.

End MainRun.

(** * Further properties

    Edge cases, frames and compositions of the four functions. *)

(** ** Discovery *)

Section DiscoveryMore.
Context {S : Serialization}.
Variable sys : interpreter.

Lemma kept_ext (f g : filesystem) (ps : list PurePath) :
  (forall s, fs_is_dir f s = fs_is_dir g s) -> kept f ps = kept g ps.
Proof.
  intros H. unfold kept. f_equal. apply filter_ext. intros p. apply H.
Qed.

Lemma discovered_ext (f g : filesystem) (workspace_root : PurePath)
    (python_version ros_distro : string) :
  (forall s, fs_is_dir f s = fs_is_dir g s) ->
  listdir f (str (workspace_root // "install"))
  = listdir g (str (workspace_root // "install")) ->
  discovered sys f workspace_root python_version ros_distro
  = discovered sys g workspace_root python_version ros_distro.
Proof.
  intros Hd Hl.
  assert (Hp : package_dirs f workspace_root = package_dirs g workspace_root).
  { unfold package_dirs. cbv zeta. rewrite Hl. apply filter_ext.
    intros p. apply Hd. }
  unfold discovered, accumulated_paths, accumulated_packages, found_system,
    found_local, found_env.
  rewrite Hp, Hd, (kept_ext f g _ Hd).
  replace (flat_map
             (fun d => kept f (possible_paths sys python_version d))
             (package_dirs g workspace_root))
    with (flat_map
            (fun d => kept g (possible_paths sys python_version d))
            (package_dirs g workspace_root))
    by (apply flat_map_ext; intros d; symmetry; now apply kept_ext).
  destruct (environ_PYTHONPATH sys) as [v|]; [|reflexivity].
  replace (filter
             (fun path => Str.truthy path && fs_is_dir f (str (Path path)))
             (Str.split Str.colon v))
    with (filter
            (fun path => Str.truthy path && fs_is_dir g (str (Path path)))
            (Str.split Str.colon v))
    by (apply filter_ext; intros p; now rewrite Hd).
  reflexivity.
Qed.

(** X1. Discovery never writes: whatever the workspace looks like, the
    file system after [find_paths_and_packages] is the one before. *)
Theorem X1_discovery_never_writes (w : world) (workspace_root : PurePath)
    (python_version ros_distro : string) :
  fs (final (find_paths_and_packages sys workspace_root python_version
               ros_distro w))
  = fs w.
Proof.
  destruct (reads_find_paths_and_packages sys workspace_root python_version
              ros_distro w) as (w' & E & F).
  now rewrite E.
Qed.

(** X2. Discovery looks only at which paths are directories and at the
    listing of [install]: in two worlds that agree on these (whatever the
    files hold and whatever was printed before) it returns the same search
    paths and the same package names. *)
Theorem X2_discovery_reads_directories (w1 w2 : world)
    (workspace_root : PurePath) (python_version ros_distro : string) :
  (forall s, fs_is_dir (fs w1) s = fs_is_dir (fs w2) s) ->
  listdir (fs w1) (str (workspace_root // "install"))
  = listdir (fs w2) (str (workspace_root // "install")) ->
  exists r w1' w2',
    find_paths_and_packages sys workspace_root python_version ros_distro w1
    = Returns r w1' /\
    find_paths_and_packages sys workspace_root python_version ros_distro w2
    = Returns r w2'.
Proof.
  intros Hd Hl.
  destruct (reads_find_paths_and_packages sys workspace_root python_version
              ros_distro w1) as (w1' & E1 & _).
  destruct (reads_find_paths_and_packages sys workspace_root python_version
              ros_distro w2) as (w2' & E2 & _).
  rewrite (discovered_ext _ _ _ _ _ Hd Hl) in E1.
  eauto.
Qed.

Lemma or_compat (A A' B B' : Prop) :
  (A <-> A') -> (B <-> B') -> (A \/ B <-> A' \/ B').
Proof. tauto. Qed.

Lemma truthy_iff (s : string) : Str.truthy s = true <-> s <> "".
Proof. destruct s; simpl; split; congruence. Qed.

(** X3. Where the search paths come from.  With an [install] directory,
    a string is returned as a search path exactly when it is one of:
    a system candidate that is a directory (only when [ros_distro] is not
    empty); one of the three candidates below an entry of [install] that
    is a directory, when the candidate is a directory too; an entry of
    [PYTHONPATH], as written there, that is not empty and names a
    directory. *)
Theorem X3_search_path_sources (w : world) (workspace_root : PurePath)
    (python_version ros_distro : string) :
  let install_dir := workspace_root // "install" in
  fs_is_dir (fs w) (str install_dir) = true ->
  exists python_paths local_packages w',
    find_paths_and_packages sys workspace_root python_version ros_distro w
    = Returns (python_paths, local_packages) w' /\
    forall s, In s python_paths <->
      (ros_distro <> "" /\
       exists p, In p (ros_candidates sys python_version ros_distro) /\
                 str p = s /\ fs_is_dir (fs w) s = true) \/
      (exists n p,
         In n (listdir (fs w) (str install_dir)) /\
         fs_is_dir (fs w) (str (make_child_relpath install_dir n)) = true /\
         In p (possible_paths sys python_version
                 (make_child_relpath install_dir n)) /\
         str p = s /\ fs_is_dir (fs w) s = true) \/
      (exists v,
         environ_PYTHONPATH sys = Some v /\
         In s (Str.split Str.colon v) /\ s <> "" /\
         fs_is_dir (fs w) (str (Path s)) = true).
Proof.
  intros install_dir Hinst.
  destruct (reads_find_paths_and_packages sys workspace_root python_version
              ros_distro w) as (w' & E & _).
  unfold discovered in E. fold install_dir in E. rewrite Hinst in E.
  do 2 eexists. exists w'. split; [exact E|].
  intros s. rewrite dedupe_In. unfold accumulated_paths.
  rewrite !in_app_iff.
  apply or_compat; [|apply or_compat].
  - unfold found_system.
    destruct (Str.truthy ros_distro) eqn:Ht.
    + rewrite kept_is_dir. apply truthy_iff in Ht. tauto.
    + split; [intros []|].
      intros [Hne _]. apply truthy_iff in Hne. congruence.
  - unfold found_local. rewrite in_flat_map. split.
    + intros (d & Hd & Hs). unfold package_dirs in Hd.
      apply filter_In in Hd. destruct Hd as [Hd Hdir].
      apply in_map_iff in Hd. destruct Hd as (n & <- & Hn).
      apply kept_is_dir in Hs. destruct Hs as (p & Hp & Hsp & Hpd).
      exists n, p. auto.
    + intros (n & p & Hn & Hdir & Hp & Hsp & Hpd).
      exists (make_child_relpath install_dir n). split.
      * unfold package_dirs. apply filter_In. split; [|exact Hdir].
        apply in_map_iff. eauto.
      * apply kept_is_dir. eauto.
  - unfold found_env. destruct (environ_PYTHONPATH sys) as [v|].
    + rewrite filter_In, andb_true_iff, truthy_iff. split.
      * intros (Hin & Hne & Hd). exists v. auto.
      * intros (v' & [= <-] & Hin & Hne & Hd). auto.
    + split; [intros []|]. intros (v & Hv & _). discriminate.
Qed.

Lemma set_fold_fresh (l acc : list string) :
  NoDup (acc ++ l) ->
  fold_left (builtins.set_add String.eqb) l acc = acc ++ l.
Proof.
  revert acc. induction l as [|x r IH]; intros acc H; simpl.
  - now rewrite app_nil_r.
  - assert (Hx : ~ In x acc).
    { intros Hin. apply NoDup_remove_2 in H. apply H.
      apply in_or_app. now left. }
    unfold builtins.set_add at 2.
    destruct (existsb (String.eqb x) acc) eqn:Hex.
    + exfalso. apply Hx.
      apply (existsb_eqb String.eqb String.eqb_eq). exact Hex.
    + rewrite IH; rewrite <- app_assoc; [reflexivity|exact H].
Qed.

(** X4. The de-duplication loop returns a list without duplicates as it
    is: nothing is dropped and nothing is reordered. *)
Theorem X4_dedupe_keeps_distinct (l : list string) :
  NoDup l -> dedupe l = l.
Proof.
  intros H. rewrite dedupe_list_set. unfold builtins.list_set.
  now rewrite set_fold_fresh.
Qed.

End DiscoveryMore.

(** ** Discovery on any platform *)

Section AnyPlatform.
Context {S : Serialization} {P : Platform}.
Variable sys : interpreter.

Lemma is_dir_answered (p : PurePath) (w : world) :
  stat_error (fs w) (str p) = None ->
  is_dir p w = Returns (fs_is_dir (fs w) (str p)) w.
Proof. intros H. unfold is_dir, answer. now rewrite H. Qed.

Lemma append_if_dir_answered (label : string) (p : PurePath)
    (paths : list string) (w : world) :
  stat_error (fs w) (str p) = None ->
  exists w',
    append_if_dir label p paths w = Returns (paths ++ kept (fs w) [p]) w' /\
    fs w' = fs w.
Proof.
  intros H. unfold append_if_dir, bind. rewrite (is_dir_answered p w H).
  unfold kept. cbn [filter].
  destruct (fs_is_dir (fs w) (str p)); unfold print, ret; cbn [map].
  - eexists. split; reflexivity.
  - rewrite app_nil_r. eexists. split; reflexivity.
Qed.

Lemma system_ros_paths_answered (python_version ros_distro : string)
    (paths : list string) (w : world) :
  (ros_distro <> "" ->
   forall p, In p (ros_candidates sys python_version ros_distro) ->
             stat_error (fs w) (str p) = None) ->
  exists w',
    system_ros_paths sys python_version ros_distro paths w
    = Returns (paths ++ found_system sys (fs w) python_version ros_distro) w'
    /\ fs w' = fs w.
Proof.
  intros H. unfold system_ros_paths, found_system.
  destruct (Str.truthy ros_distro) eqn:Ht.
  - assert (Hne : ros_distro <> "") by (now apply truthy_iff).
    specialize (H Hne). unfold ros_candidates in *.
    destruct (append_if_dir_answered "Found base ROS path: "
                (base_ros_path sys ros_distro) paths w)
      as (w1 & E1 & F1); [apply H; now left|].
    unfold bind at 1. rewrite E1. cbv beta iota.
    destruct (append_if_dir_answered "Found ROS dist-packages: "
                (dist_packages_path sys ros_distro)
                (paths ++ kept (fs w) [base_ros_path sys ros_distro]) w1)
      as (w2 & E2 & F2); [rewrite F1; apply H; right; now left|].
    unfold bind at 1. rewrite E2. cbv beta iota.
    destruct (append_if_dir_answered "Found system site-packages: "
                (system_site_packages python_version ros_distro)
                ((paths ++ kept (fs w) [base_ros_path sys ros_distro])
                 ++ kept (fs w1) [dist_packages_path sys ros_distro]) w2)
      as (w3 & E3 & F3); [rewrite F2, F1; apply H; right; right; now left|].
    rewrite E3. exists w3. split; [|congruence].
    rewrite F1, F2, F1.
    rewrite (kept_cons (fs w) (base_ros_path sys ros_distro)
               [dist_packages_path sys ros_distro;
                system_site_packages python_version ros_distro]),
      (kept_cons (fs w) (dist_packages_path sys ros_distro)
         [system_site_packages python_version ros_distro]).
    now rewrite <- !app_assoc.
  - unfold bind, print, ret. rewrite app_nil_r.
    eexists. split; reflexivity.
Qed.

(** C7 (amended).  When [install] is not a directory and the probes made
    so far are answered (those of the three system candidates, when the
    distribution is not empty, and that of [install]), discovery returns
    two empty collections, whatever system paths it had found, and raises
    nothing; both being empty, the run then stops with exit status 1.
    This holds on every platform. *)
Theorem C7_no_install (w : world) (script ros_distro : string)
    (rest : list string) :
  let root := Path (getcwd sys) in
  let python_version := get_python_version_string sys in
  argv sys = script :: ros_distro :: rest ->
  fs_is_dir (fs w) (str (root // "install")) = false ->
  (ros_distro <> "" ->
   forall p, In p (ros_candidates sys python_version ros_distro) ->
             stat_error (fs w) (str p) = None) ->
  stat_error (fs w) (str (root // "install")) = None ->
  (exists w1,
     find_paths_and_packages sys root python_version ros_distro w
     = Returns ([], []) w1 /\ fs w1 = fs w) /\
  (exists w2,
     main sys w = Raises (SystemExit 1) w2 /\ fs w2 = fs w) /\
  exit_status (main sys w) = 1.
Proof.
  intros root python_version Hargv Hinst Hsys Hprobe.
  assert (Hfind : forall w0, fs w0 = fs w ->
            exists w1,
              find_paths_and_packages sys root python_version ros_distro w0
              = Returns ([], []) w1 /\ fs w1 = fs w).
  { intros w0 F0. unfold find_paths_and_packages.
    destruct (system_ros_paths_answered python_version ros_distro [] w0)
      as (w1 & E1 & F1); [now rewrite F0|].
    unfold bind at 1. rewrite E1. cbv beta iota zeta.
    unfold bind at 1.
    rewrite (is_dir_answered (root // "install") w1)
      by (now rewrite F1, F0).
    rewrite F1, F0, Hinst. cbn [negb]. cbv iota.
    unfold bind, print, ret. eexists. split; [reflexivity|].
    cbn [fs]. congruence. }
  assert (Hmain : exists w2,
            main sys w = Raises (SystemExit 1) w2 /\ fs w2 = fs w).
  { unfold main. rewrite Hargv.
    do 5 (unfold bind at 1, print at 1; cbv beta iota).
    fold root python_version. unfold bind at 1.
    match goal with |- context [find_paths_and_packages _ _ _ _ ?w0] =>
      destruct (Hfind w0 eq_refl) as (w1 & E1 & F1) end.
    rewrite E1. cbv beta iota.
    unfold bind, print, sys_exit, raise. cbn [nonempty negb andb].
    eexists. split; [reflexivity|exact F1]. }
  split; [exact (Hfind w eq_refl)|]. split; [exact Hmain|].
  destruct Hmain as (w2 & -> & _). reflexivity.
Qed.

End AnyPlatform.

(** ** The settings writer *)

Section SettingsMore.
Context {S : Serialization}.

Lemma settings_dir_parent (r : PurePath) :
  canonical r -> parent (settings_dir_of r) = r.
Proof.
  intros H. rewrite (settings_dir_parts r H). unfold parent. simpl.
  rewrite removelast_last. now destruct r.
Qed.

Lemma mkdir_existing (dir : PurePath) (w : world) (b : bool) :
  lookup (fs w) (str dir) = Some (Dir b) ->
  mkdir_exist_ok dir w = Returns tt w.
Proof. intros H. unfold mkdir_exist_ok. now rewrite H. Qed.

Lemma mkdir_new (dir : PurePath) (w : world) :
  lookup (fs w) (str dir) = None ->
  lookup (fs w) (str (parent dir)) = Some (Dir true) ->
  mkdir_exist_ok dir w
  = Returns tt (mkWorld (fs_create (fs w) dir (Dir true)) (stdout w)).
Proof.
  intros H Hp. unfold mkdir_exist_ok, create_entry. now rewrite H, Hp.
Qed.

Lemma load_settings_absent (file : PurePath) (w : world) :
  lookup (fs w) (str file) = None ->
  load_settings file w = Returns (JObj []) w.
Proof.
  intros H. unfold load_settings, bind, exists_, answer, fs_exists.
  cbn [stat_error answering].
  now rewrite H.
Qed.

Lemma load_settings_valid (file : PurePath) (w : world) (wr : bool)
    (txt : text) (v : json) :
  lookup (fs w) (str file) = Some (File true wr txt) ->
  json_loads txt = Some v ->
  load_settings file w = Returns v w.
Proof.
  intros H Hj.
  unfold load_settings, bind, exists_, answer, fs_exists, try_except, open_read,
    json_load. cbn [stat_error answering].
  rewrite H. cbv beta iota. rewrite H. cbv beta iota. now rewrite Hj.
Qed.

Lemma load_settings_corrupt (file : PurePath) (w : world) (wr : bool)
    (txt : text) :
  lookup (fs w) (str file) = Some (File true wr txt) ->
  json_loads txt = None ->
  load_settings file w
  = Returns (JObj [])
      (mkWorld (fs w)
         (stdout w ++ ["Warning: '" +++ str file
                       +++ "' is corrupted. Overwriting."])).
Proof.
  intros H Hj.
  unfold load_settings, bind, exists_, answer, fs_exists, try_except, open_read,
    json_load. cbn [stat_error answering].
  rewrite H. cbv beta iota. rewrite H. cbv beta iota. now rewrite Hj.
Qed.

Lemma dump_settings_existing (file : PurePath) (data : json) (w : world)
    (r : bool) (old : text) :
  lookup (fs w) (str file) = Some (File r true old) ->
  dump_settings file data w
  = Returns tt
      (mkWorld (fs_replace (fs w) file (File r true (json_dumps data)))
         (stdout w ++ ["Successfully updated '" +++ str file +++ "'"])).
Proof.
  intros H. unfold dump_settings, try_except, bind, open_write, print.
  now rewrite H.
Qed.

Lemma dump_settings_new (file : PurePath) (data : json) (w : world) :
  lookup (fs w) (str file) = None ->
  lookup (fs w) (str (parent file)) = Some (Dir true) ->
  dump_settings file data w
  = Returns tt
      (mkWorld (fs_create (fs w) file (File true true (json_dumps data)))
         (stdout w ++ ["Successfully updated '" +++ str file +++ "'"])).
Proof.
  intros H Hp.
  unfold dump_settings, try_except, bind, open_write, create_entry, print.
  now rewrite H, Hp.
Qed.

Lemma apply_settings_fresh (python_paths : list string)
    (interpreter_path : string) :
  apply_settings [] python_paths interpreter_path
  = fresh_settings python_paths interpreter_path.
Proof. reflexivity. Qed.

Lemma assign_settings_object (m : list (string * json))
    (python_paths : list string) (interpreter_path : string) (w : world) :
  assign_settings (JObj m) python_paths interpreter_path w
  = Returns (JObj (apply_settings m python_paths interpreter_path)) w.
Proof. exact (assign_spec (JObj m) python_paths interpreter_path w). Qed.

Lemma dir_neq_root (r : PurePath) :
  canonical r -> str (settings_dir_of r) <> str r.
Proof.
  intros H. rewrite (settings_dir_parts r H).
  apply str_neq.
  - now apply canonical_snoc.
  - now destruct r.
  - simpl. intros E. apply (f_equal (@length _)) in E.
    rewrite length_app in E. simpl in E. lia.
Qed.

(** X5. A workspace without [.vscode]: the writer creates the directory
    and, in it, a settings file that holds exactly the six keys of the
    script, in the order of the assignments; both show up in the listings
    of their parents, and the success line is printed. *)
Theorem X5_fresh_workspace (cwd : string) (python_paths : list string)
    (interpreter_path : string) (w : world) :
  let root := Path cwd in
  let dir := settings_dir_of root in
  let file := settings_file_of root in
  lookup (fs w) (str root) = Some (Dir true) ->
  lookup (fs w) (str dir) = None ->
  lookup (fs w) (str file) = None ->
  exists w',
    update_vscode_settings root python_paths interpreter_path w
    = Returns tt w' /\
    lookup (fs w') (str dir) = Some (Dir true) /\
    lookup (fs w') (str file)
    = Some (File true true
              (json_dumps
                 (JObj (fresh_settings python_paths interpreter_path)))) /\
    In ".vscode" (listdir (fs w') (str root)) /\
    In "settings.json" (listdir (fs w') (str dir)) /\
    stdout w'
    = stdout w ++ ["Successfully updated '" +++ str file +++ "'"].
Proof.
  intros root dir file Hroot Hdir Hfile.
  assert (Hc : canonical root) by apply Path_canonical.
  pose proof (file_neq_dir root Hc) as Hfd. fold file dir in Hfd.
  pose proof (dir_neq_root root Hc) as Hdr. fold dir in Hdr.
  pose proof (settings_dir_parent root Hc) as Hpd. fold dir in Hpd.
  pose proof (settings_file_parent root Hc) as Hpf. fold file dir in Hpf.
  assert (Hnd : name dir = ".vscode").
  { unfold dir. rewrite (settings_dir_parts root Hc). unfold name. simpl.
    apply last_last. }
  assert (Hnf : name file = "settings.json").
  { unfold file. rewrite (settings_file_parts root Hc). unfold name. simpl.
    apply last_last. }
  unfold update_vscode_settings. cbv zeta.
  change (root // ".vscode") with dir.
  change (dir // "settings.json") with file.
  unfold bind at 1.
  rewrite (mkdir_new dir w Hdir); [|now rewrite Hpd].
  cbv beta iota.
  unfold bind at 1. rewrite load_settings_absent;
    [|cbn [fs]; now rewrite lookup_create_other].
  cbv beta iota.
  unfold bind at 1. rewrite assign_settings_object. cbv beta iota.
  rewrite apply_settings_fresh.
  rewrite dump_settings_new; cbn [fs stdout].
  - eexists. split; [reflexivity|]. cbn [fs stdout].
    rewrite lookup_create_same.
    rewrite lookup_create_other, lookup_create_same by (intros E; now symmetry in E).
    repeat split.
    + unfold fs_create. cbn [listdir]. rewrite Hpf, Hpd, Hnd.
      apply String.eqb_neq in Hdr. rewrite String.eqb_sym in Hdr.
      rewrite Hdr, String.eqb_refl. apply in_or_app. right. now left.
    + unfold fs_create. cbn [listdir]. rewrite Hpf, Hpd, Hnf.
      apply String.eqb_neq in Hdr.
      rewrite Hdr, String.eqb_refl. apply in_or_app. right. now left.
  - now rewrite lookup_create_other.
  - rewrite Hpf. apply lookup_create_same.
Qed.

(** X6. A settings file that does not parse is replaced: after the
    warning, the file holds exactly the six keys of the script (whatever it
    held before is lost), and the success line follows the warning. *)
Theorem X6_corrupt_settings_replaced (cwd : string)
    (python_paths : list string) (interpreter_path : string) (w : world)
    (b : bool) (txt : text) :
  let root := Path cwd in
  let dir := settings_dir_of root in
  let file := settings_file_of root in
  lookup (fs w) (str dir) = Some (Dir b) ->
  lookup (fs w) (str file) = Some (File true true txt) ->
  json_loads txt = None ->
  update_vscode_settings root python_paths interpreter_path w
  = Returns tt
      (mkWorld
         (fs_replace (fs w) file
            (File true true
               (json_dumps
                  (JObj (fresh_settings python_paths interpreter_path)))))
         (stdout w
          ++ ["Warning: '" +++ str file +++ "' is corrupted. Overwriting.";
              "Successfully updated '" +++ str file +++ "'"])).
Proof.
  intros root dir file Hdir Hfile Hj.
  unfold update_vscode_settings. cbv zeta.
  change (root // ".vscode") with dir.
  change (dir // "settings.json") with file.
  unfold bind at 1. rewrite (mkdir_existing dir w b Hdir). cbv beta iota.
  unfold bind at 1.
  rewrite (load_settings_corrupt file w true txt Hfile Hj). cbv beta iota.
  unfold bind at 1. rewrite assign_settings_object. cbv beta iota.
  rewrite apply_settings_fresh.
  rewrite (dump_settings_existing file _ _ true txt) by exact Hfile.
  cbn [fs stdout]. now rewrite <- app_assoc.
Qed.

(** X7. A settings file whose document is not an object (a list, a
    string, a number, [null]): the first assignment raises [TypeError],
    which the writer does not catch; nothing is written or printed. *)
Theorem X7_settings_not_an_object (cwd : string)
    (python_paths : list string) (interpreter_path : string) (w : world)
    (b wr : bool) (txt : text) (v : json) :
  let root := Path cwd in
  lookup (fs w) (str (settings_dir_of root)) = Some (Dir b) ->
  lookup (fs w) (str (settings_file_of root)) = Some (File true wr txt) ->
  json_loads txt = Some v ->
  (forall m, v <> JObj m) ->
  exists msg,
    update_vscode_settings root python_paths interpreter_path w
    = Raises (Exception TypeError msg) w.
Proof.
  intros root Hdir Hfile Hj Hv.
  unfold update_vscode_settings. cbv zeta.
  change (root // ".vscode") with (settings_dir_of root).
  change (settings_dir_of root // "settings.json")
    with (settings_file_of root).
  unfold bind at 1. rewrite (mkdir_existing _ w b Hdir). cbv beta iota.
  unfold bind at 1.
  rewrite (load_settings_valid _ w wr txt v Hfile Hj). cbv beta iota.
  pose proof (assign_spec v python_paths interpreter_path w) as Ha.
  destruct v; try (now destruct (Hv members));
    destruct Ha as (msg & Ha); exists msg; unfold bind at 1;
    now rewrite Ha.
Qed.

(** X8. [.vscode] exists but is a file: [mkdir(exist_ok=True)] raises
    [FileExistsError], which the writer does not catch; nothing is written
    or printed. *)
Theorem X8_settings_dir_is_a_file (cwd : string)
    (python_paths : list string) (interpreter_path : string) (w : world)
    (r wr : bool) (txt : text) :
  let root := Path cwd in
  lookup (fs w) (str (settings_dir_of root)) = Some (File r wr txt) ->
  exists msg,
    update_vscode_settings root python_paths interpreter_path w
    = Raises (Exception FileExistsError msg) w.
Proof.
  intros root Hdir.
  unfold update_vscode_settings. cbv zeta.
  change (root // ".vscode") with (settings_dir_of root).
  unfold bind at 1, mkdir_exist_ok, os_error, raise. rewrite Hdir.
  eexists. reflexivity.
Qed.

(** X9. What the writer prints about the write is true: either the
    success line is printed and the file holds the new document, or the
    error line is printed with the reason and the file system is as
    before.  The write step itself never raises. *)
Theorem X9_write_is_reported (file : PurePath) (data : json) (w : world) :
  exists w',
    dump_settings file data w = Returns tt w' /\
    ((stdout w'
      = stdout w ++ ["Successfully updated '" +++ str file +++ "'"] /\
      exists r,
        lookup (fs w') (str file)
        = Some (File r true (json_dumps data))) \/
     (fs w' = fs w /\
      exists c msg,
        is_OSError c = true /\
        open_write file (json_dumps data) w = Raises (Exception c msg) w /\
        stdout w'
        = stdout w ++ ["Error writing to '" +++ str file +++ "': "
                       +++ msg])).
Proof.
  unfold dump_settings, try_except, bind, open_write, create_entry,
    os_error, raise, print, any_Exception.
  cbv beta.
  destruct (lookup (fs w) (str file)) as [[b|r [|] txt]|] eqn:E.
  - eexists. split; [reflexivity|]. right. split; [reflexivity|].
    exists IsADirectoryError. eexists. repeat split.
  - eexists. split; [reflexivity|]. left. split; [reflexivity|].
    exists r. cbn [fs]. apply lookup_replace_same.
  - eexists. split; [reflexivity|]. right. split; [reflexivity|].
    exists PermissionError. eexists. repeat split.
  - destruct (lookup (fs w) (str (parent file))) as [[[|]|r wr d]|] eqn:Ep.
    + eexists. split; [reflexivity|]. left. split; [reflexivity|].
      exists true. cbn [fs]. apply lookup_create_same.
    + eexists. split; [reflexivity|]. right. split; [reflexivity|].
      exists PermissionError. eexists. repeat split.
    + eexists. split; [reflexivity|]. right. split; [reflexivity|].
      exists NotADirectoryError. eexists. repeat split.
    + eexists. split; [reflexivity|]. right. split; [reflexivity|].
      exists FileNotFoundError. eexists. repeat split.
Qed.

End SettingsMore.

(** ** Key order of the settings document *)

Section KeyOrder.
Context {S : Serialization}.

Lemma keys_set {V} (d : list (string * V)) (k : string) (v : V) :
  keys (dict.set d k v)
  = if mem k (keys d) then keys d else keys d ++ [k].
Proof.
  unfold keys, mem. induction d as [|[k' v'] r IH]; simpl; [reflexivity|].
  rewrite (String.eqb_sym k k').
  destruct (k' =? k); simpl; [reflexivity|].
  rewrite IH. now destruct (existsb (String.eqb k) (map fst r)).
Qed.

Lemma mem_snoc (x k : string) (l : list string) :
  x <> k -> mem x (l ++ [k]) = mem x l.
Proof.
  intros H. unfold mem. rewrite existsb_app. simpl.
  apply String.eqb_neq in H. rewrite H. now rewrite !orb_false_r.
Qed.

Lemma keys_fold {V} (kvs : list (string * V)) (m : list (string * V)) :
  NoDup (keys kvs) ->
  keys (fold_left (fun d kv => dict.set d (fst kv) (snd kv)) kvs m)
  = keys m ++ filter (fun k => negb (mem k (keys m))) (keys kvs).
Proof.
  revert m. induction kvs as [|[k v] r IH]; intros m Hnd; simpl.
  - now rewrite app_nil_r.
  - inversion Hnd as [|? ? Hk Hr]; subst.
    rewrite (IH _ Hr), keys_set.
    destruct (mem k (keys m)) eqn:Hm; simpl; [reflexivity|].
    rewrite <- app_assoc. simpl. do 2 f_equal.
    apply filter_ext_in. intros x Hx. f_equal. apply mem_snoc.
    intros ->. now apply Hk.
Qed.

Lemma apply_settings_fold (m : list (string * json))
    (python_paths : list string) (interpreter_path : string) :
  apply_settings m python_paths interpreter_path
  = fold_left (fun d kv => dict.set d (fst kv) (snd kv))
      (fresh_settings python_paths interpreter_path) m.
Proof. reflexivity. Qed.

Lemma owned_keys_NoDup : NoDup owned_keys.
Proof.
  unfold owned_keys.
  repeat (constructor; [simpl; intuition discriminate|]).
  constructor.
Qed.

(** X10. The six assignments keep the order of an existing settings
    document: every key that was there stays where it was, and the keys of
    the script that were missing are appended in the order of the
    assignments.  A document without repeated keys stays so. *)
Theorem X10_settings_key_order (m : list (string * json))
    (python_paths : list string) (interpreter_path : string) (w : world) :
  exists d,
    assign_settings (JObj m) python_paths interpreter_path w
    = Returns (JObj d) w /\
    keys d
    = keys m ++ filter (fun k => negb (mem k (keys m))) owned_keys /\
    (NoDup (keys m) -> NoDup (keys d)).
Proof.
  exists (apply_settings m python_paths interpreter_path).
  split; [apply assign_settings_object|].
  assert (E : keys (apply_settings m python_paths interpreter_path)
              = keys m
                ++ filter (fun k => negb (mem k (keys m))) owned_keys).
  { rewrite apply_settings_fold.
    exact (keys_fold (fresh_settings python_paths interpreter_path) m
             owned_keys_NoDup). }
  split; [exact E|].
  intros Hm. rewrite E. apply NoDup_app.
  - exact Hm.
  - apply NoDup_filter, owned_keys_NoDup.
  - intros x Hx Hf. apply filter_In in Hf. destruct Hf as [_ Hf].
    apply negb_true_iff in Hf.
    assert (Hin : mem x (keys m) = true)
      by (apply (existsb_eqb String.eqb String.eqb_eq); exact Hx).
    congruence.
Qed.

(** X11. The settings writer touches two entries only: whatever it does
    (return or raise), every path other than the settings file and its
    directory resolves as before. *)
Theorem X11_settings_frame (cwd : string) (python_paths : list string)
    (interpreter_path : string) (w : world) (k : string) :
  let root := Path cwd in
  k <> str (settings_file_of root) ->
  k <> str (settings_dir_of root) ->
  lookup (fs (final (update_vscode_settings root python_paths
                       interpreter_path w))) k
  = lookup (fs w) k.
Proof.
  intros root Hf Hd.
  pose proof (update_vscode_settings_spec root python_paths
                interpreter_path w) as H.
  destruct (settings_fs (fs w) root python_paths interpreter_path)
    as [f'|] eqn:E.
  - destruct H as (w' & -> & F). cbn [final]. rewrite F.
    eapply settings_fs_other; eauto. apply Path_canonical.
  - destruct H as (c & msg & w' & -> & [F|Hm]); cbn [final].
    + now rewrite F.
    + eapply mkdir_fs_other; eauto.
Qed.

End KeyOrder.

(** ** The lint-config writer *)

Section LintMore.
Context {S : Serialization}.

Lemma merge_run (t : list (string * toml)) (pkgs : list string)
    (w : world) :
  match merge_fn t pkgs with
  | Some m =>
      merge_known_first_party (TTable t) pkgs w = Returns (TTable m) w
  | None => exists c msg,
      merge_known_first_party (TTable t) pkgs w
      = Raises (Exception c msg) w
  end.
Proof.
  pose proof (merge_spec t pkgs w) as H.
  rewrite merged_closed_form in H.
  now destruct (merge_fn t pkgs).
Qed.

Lemma toml_fs_listdir (f : filesystem) (r : PurePath) (pkgs : list string)
    (k : string) :
  listdir (toml_fs f r pkgs) k = listdir f k.
Proof.
  unfold toml_fs. cbv zeta.
  destruct (lookup f (str (toml_file_of r))) as [[b|[|] [|] txt]|];
    try reflexivity.
  destruct (toml_loads txt) as [t|]; [|reflexivity].
  now destruct (merged t pkgs).
Qed.



(** X14. With packages to add, the merge goes through only for a
    document whose [tool], [ruff], [lint] and [isort] values are tables
    (or missing) and whose [known-first-party] is a list of strings (or
    missing).  Anything else there (a table where a list should be, a
    number in the list) makes the merge raise. *)
Theorem X14_merge_needs_strings (t : list (string * toml))
    (pkgs : list string) (w w' : world) (t' : toml) :
  pkgs <> [] ->
  merge_known_first_party (TTable t) pkgs w = Returns t' w' ->
  exists L, stored_list t = Some L.
Proof.
  intros Hne Hrun.
  pose proof (merge_run t pkgs w) as Hm.
  destruct (merge_fn t pkgs) as [m|] eqn:E.
  - clear Hm Hrun. unfold merge_fn in E. unfold stored_list.
    destruct (section t "tool") as [tool|]; [|discriminate].
    destruct (section tool "ruff") as [ruff|]; [|discriminate].
    destruct (section ruff "lint") as [lint|]; [|discriminate].
    destruct (section lint "isort") as [isort|]; [|discriminate].
    destruct (list_under isort "known-first-party") as [items|];
      [|discriminate].
    destruct (updated_list items pkgs) as [updated|] eqn:Eu;
      [|discriminate].
    destruct (updated_list_inv items pkgs updated Hne Eu) as (L & ->).
    exists L. now apply strings_of_map.
  - destruct Hm as (c & msg & Hm). congruence.
Qed.

Lemma diverges_cons (ks : list string) (k0 : string) (rest : list string) :
  diverges ks (k0 :: rest) = true ->
  exists k r, ks = k :: r /\
              (k <> k0 \/ (k = k0 /\ diverges r rest = true)).
Proof.
  destruct ks as [|k r]; simpl; [discriminate|].
  intros H. exists k, r. split; [reflexivity|].
  destruct (k =? k0) eqn:E.
  - apply String.eqb_eq in E. auto.
  - apply String.eqb_neq in E. auto.
Qed.

Lemma get_path_empty (ks path : list string) :
  diverges ks path = true -> get_path (TTable []) ks = None.
Proof. destruct ks; [discriminate|reflexivity]. Qed.

(** One level of the merge: the table under [k0] is replaced by [m'],
    which agrees with the old one off the rest of the path. *)
Lemma get_path_level (d m m' : list (string * toml)) (k0 : string)
    (rest ks : list string) :
  section d k0 = Some m ->
  (forall r, diverges r rest = true ->
             get_path (TTable m') r = get_path (TTable m) r) ->
  diverges ks (k0 :: rest) = true ->
  get_path (TTable (dict.set d k0 (TTable m'))) ks = get_path (TTable d) ks.
Proof.
  intros Hs Hin Hd.
  destruct (diverges_cons _ _ _ Hd) as (k & r & -> & [Hk|[-> Hr]]).
  - cbn [get_path]. rewrite get_set_other by congruence. reflexivity.
  - cbn [get_path]. rewrite get_set_same, (Hin r Hr).
    unfold section in Hs.
    destruct (dict.get d k0) as [[]|]; try discriminate.
    + now injection Hs as ->.
    + injection Hs as <-. eapply get_path_empty; eauto.
Qed.

(** X15. The merge changes one value: every key of the document that is
    not on the way to [tool.ruff.lint.isort.known-first-party] (other
    top-level tables, other tools, other [ruff] and [isort] settings)
    holds after the merge what it held before. *)
Theorem X15_merge_keeps_other_content (t : list (string * toml))
    (pkgs : list string) (w w' : world) (t' : toml) (ks : list string) :
  merge_known_first_party (TTable t) pkgs w = Returns t' w' ->
  diverges ks known_first_party_path = true ->
  get_path t' ks = get_path (TTable t) ks.
Proof.
  intros Hrun Hd.
  pose proof (merge_run t pkgs w) as Hm.
  destruct (merge_fn t pkgs) as [m|] eqn:E;
    [|destruct Hm as (c & msg & Hm); congruence].
  rewrite Hm in Hrun. injection Hrun as <- _. clear Hm.
  unfold merge_fn in E.
  destruct (section t "tool") as [tool|] eqn:E1; [|discriminate].
  destruct (section tool "ruff") as [ruff|] eqn:E2; [|discriminate].
  destruct (section ruff "lint") as [lint|] eqn:E3; [|discriminate].
  destruct (section lint "isort") as [isort|] eqn:E4; [|discriminate].
  destruct (list_under isort "known-first-party") as [items|];
    [|discriminate].
  destruct (updated_list items pkgs) as [updated|]; [|discriminate].
  injection E as <-. unfold store.
  unfold known_first_party_path in Hd.
  eapply get_path_level; [exact E1| |exact Hd].
  intros r1 H1. eapply get_path_level; [exact E2| |exact H1].
  intros r2 H2. eapply get_path_level; [exact E3| |exact H2].
  intros r3 H3. eapply get_path_level; [exact E4| |exact H3].
  intros r Hr.
  destruct (diverges_cons _ _ _ Hr) as (k & r' & -> & [Hk|[_ Hr']]).
  - cbn [get_path]. rewrite get_set_other by congruence. reflexivity.
  - destruct r'; discriminate.
Qed.

End LintMore.

(** ** The whole run *)

Section MainMore.
Context {S : Serialization}.
Variable sys : interpreter.

Let root : PurePath := workspace_root sys.
Let settings_file : string := str (settings_file_of root).
Let settings_dir : string := str (settings_dir_of root).
Let toml_file : string := str (toml_file_of root).

Lemma main_short (w : world) :
  length (argv sys) < 2 ->
  main sys w
  = Raises (SystemExit 1)
      (mkWorld (fs w)
         (stdout w
          ++ ["--- Python VS Code Configurator ---";
              "Error: Missing ROS_DISTRO argument.";
              "This script should be called by 'configure.sh'."])).
Proof.
  intros H. unfold main.
  destruct (argv sys) as [|a [|b r]]; simpl in H; try lia;
    unfold bind, print, sys_exit, raise; cbn [fs stdout];
    now rewrite <- !app_assoc.
Qed.

(** The file system a run ends with. *)
Lemma main_final (w : world) (script ros_distro : string)
    (rest python_paths pkgs : list string) :
  argv sys = script :: ros_distro :: rest ->
  discovery sys (fs w) ros_distro = (python_paths, pkgs) ->
  fs (final (main sys w)) = fs w \/
  writers_fs sys (fs w) python_paths pkgs = Some (fs (final (main sys w))) \/
  (settings_fs (fs w) root python_paths (executable sys) = None /\
   nonempty python_paths = true /\
   mkdir_fs (fs w) (settings_dir_of root) = Some (fs (final (main sys w)))).
Proof.
  intros Hargv Hd.
  pose proof (main_spec sys w script ros_distro rest python_paths pkgs
                Hargv Hd) as H.
  destruct (negb (nonempty python_paths) && negb (nonempty pkgs)).
  - destruct H as (w' & -> & F). now left.
  - unfold writers_fs in *. fold root in H |- *.
    destruct (nonempty python_paths).
    + destruct (settings_fs (fs w) root python_paths (executable sys))
        as [f1|].
      * destruct H as (w' & -> & F). right. left. cbn [final].
        now rewrite F.
      * destruct H as (c & msg & w' & -> & [F|F]); cbn [final]; auto.
    + destruct H as (w' & -> & F). right. left. cbn [final].
      now rewrite F.
Qed.

Lemma writers_fs_other (f g : filesystem) (python_paths pkgs : list string)
    (k : string) :
  writers_fs sys f python_paths pkgs = Some g ->
  k <> settings_file -> k <> settings_dir -> k <> toml_file ->
  lookup g k = lookup f k.
Proof.
  unfold writers_fs. fold root. intros H Hf Hd Ht.
  assert (Hl : forall h,
    lookup (if nonempty pkgs then toml_fs h root pkgs else h) k
    = lookup h k).
  { intros h. destruct (nonempty pkgs); [|reflexivity].
    now apply toml_fs_other. }
  destruct (nonempty python_paths).
  - destruct (settings_fs f root python_paths (executable sys)) as [f1|]
      eqn:E; [|discriminate].
    injection H as <-. rewrite Hl.
    eapply settings_fs_other; eauto. apply Path_canonical.
  - injection H as <-. apply Hl.
Qed.

(** X16. Started without the distribution argument, the script prints
    the banner and the two error lines, exits with status 1, and has
    neither looked for packages nor written anything. *)
Theorem X16_missing_argument (w : world) :
  length (argv sys) < 2 ->
  main sys w
  = Raises (SystemExit 1)
      (mkWorld (fs w)
         (stdout w
          ++ ["--- Python VS Code Configurator ---";
              "Error: Missing ROS_DISTRO argument.";
              "This script should be called by 'configure.sh'."])) /\
  exit_status (main sys w) = 1.
Proof.
  intros H. rewrite (main_short w H). split; reflexivity.
Qed.

(** X17. No local package, no lint configuration: when discovery finds
    no package, the run leaves [pyproject.toml] as it is, whether it
    returns, exits or raises. *)
Theorem X17_no_package_no_lint_update (w : world)
    (script ros_distro : string) (rest python_paths : list string) :
  argv sys = script :: ros_distro :: rest ->
  discovery sys (fs w) ros_distro = (python_paths, []) ->
  lookup (fs (final (main sys w))) toml_file = lookup (fs w) toml_file.
Proof.
  intros Hargv Hd. pose proof (Path_canonical (getcwd sys)) as Hc.
  fold (workspace_root sys) in Hc. fold root in Hc.
  destruct (main_final w script ros_distro rest python_paths [] Hargv Hd)
    as [->|[H|(_ & _ & H)]]; [reflexivity| |].
  - unfold writers_fs in H. fold root in H. cbn [nonempty] in H.
    destruct (nonempty python_paths).
    + destruct (settings_fs (fs w) root python_paths (executable sys))
        as [f1|] eqn:E; [|discriminate].
      injection H as H. rewrite <- H.
      eapply settings_fs_other; eauto.
      * now apply toml_neq_file.
      * now apply toml_neq_dir.
    + injection H as H. now rewrite <- H.
  - eapply mkdir_fs_other; eauto. now apply toml_neq_dir.
Qed.

(** X18. No search path, no settings: when discovery finds packages but
    no search path, the settings writer is not called: [.vscode] is not
    created and nothing but [pyproject.toml] can change. *)
Theorem X18_no_path_no_settings_update (w : world)
    (script ros_distro : string) (rest pkgs : list string) (k : string) :
  argv sys = script :: ros_distro :: rest ->
  discovery sys (fs w) ros_distro = ([], pkgs) ->
  k <> toml_file ->
  lookup (fs (final (main sys w))) k = lookup (fs w) k.
Proof.
  intros Hargv Hd Hk.
  destruct (main_final w script ros_distro rest [] pkgs Hargv Hd)
    as [->|[H|(_ & H & _)]]; [reflexivity| |discriminate].
  unfold writers_fs in H. fold root in H. cbn [nonempty] in H.
  injection H as H. rewrite <- H.
  destruct (nonempty pkgs); [|reflexivity].
  now apply toml_fs_other.
Qed.

(** X19. An error of the settings writer ends the run before the lint
    configuration is looked at: if the writer raises on the workspace as
    it is, the run raises too (exit status 1), and [pyproject.toml] and
    the settings file are as before, even when packages were found. *)
Theorem X19_settings_error_ends_run (w : world)
    (script ros_distro : string) (rest python_paths pkgs : list string)
    (e : exn) (w1 : world) :
  argv sys = script :: ros_distro :: rest ->
  discovery sys (fs w) ros_distro = (python_paths, pkgs) ->
  python_paths <> [] ->
  update_vscode_settings root python_paths (executable sys) w
  = Raises e w1 ->
  exists c msg w',
    main sys w = Raises (Exception c msg) w' /\
    exit_status (main sys w) = 1 /\
    lookup (fs w') toml_file = lookup (fs w) toml_file /\
    lookup (fs w') settings_file = lookup (fs w) settings_file.
Proof.
  intros Hargv Hd Hne Hrun.
  pose proof (Path_canonical (getcwd sys)) as Hc.
  fold (workspace_root sys) in Hc. fold root in Hc.
  pose proof (main_spec sys w script ros_distro rest python_paths pkgs
                Hargv Hd) as H.
  pose proof (update_vscode_settings_spec root python_paths
                (executable sys) w) as Hs.
  unfold writers_fs in H. fold root in H.
  rewrite (nonempty_true _ Hne) in H. cbn [negb andb] in H.
  destruct (settings_fs (fs w) root python_paths (executable sys))
    as [f1|].
  - destruct Hs as (w' & Hs & _). congruence.
  - destruct H as (c & msg & w' & E & F).
    exists c, msg, w'. rewrite E. split; [reflexivity|].
    split; [reflexivity|].
    destruct F as [->|F]; [auto|]. split.
    + eapply mkdir_fs_other; eauto. now apply toml_neq_dir.
    + eapply mkdir_fs_other; eauto. now apply file_neq_dir.
Qed.

(** X20. A run touches three entries at most: whatever happens, every
    path other than the settings file, its directory and
    [pyproject.toml] resolves after the run as it did before. *)
Theorem X20_run_frame (w : world) (k : string) :
  k <> settings_file -> k <> settings_dir -> k <> toml_file ->
  lookup (fs (final (main sys w))) k = lookup (fs w) k.
Proof.
  intros Hf Hd Ht.
  destruct (le_lt_dec 2 (length (argv sys))) as [Hlen|Hlen];
    [|now rewrite (main_short w Hlen)].
  destruct (argv sys) as [|script [|ros_distro rest]] eqn:Hargv;
    simpl in Hlen; try lia.
  destruct (discovery sys (fs w) ros_distro) as [paths pkgs] eqn:Hdisc.
  destruct (main_final w script ros_distro rest paths pkgs Hargv Hdisc)
    as [->|[H|(_ & _ & H)]]; [reflexivity| |].
  - now apply (writers_fs_other _ _ _ _ _ H).
  - eapply mkdir_fs_other; eauto.
Qed.

Lemma written_dirs (f : filesystem) (file : PurePath) (data : text) :
  (forall s, fs_is_dir (written f file data) s = fs_is_dir f s) /\
  (forall k, k <> str (parent file) ->
             listdir (written f file data) k = listdir f k).
Proof.
  unfold written.
  destruct (lookup f (str file)) as [[b|r [|] txt]|] eqn:E;
    try (split; reflexivity).
  - split; [|reflexivity]. intros s. unfold fs_is_dir, fs_replace.
    cbn [lookup]. destruct (s =? str file) eqn:Es; [|reflexivity].
    apply String.eqb_eq in Es. subst s. now rewrite E.
  - destruct (lookup f (str (parent file))) as [[[|]|r wr d]|];
      try (split; reflexivity).
    split.
    + intros s. unfold fs_is_dir, fs_create. cbn [lookup].
      destruct (s =? str file) eqn:Es; [|reflexivity].
      apply String.eqb_eq in Es. subst s. now rewrite E.
    + intros k Hk. unfold fs_create. cbn [listdir].
      apply String.eqb_neq in Hk. now rewrite Hk.
Qed.

Lemma toml_fs_dirs (f : filesystem) (r : PurePath) (pkgs : list string)
    (s : string) :
  fs_is_dir (toml_fs f r pkgs) s = fs_is_dir f s.
Proof.
  unfold toml_fs. cbv zeta.
  destruct (lookup f (str (toml_file_of r))) as [[b|[|] [|] txt]|] eqn:E;
    try reflexivity.
  destruct (toml_loads txt) as [t|]; [|reflexivity].
  destruct (merged t pkgs); [|reflexivity].
  unfold fs_is_dir, fs_replace. cbn [lookup].
  destruct (s =? str (toml_file_of r)) eqn:Es; [|reflexivity].
  apply String.eqb_eq in Es. subst s. now rewrite E.
Qed.

Lemma writers_fs_dirs (f g : filesystem) (python_paths pkgs : list string)
    (b : bool) :
  lookup f settings_dir = Some (Dir b) ->
  writers_fs sys f python_paths pkgs = Some g ->
  (forall s, fs_is_dir g s = fs_is_dir f s) /\
  (forall k, k <> settings_dir -> listdir g k = listdir f k).
Proof.
  intros Hdir. unfold writers_fs. fold root.
  pose proof (Path_canonical (getcwd sys)) as Hc.
  fold (workspace_root sys) in Hc. fold root in Hc.
  assert (Hl : forall h,
    (forall s, fs_is_dir (if nonempty pkgs then toml_fs h root pkgs else h) s
               = fs_is_dir h s) /\
    (forall k, listdir (if nonempty pkgs then toml_fs h root pkgs else h) k
               = listdir h k)).
  { intros h. destruct (nonempty pkgs); [|auto].
    split; intros; [apply toml_fs_dirs|apply toml_fs_listdir]. }
  destruct (nonempty python_paths).
  - unfold settings_fs, mkdir_fs. fold settings_dir. rewrite Hdir.
    destruct (loaded f (settings_file_of root)) as [v|]; [|discriminate].
    destruct (assigned v python_paths (executable sys)) as [d|];
      [|discriminate].
    intros [= <-].
    destruct (written_dirs f (settings_file_of root) (json_dumps d))
      as [H1 H2].
    rewrite (settings_file_parent root Hc) in H2. fold settings_dir in H2.
    destruct (Hl (written f (settings_file_of root) (json_dumps d)))
      as [H3 H4].
    split.
    + intros s. now rewrite H3, H1.
    + intros k Hk. now rewrite H4, H2.
  - intros [= <-]. destruct (Hl f) as [H3 H4]. auto.
Qed.

Lemma install_neq_dir (r : PurePath) :
  canonical r -> str (r // "install") <> str (settings_dir_of r).
Proof.
  intros H.
  rewrite (truediv_part r "install" H eq_refl), (settings_dir_parts r H).
  apply str_neq; try (now apply canonical_snoc).
  simpl. intros E. apply app_inv_head in E. discriminate.
Qed.

Lemma discovery_after_run (w : world) (script ros_distro : string)
    (rest : list string) (b : bool) :
  argv sys = script :: ros_distro :: rest ->
  lookup (fs w) settings_dir = Some (Dir b) ->
  discovery sys (fs (final (main sys w))) ros_distro
  = discovery sys (fs w) ros_distro.
Proof.
  intros Hargv Hdir.
  pose proof (Path_canonical (getcwd sys)) as Hc.
  fold (workspace_root sys) in Hc. fold root in Hc.
  destruct (discovery sys (fs w) ros_distro) as [paths pkgs] eqn:Hdisc.
  destruct (main_final w script ros_distro rest paths pkgs Hargv Hdisc)
    as [->|[H|(_ & _ & H)]]; [exact Hdisc| |].
  - rewrite <- Hdisc. unfold discovery.
    destruct (writers_fs_dirs _ _ _ _ b Hdir H) as [H1 H2].
    apply discovered_ext; [exact H1|].
    apply H2. now apply install_neq_dir.
  - unfold mkdir_fs in H. fold settings_dir in H. rewrite Hdir in H.
    injection H as H. now rewrite <- H.
Qed.


(** X21. With [.vscode] already there, a run does not change what
    discovery finds: on the file system the run leaves, discovery returns
    the search paths and packages it returned before the run. *)
Theorem X21_run_keeps_discovery (w : world) (script ros_distro : string)
    (rest : list string) (b : bool) :
  argv sys = script :: ros_distro :: rest ->
  lookup (fs w) settings_dir = Some (Dir b) ->
  discovery sys (fs (final (main sys w))) ros_distro
  = discovery sys (fs w) ros_distro /\
  exists r w1 w2,
    find_paths_and_packages sys root (get_python_version_string sys)
      ros_distro w = Returns r w1 /\
    find_paths_and_packages sys root (get_python_version_string sys)
      ros_distro (final (main sys w)) = Returns r w2.
Proof.
  intros Hargv Hdir.
  pose proof (discovery_after_run w script ros_distro rest b Hargv Hdir)
    as H.
  split; [exact H|].
  destruct (reads_find_paths_and_packages sys root
              (get_python_version_string sys) ros_distro w)
    as (w1 & E1 & _).
  destruct (reads_find_paths_and_packages sys root
              (get_python_version_string sys) ros_distro
              (final (main sys w))) as (w2 & E2 & _).
  unfold discovery in H. fold root in H. rewrite H in E2. eauto.
Qed.

(** X22. Running twice is running once, when [.vscode] was there before
    the first run: if that run returns, the next one returns as well and
    leaves the settings file and [pyproject.toml] exactly as the first
    left them ([load] reading back what [dump] wrote). *)
Theorem X22_second_run_changes_nothing (w w1 : world)
    (script ros_distro : string) (rest : list string) (b : bool) :
  Roundtrip S ->
  argv sys = script :: ros_distro :: rest ->
  lookup (fs w) settings_dir = Some (Dir b) ->
  main sys w = Returns tt w1 ->
  exists w2,
    main sys w1 = Returns tt w2 /\
    lookup (fs w2) settings_file = lookup (fs w1) settings_file /\
    lookup (fs w2) toml_file = lookup (fs w1) toml_file.
Proof.
  intros Hrt Hargv Hdir Hrun.
  pose proof (discovery_after_run w script ros_distro rest b Hargv Hdir)
    as Hsame.
  rewrite Hrun in Hsame. cbn [final] in Hsame.
  destruct (discovery sys (fs w) ros_distro) as [paths pkgs] eqn:Hd.
  pose proof (main_spec sys w script ros_distro rest paths pkgs Hargv Hd)
    as H1.
  pose proof (main_spec sys w1 script ros_distro rest paths pkgs Hargv
                Hsame) as H2.
  destruct (negb (nonempty paths) && negb (nonempty pkgs)).
  - destruct H1 as (w' & E & _). congruence.
  - destruct (writers_fs sys (fs w) paths pkgs) as [g|] eqn:Eg.
    + destruct H1 as (w' & E & F).
      assert (w' = w1) by congruence. subst w'.
      rewrite <- F in Eg.
      destruct (writers_fs_stable sys (fs w) (fs w1) paths pkgs Hrt Eg)
        as (g2 & Eg2 & Hs & Ht).
      rewrite Eg2 in H2. destruct H2 as (w2 & E2 & F2).
      exists w2. rewrite F2. auto.
    + destruct H1 as (c & msg & w' & E & _). congruence.
Qed.

(** X23. End to end, the lint configuration: when a run that found
    packages returns, and [pyproject.toml] was a readable, writable file
    whose document stores a list of strings [L] (or nothing) under
    [tool.ruff.lint.isort.known-first-party], the file holds afterwards
    a document with the sorted, duplicate-free union of [L] and the
    packages found there. *)
Theorem X23_run_updates_lint_config (w w1 : world)
    (script ros_distro : string) (rest python_paths pkgs L : list string)
    (txt : text) (t : list (string * toml)) :
  argv sys = script :: ros_distro :: rest ->
  discovery sys (fs w) ros_distro = (python_paths, pkgs) ->
  pkgs <> [] ->
  lookup (fs w) toml_file = Some (File true true txt) ->
  toml_loads txt = Some t ->
  stored_list t = Some L ->
  main sys w = Returns tt w1 ->
  exists t',
    lookup (fs w1) toml_file = Some (File true true (toml_dumps t')) /\
    get_path (TTable t') known_first_party_path
    = Some (TArr (map TStr (sorted_set (L ++ pkgs)))) /\
    forall x, In x pkgs -> In x (sorted_set (L ++ pkgs)).
Proof.
  intros Hargv Hd Hne Hfile Hparse HL Hrun.
  pose proof (Path_canonical (getcwd sys)) as Hc.
  fold (workspace_root sys) in Hc. fold root in Hc.
  destruct (merge_fn_strings t L pkgs HL) as (t' & Em & Hp).
  exists t'. split; [|split; [exact Hp|]].
  - pose proof (main_spec sys w script ros_distro rest python_paths pkgs
                  Hargv Hd) as H.
    rewrite (nonempty_true pkgs Hne), andb_false_r in H.
    destruct (writers_fs sys (fs w) python_paths pkgs) as [g|] eqn:Eg.
    + destruct H as (w' & E & F).
      assert (w' = w1) by congruence. subst w'. rewrite F.
      unfold writers_fs in Eg. fold root in Eg.
      rewrite (nonempty_true pkgs Hne) in Eg.
      assert (Hnode : forall f1,
                lookup f1 toml_file = lookup (fs w) toml_file ->
                lookup (toml_fs f1 root pkgs) toml_file
                = Some (File true true (toml_dumps t'))).
      { intros f1 E1. unfold toml_file in *. rewrite toml_fs_lookup, E1.
        rewrite Hfile. unfold toml_node.
        now rewrite Hparse, merged_closed_form, Em. }
      destruct (nonempty python_paths).
      * destruct (settings_fs (fs w) root python_paths (executable sys))
          as [f1|] eqn:Es; [|discriminate].
        injection Eg as <-. apply Hnode.
        eapply settings_fs_other; eauto.
        -- now apply toml_neq_file.
        -- now apply toml_neq_dir.
      * injection Eg as <-. now apply Hnode.
    + destruct H as (c & msg & w' & E & _). congruence.
  - intros x Hx. apply sorted_set_union. now right.
Qed.

(** X24. End to end, the settings: when a run that found search paths
    returns, and the settings file could be opened for writing, the file
    holds afterwards a document in which the six keys of the script are
    bound: the interpreter of the run, the search paths discovery
    returned (under both path keys) and the three constants. *)
Theorem X24_run_updates_settings (w w1 : world)
    (script ros_distro : string) (rest python_paths pkgs : list string) :
  argv sys = script :: ros_distro :: rest ->
  discovery sys (fs w) ros_distro = (python_paths, pkgs) ->
  python_paths <> [] ->
  settings_writable (fs w) root = true ->
  main sys w = Returns tt w1 ->
  exists r d,
    lookup (fs w1) settings_file
    = Some (File r true (json_dumps (JObj d))) /\
    owned_bindings d python_paths (executable sys).
Proof.
  intros Hargv Hd Hne Hwr Hrun.
  pose proof (Path_canonical (getcwd sys)) as Hc.
  fold (workspace_root sys) in Hc. fold root in Hc.
  pose proof (main_spec sys w script ros_distro rest python_paths pkgs
                Hargv Hd) as H.
  rewrite (nonempty_true python_paths Hne) in H. cbn [negb andb] in H.
  unfold writers_fs in H. fold root in H.
  rewrite (nonempty_true python_paths Hne) in H.
  destruct (settings_fs (fs w) root python_paths (executable sys))
    as [f1|] eqn:Es.
  - destruct H as (w' & E & F).
    assert (w' = w1) by congruence. subst w'.
    destruct (settings_fs_written _ _ _ _ _ Hc Es Hwr)
      as (rd & d & Hf & Hb).
    exists rd, d. split; [|exact Hb]. rewrite F.
    destruct (nonempty pkgs); [|exact Hf].
    unfold settings_file. rewrite toml_fs_other; [exact Hf|].
    intros E'. now apply (toml_neq_file root Hc).
  - destruct H as (c & msg & w' & E & _). congruence.
Qed.

End MainMore.

(** ** The system candidates, character by character *)

Section Candidates.
Context {S : Serialization}.
Variable sys : interpreter.

Variable c : ascii.
Hypothesis not_slash : Ascii.eqb "/"%char c = false.
Hypothesis not_dot : Ascii.eqb "."%char c = false.

Let total (l : list string) : nat := list_sum (map (count_char c) l).

Lemma count_app (a b : string) :
  count_char c (a +++ b) = count_char c a + count_char c b.
Proof. induction a as [|x a IH]; simpl; [reflexivity|]. rewrite IH. lia. Qed.

Lemma count_spaces (n : nat) :
  count_char " "%char (Str.spaces n) = n.
Proof. induction n; simpl; congruence. Qed.

Lemma count_split (r : string) : total (Str.split Str.slash r) = count_char c r.
Proof.
  unfold total. induction r as [|x r IH]; [reflexivity|].
  cbn [Str.split count_char].
  destruct (Ascii.eqb x Str.slash) eqn:E.
  - apply Ascii.eqb_eq in E. subst x. unfold Str.slash.
    rewrite not_slash. simpl. exact IH.
  - destruct (Str.split Str.slash r) as [|h t]; simpl in *; lia.
Qed.

Lemma count_filter (l : list string) : total (filter keep_part l) = total l.
Proof.
  unfold total. induction l as [|x l IH]; [reflexivity|].
  simpl. destruct (keep_part x) eqn:E; simpl; [lia|].
  rewrite IH. unfold keep_part in E.
  destruct x as [|a x]; [reflexivity|].
  cbn [Str.truthy andb] in E.
  apply negb_false_iff, String.eqb_eq in E. rewrite E.
  cbn [count_char]. now rewrite not_dot.
Qed.

Lemma count_concat (l : list string) :
  count_char c (String.concat "/" l) = total l.
Proof.
  unfold total. induction l as [|x l IH]; [reflexivity|].
  destruct l as [|y l]; [simpl; lia|].
  change (String.concat "/" (x :: y :: l))
    with (x +++ "/" +++ String.concat "/" (y :: l)).
  rewrite !count_app, IH. cbn [count_char map list_sum].
  rewrite not_slash. simpl. lia.
Qed.

Lemma count_opt_ros (r : string) :
  count_char c (str (Path ("/opt/ros/" +++ r)))
  = count_char c "/opt/ros/" + count_char c r.
Proof.
  rewrite Path_opt_ros.
  change (str (mkPath "/" ("opt" :: "ros"
                           :: filter keep_part (Str.split Str.slash r))))
    with ("/opt/" +++ String.concat "/"
            ("ros" :: filter keep_part (Str.split Str.slash r))).
  rewrite count_app, count_concat.
  change (total ("ros" :: filter keep_part (Str.split Str.slash r)))
    with (count_char c "ros"
          + total (filter keep_part (Str.split Str.slash r))).
  rewrite count_filter, count_split. cbn [count_char].
  rewrite !not_slash. lia.
Qed.

Lemma count_splitroot (s : string) :
  count_char c (fst (splitroot s)) = 0 /\
  count_char c (snd (splitroot s)) = count_char c s.
Proof.
  destruct s as [|a [|b s]]; cbn [splitroot].
  - now split.
  - destruct (Ascii.eqb a Str.slash) eqn:Ea; cbn [fst snd count_char].
    + apply Ascii.eqb_eq in Ea. subst a. unfold Str.slash.
      rewrite !not_slash. now split.
    + now split.
  - destruct (Ascii.eqb a Str.slash) eqn:Ea; [|now split].
    apply Ascii.eqb_eq in Ea. subst a.
    destruct (Ascii.eqb b Str.slash) eqn:Eb.
    + apply Ascii.eqb_eq in Eb. subst b.
      destruct (Str.startswith Str.slash s); unfold Str.slash;
        cbn [fst snd count_char]; rewrite !not_slash; now split.
    + unfold Str.slash; cbn [fst snd count_char]. rewrite !not_slash.
      now split.
Qed.

(** Parsing and printing a path keeps every character but slashes and
    dots. *)
Lemma count_Path (s : string) :
  count_char c (str (Path s)) = count_char c s.
Proof.
  destruct (count_splitroot s) as [Hr Hs]. unfold Path.
  destruct (splitroot s) as [rt rel]. cbn [fst snd] in Hr, Hs.
  unfold str. cbn [root tail].
  assert (E : count_char c (rt +++ String.concat "/"
                 (filter keep_part (Str.split Str.slash rel)))
              = count_char c s)
    by (rewrite count_app, count_concat, count_filter, count_split; lia).
  destruct (rt +++ String.concat "/"
              (filter keep_part (Str.split Str.slash rel))) eqn:Es.
  - cbn [Str.truthy]. rewrite <- E. cbn [count_char]. now rewrite not_dot.
  - cbn [Str.truthy]. exact E.
Qed.

Lemma count_join (a b : string) :
  Str.startswith Str.slash b = false ->
  count_char c (join a b) = count_char c a + count_char c b.
Proof.
  intros H. unfold join. rewrite H.
  destruct (negb (Str.truthy a) || Str.endswith Str.slash a);
    rewrite !count_app; [reflexivity|].
  cbn [count_char]. rewrite not_slash. lia.
Qed.

Lemma count_truediv (p : PurePath) (b : string) :
  Str.startswith Str.slash b = false ->
  count_char c (str (p // b)) = count_char c (str p) + count_char c b.
Proof.
  intros H. unfold truediv. now rewrite count_Path, count_join.
Qed.

End Candidates.

Section CandidatesOff.
Context {S : Serialization}.
Variable sys : interpreter.

(** X25. Whatever the distribution and the interpreter version, none of
    the three system candidates is the directory of the usual layout,
    [/opt/ros/<distro>/lib/python<X>.<Y>/site-packages] (or
    [dist-packages]): the first two carry the indentation of the source
    lines inside their names (58 and 70 spaces), the third a backslash
    before the distribution. *)
Theorem X25_system_candidates_off_layout (ros_distro python_version : string) :
  let usual (leaf : string) :=
    Path ("/opt/ros/" +++ ros_distro +++ "/lib/"
          +++ get_python_version_string sys +++ "/" +++ leaf) in
  str (base_ros_path sys ros_distro) <> str (usual "site-packages") /\
  str (dist_packages_path sys ros_distro) <> str (usual "dist-packages") /\
  str (system_site_packages python_version ros_distro)
  <> str (Path ("/opt/ros/" +++ ros_distro +++ "/lib/" +++ python_version
                +++ "/site-packages")).
Proof.
  intros usual. unfold usual, base_ros_path, dist_packages_path,
    system_site_packages, get_python_version_string.
  repeat split; intros H.
  - apply (f_equal (count_char " "%char)) in H.
    rewrite !(count_opt_ros " "%char eq_refl eq_refl) in H.
    rewrite !count_app, !count_spaces in H. simpl in H. lia.
  - apply (f_equal (count_char " "%char)) in H.
    rewrite !(count_opt_ros " "%char eq_refl eq_refl) in H.
    rewrite !count_app, !count_spaces in H. simpl in H. lia.
  - apply (f_equal (count_char "\"%char)) in H.
    change ("/opt/ros/\" +++ ros_distro +++ "/lib/" +++ python_version
            +++ "/site-packages")
      with ("/opt/ros/" +++ "\" +++ ros_distro +++ "/lib/"
            +++ python_version +++ "/site-packages") in H.
    rewrite !(count_opt_ros "\"%char eq_refl eq_refl) in H.
    rewrite !count_app in H. simpl in H. lia.
Qed.

(** X26. Below every package directory, the second local candidate is
    not the first one spelled again: with the version string the script
    passes, its name holds the 12 spaces of the source indentation, so
    the two strings always differ. *)
Theorem X26_second_local_candidate (package_dir : PurePath) :
  exists first second third,
    possible_paths sys (get_python_version_string sys) package_dir
    = [first; second; third] /\
    count_char " "%char (str second)
    = count_char " "%char (str first) + 12 /\
    str second <> str first.
Proof.
  unfold possible_paths. do 3 eexists. split; [reflexivity|].
  assert (E : count_char " "%char
                (str (package_dir
                      // ("lib/python" +++ Str.spaces 12 +++ major_str sys
                          +++ "." +++ minor_str sys +++ "/site-packages")))
              = count_char " "%char
                  (str (package_dir
                        // ("lib/" +++ get_python_version_string sys
                            +++ "/site-packages"))) + 12).
  { rewrite !(count_truediv " "%char eq_refl eq_refl) by reflexivity.
    unfold get_python_version_string.
    rewrite !count_app, count_spaces. simpl. lia. }
  split; [exact E|].
  intros H. rewrite H in E. lia.
Qed.

End CandidatesOff.

Section UsualLayout.
Context {S : Serialization}.
Variable sys : interpreter.

(** C1.  The system block misses the directories it is written for.  Its
    comments name the base ROS 2 Python path, its [dist-packages] and
    [lib/python3.xx/site-packages] of the system installation; in the
    usual layout these are
    [/opt/ros/<distro>/lib/python<X>.<Y>/site-packages] and
    [.../dist-packages].  Whatever the distribution, the interpreter
    version and the file system, neither is among the paths the block
    collects, whether it exists or not: the three paths it probes carry
    the indentation of the continued source lines, a stray bracket, and a
    backslash before the distribution. *)
Theorem C1_usual_layout_missed (w : world) (ros_distro : string) :
  let python_version := get_python_version_string sys in
  let usual (leaf : string) :=
    str (Path ("/opt/ros/" +++ ros_distro +++ "/lib/" +++ python_version
               +++ "/" +++ leaf)) in
  exists collected w1,
    system_ros_paths sys python_version ros_distro [] w
    = Returns collected w1 /\
    fs w1 = fs w /\
    ~ In (usual "site-packages") collected /\
    ~ In (usual "dist-packages") collected.
Proof.
  intros python_version usual. subst python_version.
  destruct (reads_system_ros_paths sys (get_python_version_string sys)
              ros_distro [] w) as (w1 & E & F).
  exists (found_system sys (fs w) (get_python_version_string sys)
            ros_distro), w1.
  split; [exact E|]. split; [exact F|].
  assert (H : forall leaf,
            count_char " "%char leaf = 0 ->
            count_char "\"%char leaf = 0 ->
            ~ In (usual leaf)
                (found_system sys (fs w) (get_python_version_string sys)
                   ros_distro)).
  { intros leaf Hs Hb Hin. unfold found_system in Hin.
    destruct (Str.truthy ros_distro); [|exact Hin].
    apply kept_is_dir in Hin. destruct Hin as (p & Hp & Heq & _).
    unfold usual, get_python_version_string in Heq.
    destruct Hp as [<-|[<-|[<-|[]]]].
    - apply (f_equal (count_char " "%char)) in Heq.
      unfold base_ros_path in Heq.
      rewrite !(count_opt_ros " "%char eq_refl eq_refl) in Heq.
      rewrite !count_app, !count_spaces, Hs in Heq. simpl in Heq. lia.
    - apply (f_equal (count_char " "%char)) in Heq.
      unfold dist_packages_path in Heq.
      rewrite !(count_opt_ros " "%char eq_refl eq_refl) in Heq.
      rewrite !count_app, !count_spaces, Hs in Heq. simpl in Heq. lia.
    - apply (f_equal (count_char "\"%char)) in Heq.
      unfold system_site_packages, get_python_version_string in Heq.
      change ("/opt/ros/\" +++ ros_distro +++ "/lib/"
              +++ ("python" +++ major_str sys +++ "." +++ minor_str sys)
              +++ "/site-packages")
        with ("/opt/ros/" +++ "\" +++ ros_distro +++ "/lib/"
              +++ ("python" +++ major_str sys +++ "." +++ minor_str sys)
              +++ "/site-packages") in Heq.
      rewrite !(count_opt_ros "\"%char eq_refl eq_refl) in Heq.
      rewrite !count_app, Hb in Heq. simpl in Heq. lia. }
  split; apply H; reflexivity.
Qed.

End UsualLayout.

(** ** Worked runs *)

Lemma symbolic_roundtrip : Roundtrip Fixture.symbolic.
Proof. split; reflexivity. Qed.

Section Runs.
Import Fixture.

Lemma C1_witness :
  fs_is_dir (fs w_usual) "/opt/ros/kilted/lib/python3.12/site-packages"
  = true /\
  fs_is_dir (fs w_usual) "/opt/ros/kilted/lib/python3.12/dist-packages"
  = true /\
  exists collected w1,
    system_ros_paths (sys_kilted None) "python3.12" "kilted" [] w_usual
    = Returns collected w1 /\
    collected = [] /\
    ~ In "/opt/ros/kilted/lib/python3.12/site-packages" collected /\
    ~ In "/opt/ros/kilted/lib/python3.12/dist-packages" collected.
Proof.
  split; [reflexivity|]. split; [reflexivity|].
  destruct (C1_usual_layout_missed (sys_kilted None) w_usual "kilted")
    as (collected & w1 & E & _ & Hs & Hd).
  exists collected, w1. split; [exact E|].
  split; [|split; [exact Hs|exact Hd]].
  vm_compute in E. now injection E as <- _.
Defined.

Lemma C2_witness :
  fs_is_dir (fs w_fresh) (str (Path "/ws" // "install")) = true /\
  exists python_paths local_packages w',
    find_paths_and_packages sys_env (Path "/ws") "python3.12" "kilted"
      w_fresh
    = Returns (python_paths, local_packages) w' /\
    local_packages = ["brick_interfaces"; "turtle_brick"].
Proof.
  assert (H : fs_is_dir (fs w_fresh) (str (Path "/ws" // "install")) = true)
    by reflexivity.
  split; [exact H|].
  destruct (C2_local_packages sys_env w_fresh (Path "/ws") "python3.12"
              "kilted" H) as (paths & pkgs & w' & E & Hp & _).
  exists paths, pkgs, w'. split; [exact E|].
  rewrite Hp. vm_compute. reflexivity.
Defined.

Lemma C3_witness :
  fs_is_dir (fs w_no_packages) (str (Path "/ws" // "install")) = true /\
  accumulated_paths sys_env (fs w_no_packages) (Path "/ws") "python3.12"
    "kilted" = ["/a"; "/b"; "/a"; "/c"] /\
  exists local_packages w',
    find_paths_and_packages sys_env (Path "/ws") "python3.12" "kilted"
      w_no_packages
    = Returns (["/a"; "/b"; "/c"], local_packages) w'.
Proof.
  split; [reflexivity|]. split; [reflexivity|].
  destruct (C3_search_paths sys_env w_no_packages (Path "/ws") "python3.12"
              "kilted") as (paths & pkgs & w' & E & _ & _ & Hord).
  destruct (Hord eq_refl) as (_ & _ & Habc).
  exists pkgs, w'. rewrite E.
  rewrite (Habc "/a" "/b" "/c"); try discriminate; reflexivity.
Defined.

Lemma C4_witness :
  let file := settings_file_of (Path "/ws") in
  let o := update_vscode_settings (Path "/ws") ["/a"] "/ws/.venv/bin/python"
             w_settings in
  lookup (fs w_settings) (str file)
  = Some (File true true (JsonText (JObj user_settings))) /\
  json_loads (JsonText (JObj user_settings)) = Some (JObj user_settings) /\
  ~ In "editor.tabSize" owned_keys /\
  dict.get user_settings "editor.tabSize" = Some (JNumber "2") /\
  exists r' wr' txt',
    lookup (fs (final o)) (str file) = Some (File r' wr' txt') /\
    (txt' = JsonText (JObj user_settings) \/
     exists m',
       txt' = json_dumps (JObj m') /\
       dict.get m' "editor.tabSize" = Some (JNumber "2")).
Proof.
  intros file o.
  assert (H1 : lookup (fs w_settings) (str file)
               = Some (File true true (JsonText (JObj user_settings))))
    by reflexivity.
  assert (H2 : json_loads (JsonText (JObj user_settings))
               = Some (JObj user_settings)) by reflexivity.
  assert (H3 : ~ In "editor.tabSize" owned_keys).
  { unfold owned_keys. simpl.
    intros [H|[H|[H|[H|[H|[H|[]]]]]]]; discriminate H. }
  assert (H4 : dict.get user_settings "editor.tabSize"
               = Some (JNumber "2")) by reflexivity.
  split; [exact H1|]. split; [exact H2|]. split; [exact H3|].
  split; [exact H4|].
  destruct (C4_other_keys_preserved "/ws" ["/a"] "/ws/.venv/bin/python"
              w_settings true true (JsonText (JObj user_settings))
              user_settings H1 H2)
    as (r' & wr' & txt' & E & [Hsame|(m' & Hm & Hkeep)]).
  - exists r', wr', txt'. split; [exact E|]. now left.
  - exists r', wr', txt'. split; [exact E|]. right.
    exists m'. split; [exact Hm|]. now apply Hkeep.
Defined.

Lemma C5_witness :
  stored_list pyproject = Some ["zeta"; "foo"] /\
  exists t',
    merge_known_first_party (TTable pyproject) ["turtle_brick"; "foo"]
      w_fresh
    = Returns (TTable t') w_fresh /\
    get_path (TTable t') known_first_party_path
    = Some (TArr [TStr "foo"; TStr "turtle_brick"; TStr "zeta"]).
Proof.
  assert (H : stored_list pyproject = Some ["zeta"; "foo"]) by reflexivity.
  split; [exact H|].
  destruct (C5_known_first_party pyproject ["turtle_brick"; "foo"]
              ["zeta"; "foo"] w_fresh H) as (t' & E & Hp & _).
  exists t'. split; [exact E|]. rewrite Hp. reflexivity.
Defined.



Lemma C7_witness :
  argv sys_env = ["setup_vscode.py"; "kilted"] /\
  fs_is_dir (fs w_unbuilt) (str (Path (getcwd sys_env) // "install")) = false
  /\
  found_system sys_env (fs w_unbuilt) "python3.12" "kilted"
  = ["/opt/ros/\kilted/lib/python3.12/site-packages"] /\
  (exists w1,
     find_paths_and_packages (P := linux) sys_env (Path (getcwd sys_env))
       (get_python_version_string sys_env) "kilted" w_unbuilt
     = Returns ([], []) w1) /\
  exit_status (main (P := linux) sys_env w_unbuilt) = 1.
Proof.
  split; [reflexivity|]. split; [reflexivity|]. split; [reflexivity|].
  destruct (C7_no_install (P := linux) sys_env w_unbuilt "setup_vscode.py"
              "kilted" [] eq_refl eq_refl)
    as ((w1 & E & _) & _ & Hx).
  - intros _ p [<-|[<-|[<-|[]]]]; reflexivity.
  - reflexivity.
  - split; [now exists w1|exact Hx].
Defined.

(** On Linux, with [/opt/ros] there and a distribution name longer than a
    file name may be, the first probe raises ENAMETOOLONG: discovery does
    not return, though [install] is not a directory, and the run ends
    with that error, not by [sys.exit(1)]. *)
Lemma C7_counterexample :
  argv sys_long = ["setup_vscode.py"; long_distro] /\
  String.length long_distro = 300 /\
  fs_is_dir (fs w_opt_ros) (str (Path (getcwd sys_long) // "install"))
  = false /\
  (exists msg,
     find_paths_and_packages (P := linux) sys_long (Path (getcwd sys_long))
       (get_python_version_string sys_long) long_distro w_opt_ros
     = Raises (Exception OSError msg) w_opt_ros) /\
  (forall w1,
     find_paths_and_packages (P := linux) sys_long (Path (getcwd sys_long))
       (get_python_version_string sys_long) long_distro w_opt_ros
     <> Returns ([], []) w1) /\
  exists msg w',
    main (P := linux) sys_long w_opt_ros = Raises (Exception OSError msg) w'.
Proof.
  split; [reflexivity|]. split; [reflexivity|]. split; [reflexivity|].
  split; [eexists; vm_compute; reflexivity|].
  split; [intros w1; vm_compute; discriminate|].
  do 2 eexists. vm_compute. reflexivity.
Qed.

(** Three runs in which the lint-config file is missing and a search path
    is found.  With the settings file unreadable, the run ends with status
    1 and the settings file is not written.  With the settings file not
    writable, the run exits with status 0 and the file keeps its text.
    With no local package found, the run exits with status 0 and the
    lint-config writer, which is not called, prints no error. *)
Lemma C8_counterexample :
  (lookup (fs w_unreadable) "/ws/pyproject.toml" = None /\
   fst (discovery sys_env (fs w_unreadable) "kilted")
   = ["/ws/install/turtle_brick/lib"; "/a"; "/b"; "/c"] /\
   exit_status (main sys_env w_unreadable) = 1 /\
   stored (main sys_env w_unreadable) "/ws/.vscode/settings.json"
   = Some (File false true (Junk "{}"))) /\
  (lookup (fs w_readonly) "/ws/pyproject.toml" = None /\
   fst (discovery sys_env (fs w_readonly) "kilted")
   = ["/ws/install/turtle_brick/lib"; "/a"; "/b"; "/c"] /\
   exit_status (main sys_env w_readonly) = 0 /\
   stored (main sys_env w_readonly) "/ws/.vscode/settings.json"
   = Some (File true false (JsonText (JObj user_settings)))) /\
  (lookup (fs w_no_packages) "/ws/pyproject.toml" = None /\
   discovery sys_env (fs w_no_packages) "kilted" = (["/a"; "/b"; "/c"], []) /\
   exit_status (main sys_env w_no_packages) = 0 /\
   existsb (String.eqb "Error: 'pyproject.toml' not found at /ws")
     (stdout (final (main sys_env w_no_packages))) = false).
Proof. vm_compute. repeat split. Qed.

Lemma C8_witness :
  let f1 := match settings_fs (fs w_system) (workspace_root sys_env)
                    ["/opt/ros/\kilted/lib/python3.12/site-packages";
                     "/ws/install/turtle_brick/lib"; "/a"; "/b"; "/c"]
                    (executable sys_env) with
            | Some f => f
            | None => fs w_system
            end in
  argv sys_env = ["setup_vscode.py"; "kilted"] /\
  discovery sys_env (fs w_system) "kilted"
  = (["/opt/ros/\kilted/lib/python3.12/site-packages";
      "/ws/install/turtle_brick/lib"; "/a"; "/b"; "/c"],
     ["brick_interfaces"; "turtle_brick"]) /\
  lookup (fs w_system) "/ws/pyproject.toml" = None /\
  exists w',
    main sys_env w_system = Returns tt w' /\
    exit_status (main sys_env w_system) = 0 /\
    lookup (fs w') "/ws/pyproject.toml" = None /\
    In "Error: 'pyproject.toml' not found at /ws" (stdout w').
Proof.
  intros f1.
  assert (Hd : discovery sys_env (fs w_system) "kilted"
               = (["/opt/ros/\kilted/lib/python3.12/site-packages";
                   "/ws/install/turtle_brick/lib"; "/a"; "/b"; "/c"],
                  ["brick_interfaces"; "turtle_brick"]))
    by (vm_compute; reflexivity).
  assert (Hs : settings_fs (fs w_system) (workspace_root sys_env)
                 ["/opt/ros/\kilted/lib/python3.12/site-packages";
                  "/ws/install/turtle_brick/lib"; "/a"; "/b"; "/c"]
                 (executable sys_env) = Some f1)
    by (vm_compute; reflexivity).
  split; [reflexivity|]. split; [exact Hd|]. split; [reflexivity|].
  destruct (C8_missing_lint_config sys_env w_system "setup_vscode.py"
              "kilted" [] _ _ f1 eq_refl Hd ltac:(discriminate) eq_refl Hs)
    as (w' & E & Hx & _ & Ht & _ & _ & Hlog).
  exists w'. split; [exact E|]. split; [exact Hx|]. split; [exact Ht|].
  apply Hlog. discriminate.
Defined.

Lemma C9_witness :
  let o := update_vscode_settings (Path "/ws") ["/a"] "/ws/.venv/bin/python"
             w_settings in
  o = Returns tt (final o) /\
  settings_writable (fs w_settings) (Path "/ws") = true /\
  exists r d,
    lookup (fs (final o)) "/ws/.vscode/settings.json"
    = Some (File r true (json_dumps (JObj d))) /\
    dict.get d "python.analysis.typeCheckingMode" = Some (JStr "basic") /\
    dict.get d "cmake.configureOnOpen" = Some (JBool false).
Proof.
  intros o.
  assert (H1 : o = Returns tt (final o)) by (vm_compute; reflexivity).
  assert (H2 : settings_writable (fs w_settings) (Path "/ws") = true)
    by reflexivity.
  split; [exact H1|]. split; [exact H2|].
  destruct (C9_owned_keys "/ws" ["/a"] "/ws/.venv/bin/python" w_settings)
    as (_ & _ & Hstored).
  destruct (Hstored (final o) H1 H2)
    as (r & d & E & _ & _ & _ & Hmode & _ & Hcmake).
  exists r, d. auto.
Defined.

Lemma C10_witness :
  argv sys_env = ["setup_vscode.py"; "kilted"] /\
  lookup (fs w_unreadable) "/ws/.vscode" = Some (Dir true) /\
  fs_exists (fs w_unreadable) "/ws/.vscode/settings.json" = true /\
  loaded (fs w_unreadable) (settings_file_of (workspace_root sys_env)) = None
  /\
  exists c msg w',
    is_OSError c = true /\
    main sys_env w_unreadable = Raises (Exception c msg) w' /\
    exit_status (main sys_env w_unreadable) = 1.
Proof.
  assert (Hd : discovery sys_env (fs w_unreadable) "kilted"
               = (["/ws/install/turtle_brick/lib"; "/a"; "/b"; "/c"],
                  ["brick_interfaces"; "turtle_brick"]))
    by (vm_compute; reflexivity).
  split; [reflexivity|]. split; [reflexivity|]. split; [reflexivity|].
  split; [reflexivity|].
  destruct (C10_read_error_propagates sys_env w_unreadable
              "setup_vscode.py" "kilted" [] _ _ true eq_refl Hd
              ltac:(discriminate) eq_refl eq_refl eq_refl)
    as ((c & msg & w1 & w' & Hos & _ & _ & Hrun & _ & Hx) & _).
  exists c, msg, w'. auto.
Defined.

End Runs.

(** ** Worked runs of the further properties *)

Section MoreRuns.
Import Fixture.

Lemma X2_witness :
  (forall s, fs_is_dir (fs w_fresh) s = fs_is_dir (fs w_built) s) /\
  listdir (fs w_fresh) (str (Path "/ws" // "install"))
  = listdir (fs w_built) (str (Path "/ws" // "install")) /\
  exists r w1' w2',
    find_paths_and_packages sys_env (Path "/ws") "python3.12" "kilted"
      w_fresh = Returns r w1' /\
    find_paths_and_packages sys_env (Path "/ws") "python3.12" "kilted"
      w_built = Returns r w2'.
Proof.
  assert (H1 : forall s, fs_is_dir (fs w_fresh) s = fs_is_dir (fs w_built) s).
  { intros s. unfold fs_is_dir. cbn -[String.eqb].
    repeat match goal with
           | |- context [?k =? s] => destruct (k =? s); [reflexivity|]
           end.
    reflexivity. }
  assert (H2 : listdir (fs w_fresh) (str (Path "/ws" // "install"))
               = listdir (fs w_built) (str (Path "/ws" // "install")))
    by reflexivity.
  split; [exact H1|]. split; [exact H2|].
  exact (X2_discovery_reads_directories sys_env w_fresh w_built (Path "/ws")
           "python3.12" "kilted" H1 H2).
Defined.

Lemma X3_witness :
  fs_is_dir (fs w_fresh) (str (Path "/ws" // "install")) = true /\
  exists python_paths local_packages w',
    find_paths_and_packages sys_env (Path "/ws") "python3.12" "kilted"
      w_fresh
    = Returns (python_paths, local_packages) w' /\
    In "/ws/install/turtle_brick/lib" python_paths /\
    In "/b" python_paths /\
    ~ In "/ws/install/brick_interfaces/lib" python_paths.
Proof.
  assert (H : fs_is_dir (fs w_fresh) (str (Path "/ws" // "install")) = true)
    by reflexivity.
  split; [exact H|].
  destruct (X3_search_path_sources sys_env w_fresh (Path "/ws")
              "python3.12" "kilted" H) as (paths & pkgs & w' & E & Hiff).
  exists paths, pkgs, w'. split; [exact E|]. split; [|split].
  - apply Hiff. right. left.
    exists "turtle_brick",
      (make_child_relpath (Path "/ws" // "install") "turtle_brick" // "lib").
    repeat split; try reflexivity.
    + vm_compute. auto.
    + right. right. left. reflexivity.
  - apply Hiff. right. right. exists "/a:/b:/a:/c".
    repeat split; try reflexivity.
    + vm_compute. auto.
    + discriminate.
  - intros Hin. apply Hiff in Hin.
    destruct Hin as [(_ & p & _ & _ & Hd)|[(n & p & _ & _ & _ & _ & Hd)
                                         |(v & _ & _ & _ & Hd)]];
      discriminate Hd.
Defined.

Lemma X4_witness :
  NoDup ["/b"; "/a"; "/c"] /\ dedupe ["/b"; "/a"; "/c"] = ["/b"; "/a"; "/c"].
Proof.
  assert (H : NoDup ["/b"; "/a"; "/c"]).
  { repeat (constructor; [simpl; intuition discriminate|]). constructor. }
  split; [exact H|]. exact (X4_dedupe_keeps_distinct _ H).
Defined.

Lemma X5_witness :
  lookup (fs w_fresh) "/ws" = Some (Dir true) /\
  lookup (fs w_fresh) "/ws/.vscode" = None /\
  lookup (fs w_fresh) "/ws/.vscode/settings.json" = None /\
  exists w',
    update_vscode_settings (Path "/ws") ["/a"] "/ws/.venv/bin/python" w_fresh
    = Returns tt w' /\
    lookup (fs w') "/ws/.vscode" = Some (Dir true) /\
    lookup (fs w') "/ws/.vscode/settings.json"
    = Some (File true true
              (JsonText
                 (JObj (fresh_settings ["/a"] "/ws/.venv/bin/python")))) /\
    In "settings.json" (listdir (fs w') "/ws/.vscode").
Proof.
  split; [reflexivity|]. split; [reflexivity|]. split; [reflexivity|].
  destruct (X5_fresh_workspace "/ws" ["/a"] "/ws/.venv/bin/python" w_fresh
              eq_refl eq_refl eq_refl)
    as (w' & E & Hd & Hf & _ & Hl & _).
  exists w'. split; [exact E|]. split; [exact Hd|]. split; [exact Hf|].
  exact Hl.
Defined.

Lemma X6_witness :
  lookup (fs w_corrupt) "/ws/.vscode" = Some (Dir true) /\
  lookup (fs w_corrupt) "/ws/.vscode/settings.json"
  = Some (File true true (Junk "{ // comment")) /\
  json_loads (Junk "{ // comment") = None /\
  stored (update_vscode_settings (Path "/ws") ["/a"] "/ws/.venv/bin/python"
            w_corrupt) "/ws/.vscode/settings.json"
  = Some (File true true
            (JsonText (JObj (fresh_settings ["/a"] "/ws/.venv/bin/python")))).
Proof.
  split; [reflexivity|]. split; [reflexivity|]. split; [reflexivity|].
  rewrite (X6_corrupt_settings_replaced "/ws" ["/a"] "/ws/.venv/bin/python"
             w_corrupt true (Junk "{ // comment") eq_refl eq_refl eq_refl).
  reflexivity.
Defined.

Lemma X7_witness :
  lookup (fs w_list_settings) "/ws/.vscode" = Some (Dir true) /\
  lookup (fs w_list_settings) "/ws/.vscode/settings.json"
  = Some (File true true (JsonText (JArr []))) /\
  json_loads (JsonText (JArr [])) = Some (JArr []) /\
  (forall m, JArr [] <> JObj m) /\
  exists msg,
    update_vscode_settings (Path "/ws") ["/a"] "/ws/.venv/bin/python"
      w_list_settings
    = Raises (Exception TypeError msg) w_list_settings.
Proof.
  assert (H : forall m, JArr [] <> JObj m) by (intros m; discriminate).
  split; [reflexivity|]. split; [reflexivity|]. split; [reflexivity|].
  split; [exact H|].
  exact (X7_settings_not_an_object "/ws" ["/a"] "/ws/.venv/bin/python"
           w_list_settings true true (JsonText (JArr [])) (JArr [])
           eq_refl eq_refl eq_refl H).
Defined.

Lemma X8_witness :
  lookup (fs w_dir_is_file) "/ws/.vscode" = Some (File true true (Junk "")) /\
  exists msg,
    update_vscode_settings (Path "/ws") ["/a"] "/ws/.venv/bin/python"
      w_dir_is_file
    = Raises (Exception FileExistsError msg) w_dir_is_file.
Proof.
  split; [reflexivity|].
  exact (X8_settings_dir_is_a_file "/ws" ["/a"] "/ws/.venv/bin/python"
           w_dir_is_file true true (Junk "") eq_refl).
Defined.

Lemma X10_witness :
  NoDup (keys user_settings) /\
  exists d,
    assign_settings (JObj user_settings) ["/a"] "/ws/.venv/bin/python"
      w_settings
    = Returns (JObj d) w_settings /\
    keys d
    = [ "editor.tabSize";
        "python.analysis.typeCheckingMode";
        "python.defaultInterpreterPath";
        "python.analysis.extraPaths";
        "python.autoComplete.extraPaths";
        "python.analysis.diagnosticMode";
        "cmake.configureOnOpen" ] /\
    NoDup (keys d).
Proof.
  assert (H : NoDup (keys user_settings)).
  { repeat (constructor; [simpl; intuition discriminate|]). constructor. }
  split; [exact H|].
  destruct (X10_settings_key_order user_settings ["/a"]
              "/ws/.venv/bin/python" w_settings) as (d & E & Hk & Hn).
  exists d. split; [exact E|]. split; [rewrite Hk; reflexivity|].
  exact (Hn H).
Defined.

Lemma X11_witness :
  "/ws/pyproject.toml" <> str (settings_file_of (Path "/ws")) /\
  "/ws/pyproject.toml" <> str (settings_dir_of (Path "/ws")) /\
  stored (update_vscode_settings (Path "/ws") ["/a"] "/ws/.venv/bin/python"
            w_fresh) "/ws/pyproject.toml"
  = Some (File true true (TomlText pyproject)).
Proof.
  assert (H1 : "/ws/pyproject.toml" <> str (settings_file_of (Path "/ws")))
    by discriminate.
  assert (H2 : "/ws/pyproject.toml" <> str (settings_dir_of (Path "/ws")))
    by discriminate.
  split; [exact H1|]. split; [exact H2|].
  unfold stored.
  rewrite (X11_settings_frame "/ws" ["/a"] "/ws/.venv/bin/python" w_fresh
             "/ws/pyproject.toml" H1 H2).
  reflexivity.
Defined.

Lemma X14_witness :
  ["turtle_brick"] <> [] /\
  merge_known_first_party (TTable pyproject) ["turtle_brick"] w_fresh
  = Returns (TTable pyproject_merged) w_fresh /\
  exists L, stored_list pyproject = Some L.
Proof.
  assert (H1 : ["turtle_brick"] <> []) by discriminate.
  assert (H2 : merge_known_first_party (TTable pyproject) ["turtle_brick"]
                 w_fresh
               = Returns (TTable pyproject_merged) w_fresh) by reflexivity.
  split; [exact H1|]. split; [exact H2|].
  exact (X14_merge_needs_strings pyproject ["turtle_brick"] w_fresh w_fresh
           (TTable pyproject_merged) H1 H2).
Defined.

Lemma X15_witness :
  merge_known_first_party (TTable pyproject) ["turtle_brick"] w_fresh
  = Returns (TTable pyproject_merged) w_fresh /\
  diverges ["project"; "name"] known_first_party_path = true /\
  get_path (TTable pyproject_merged) ["project"; "name"]
  = Some (TStr "turtle_brick").
Proof.
  assert (H1 : merge_known_first_party (TTable pyproject) ["turtle_brick"]
                 w_fresh
               = Returns (TTable pyproject_merged) w_fresh) by reflexivity.
  assert (H2 : diverges ["project"; "name"] known_first_party_path = true)
    by reflexivity.
  split; [exact H1|]. split; [exact H2|].
  rewrite (X15_merge_keeps_other_content pyproject ["turtle_brick"] w_fresh
             w_fresh (TTable pyproject_merged) ["project"; "name"] H1 H2).
  reflexivity.
Defined.

Lemma X16_witness :
  length (argv sys_no_arg) < 2 /\
  exit_status (main sys_no_arg w_fresh) = 1 /\
  fs (final (main sys_no_arg w_fresh)) = fs w_fresh.
Proof.
  assert (H : length (argv sys_no_arg) < 2) by (simpl; lia).
  split; [exact H|].
  destruct (X16_missing_argument sys_no_arg w_fresh H) as [E Hs].
  split; [exact Hs|]. rewrite E. reflexivity.
Defined.

Lemma X17_witness :
  argv sys_env = ["setup_vscode.py"; "kilted"] /\
  discovery sys_env (fs w_no_packages) "kilted" = (["/a"; "/b"; "/c"], []) /\
  stored (main sys_env w_no_packages) "/ws/pyproject.toml" = None.
Proof.
  assert (H : discovery sys_env (fs w_no_packages) "kilted"
              = (["/a"; "/b"; "/c"], [])) by reflexivity.
  split; [reflexivity|]. split; [exact H|].
  unfold stored.
  change "/ws/pyproject.toml"
    with (str (toml_file_of (workspace_root sys_env))).
  rewrite (X17_no_package_no_lint_update sys_env w_no_packages
             "setup_vscode.py" "kilted" [] ["/a"; "/b"; "/c"] eq_refl H).
  reflexivity.
Defined.

Lemma X18_witness :
  argv (sys_kilted None) = ["setup_vscode.py"; "kilted"] /\
  discovery (sys_kilted None) (fs w_bare) "kilted" = ([], ["pkg"]) /\
  "/ws/.vscode" <> str (toml_file_of (workspace_root (sys_kilted None))) /\
  stored (main (sys_kilted None) w_bare) "/ws/.vscode" = None.
Proof.
  assert (H : discovery (sys_kilted None) (fs w_bare) "kilted"
              = ([], ["pkg"])) by reflexivity.
  assert (Hk : "/ws/.vscode"
               <> str (toml_file_of (workspace_root (sys_kilted None))))
    by discriminate.
  split; [reflexivity|]. split; [exact H|]. split; [exact Hk|].
  unfold stored.
  rewrite (X18_no_path_no_settings_update (sys_kilted None) w_bare
             "setup_vscode.py" "kilted" [] ["pkg"] "/ws/.vscode" eq_refl H
             Hk).
  reflexivity.
Defined.

Lemma X19_witness :
  argv sys_env = ["setup_vscode.py"; "kilted"] /\
  discovery sys_env (fs w_unreadable) "kilted"
  = (["/ws/install/turtle_brick/lib"; "/a"; "/b"; "/c"],
     ["brick_interfaces"; "turtle_brick"]) /\
  (exists msg,
     update_vscode_settings (workspace_root sys_env)
       ["/ws/install/turtle_brick/lib"; "/a"; "/b"; "/c"]
       (executable sys_env) w_unreadable
     = Raises (Exception PermissionError msg) w_unreadable) /\
  exists c msg w',
    main sys_env w_unreadable = Raises (Exception c msg) w' /\
    exit_status (main sys_env w_unreadable) = 1 /\
    lookup (fs w') "/ws/pyproject.toml" = None.
Proof.
  assert (H1 : discovery sys_env (fs w_unreadable) "kilted"
               = (["/ws/install/turtle_brick/lib"; "/a"; "/b"; "/c"],
                  ["brick_interfaces"; "turtle_brick"])) by reflexivity.
  assert (H2 : update_vscode_settings (workspace_root sys_env)
                 ["/ws/install/turtle_brick/lib"; "/a"; "/b"; "/c"]
                 (executable sys_env) w_unreadable
               = Raises
                   (Exception PermissionError
                      "[Errno 13] Permission denied: '/ws/.vscode/settings.json'")
                   w_unreadable) by reflexivity.
  split; [reflexivity|]. split; [exact H1|].
  split; [eexists; exact H2|].
  destruct (X19_settings_error_ends_run sys_env w_unreadable
              "setup_vscode.py" "kilted" []
              ["/ws/install/turtle_brick/lib"; "/a"; "/b"; "/c"]
              ["brick_interfaces"; "turtle_brick"] _ _ eq_refl H1
              ltac:(discriminate) H2)
    as (c & msg & w' & E & Hs & Ht & _).
  exists c, msg, w'. split; [exact E|]. split; [exact Hs|].
  exact Ht.
Defined.

Lemma X20_witness :
  "/ws/install/setup.bash"
  <> str (settings_file_of (workspace_root sys_env)) /\
  "/ws/install/setup.bash"
  <> str (settings_dir_of (workspace_root sys_env)) /\
  "/ws/install/setup.bash" <> str (toml_file_of (workspace_root sys_env)) /\
  stored (main sys_env w_fresh) "/ws/install/setup.bash"
  = Some (File true true (Junk "# setup")).
Proof.
  assert (H1 : "/ws/install/setup.bash"
               <> str (settings_file_of (workspace_root sys_env)))
    by discriminate.
  assert (H2 : "/ws/install/setup.bash"
               <> str (settings_dir_of (workspace_root sys_env)))
    by discriminate.
  assert (H3 : "/ws/install/setup.bash"
               <> str (toml_file_of (workspace_root sys_env)))
    by discriminate.
  split; [exact H1|]. split; [exact H2|]. split; [exact H3|].
  unfold stored.
  rewrite (X20_run_frame sys_env w_fresh "/ws/install/setup.bash" H1 H2 H3).
  reflexivity.
Defined.

Lemma X21_witness :
  argv sys_env = ["setup_vscode.py"; "kilted"] /\
  lookup (fs w_settings) "/ws/.vscode" = Some (Dir true) /\
  discovery sys_env (fs (final (main sys_env w_settings))) "kilted"
  = (["/ws/install/turtle_brick/lib"; "/a"; "/b"; "/c"],
     ["brick_interfaces"; "turtle_brick"]).
Proof.
  split; [reflexivity|]. split; [reflexivity|].
  destruct (X21_run_keeps_discovery sys_env w_settings "setup_vscode.py"
              "kilted" [] true eq_refl eq_refl) as [H _].
  rewrite H. reflexivity.
Defined.

Lemma X22_witness :
  let w1 := final (main sys_env w_settings) in
  Roundtrip symbolic /\
  argv sys_env = ["setup_vscode.py"; "kilted"] /\
  lookup (fs w_settings) "/ws/.vscode" = Some (Dir true) /\
  main sys_env w_settings = Returns tt w1 /\
  exists w2,
    main sys_env w1 = Returns tt w2 /\
    lookup (fs w2) "/ws/.vscode/settings.json"
    = lookup (fs w1) "/ws/.vscode/settings.json" /\
    lookup (fs w2) "/ws/pyproject.toml" = lookup (fs w1) "/ws/pyproject.toml".
Proof.
  intros w1.
  assert (H1 : main sys_env w_settings = Returns tt w1)
    by (vm_compute; reflexivity).
  split; [exact symbolic_roundtrip|]. split; [reflexivity|].
  split; [reflexivity|]. split; [exact H1|].
  exact (X22_second_run_changes_nothing sys_env w_settings w1
           "setup_vscode.py" "kilted" [] true symbolic_roundtrip eq_refl
           eq_refl H1).
Defined.

Lemma X23_witness :
  let w1 := final (main sys_env w_fresh) in
  argv sys_env = ["setup_vscode.py"; "kilted"] /\
  discovery sys_env (fs w_fresh) "kilted"
  = (["/ws/install/turtle_brick/lib"; "/a"; "/b"; "/c"],
     ["brick_interfaces"; "turtle_brick"]) /\
  lookup (fs w_fresh) "/ws/pyproject.toml"
  = Some (File true true (TomlText pyproject)) /\
  stored_list pyproject = Some ["zeta"; "foo"] /\
  main sys_env w_fresh = Returns tt w1 /\
  exists t',
    lookup (fs w1) "/ws/pyproject.toml" = Some (File true true (TomlText t'))
    /\
    get_path (TTable t') known_first_party_path
    = Some (TArr [TStr "brick_interfaces"; TStr "foo"; TStr "turtle_brick";
                  TStr "zeta"]).
Proof.
  intros w1.
  assert (H1 : discovery sys_env (fs w_fresh) "kilted"
               = (["/ws/install/turtle_brick/lib"; "/a"; "/b"; "/c"],
                  ["brick_interfaces"; "turtle_brick"])) by reflexivity.
  assert (H2 : main sys_env w_fresh = Returns tt w1)
    by (vm_compute; reflexivity).
  split; [reflexivity|]. split; [exact H1|]. split; [reflexivity|].
  split; [reflexivity|]. split; [exact H2|].
  destruct (X23_run_updates_lint_config sys_env w_fresh w1
              "setup_vscode.py" "kilted" []
              ["/ws/install/turtle_brick/lib"; "/a"; "/b"; "/c"]
              ["brick_interfaces"; "turtle_brick"] ["zeta"; "foo"]
              (TomlText pyproject) pyproject eq_refl H1
              ltac:(discriminate) eq_refl eq_refl eq_refl H2)
    as (t' & Hf & Hp & _).
  exists t'. split; [exact Hf|]. rewrite Hp. reflexivity.
Defined.

Lemma X24_witness :
  let w1 := final (main sys_env w_settings) in
  argv sys_env = ["setup_vscode.py"; "kilted"] /\
  discovery sys_env (fs w_settings) "kilted"
  = (["/ws/install/turtle_brick/lib"; "/a"; "/b"; "/c"],
     ["brick_interfaces"; "turtle_brick"]) /\
  settings_writable (fs w_settings) (workspace_root sys_env) = true /\
  main sys_env w_settings = Returns tt w1 /\
  exists r d,
    lookup (fs w1) "/ws/.vscode/settings.json"
    = Some (File r true (JsonText (JObj d))) /\
    dict.get d "python.defaultInterpreterPath"
    = Some (JStr "/ws/.venv/bin/python").
Proof.
  intros w1.
  assert (H1 : discovery sys_env (fs w_settings) "kilted"
               = (["/ws/install/turtle_brick/lib"; "/a"; "/b"; "/c"],
                  ["brick_interfaces"; "turtle_brick"])) by reflexivity.
  assert (H2 : main sys_env w_settings = Returns tt w1)
    by (vm_compute; reflexivity).
  split; [reflexivity|]. split; [exact H1|]. split; [reflexivity|].
  split; [exact H2|].
  destruct (X24_run_updates_settings sys_env w_settings w1
              "setup_vscode.py" "kilted" []
              ["/ws/install/turtle_brick/lib"; "/a"; "/b"; "/c"]
              ["brick_interfaces"; "turtle_brick"] eq_refl H1
              ltac:(discriminate) eq_refl H2)
    as (r & d & Hf & Hb & _).
  exists r, d. split; [exact Hf|exact Hb].
Defined.

End MoreRuns.
